(** * A shallow embedding of the stateful plugin pipeline engine (cpp_plugins)

    The development follows the C++ sources under [cpp_plugins/src]:
    - [data_types.cpp]            : the result record [PluginResultImpl];
    - [decision_plugin_base.cpp]  : the classification state machine;
    - [evaluation_plugin_base.cpp]: the health composition;
    - [event_plugin_base.cpp]     : the score-alarm debounce;
    - [plugin_manager.cpp]        : the registry and the chain orchestrator.

    Conventions.  A C++ [double] is an IEEE-754 binary64 value, modelled by
    [spec_float] with the comparison and arithmetic of the standard library
    at precision 53 and maximal exponent 1024.  A C++ [int] is modelled by
    [Z]: the counters and indices of the code stay far inside the 32-bit
    range (signed overflow is undefined in C++ and is not modelled).  A
    [std::map<K,V>] is a [gmap K V]; a [std::vector] or [std::deque] is a
    list.  A [std::chrono::system_clock::time_point] is its tick count since
    the epoch, in [Z]; the default-constructed time point is [0].  Calls of
    [system_clock::now()] become an explicit argument [now]. *)

From Stdlib Require Import ZArith Bool List.
From Stdlib Require Import Floats.SpecFloat.
From stdpp Require Import base option list sorting gmap strings fin_maps.

Local Open Scope Z_scope.

(** ** Doubles *)

Module Double.

Definition double : Type := spec_float.

Definition prec : Z := 53.
Definition emax : Z := 1024.

(** [a <= b], [a < b] and [a == b] on doubles: false when either side is NaN. *)
Definition leb (a b : double) : bool := SFleb a b.
Definition ltb (a b : double) : bool := SFltb a b.
Definition eqb (a b : double) : bool := SFeqb a b.

Definition add (a b : double) : double := SFadd prec emax a b.
Definition mul (a b : double) : double := SFmul prec emax a b.
Definition div (a b : double) : double := SFdiv prec emax a b.

(** Conversion of an integer, as in [static_cast<double>(n)]. *)
Definition of_Z (n : Z) : double := binary_normalize prec emax n 0 false.

(** The literals [0.0] and [100.0]. *)
Definition zero : double := S754_zero false.
Definition hundred : double := S754_finite false 7036874417766400 (-46).

End Double.

Abbreviation double := Double.double.

(** ** The result record ([PluginResultImpl], data_types.cpp) *)

Module Result.

Record PluginResultImpl := mkResult {
  string_data_ : gmap string string;
  double_data_ : gmap string double;
  int_data_ : gmap string Z
}.

(** [PluginResultImpl::PluginResultImpl() = default]. *)
Definition empty : PluginResultImpl := mkResult ∅ ∅ ∅.

(** The three overloads of [setData]. *)
Definition setData_string (key value : string) (r : PluginResultImpl) : PluginResultImpl :=
  mkResult (<[key := value]> (string_data_ r)) (double_data_ r) (int_data_ r).

Definition setData_double (key : string) (value : double) (r : PluginResultImpl) : PluginResultImpl :=
  mkResult (string_data_ r) (<[key := value]> (double_data_ r)) (int_data_ r).

Definition setData_int (key : string) (value : Z) (r : PluginResultImpl) : PluginResultImpl :=
  mkResult (string_data_ r) (double_data_ r) (<[key := value]> (int_data_ r)).

Definition getStringData (key : string) (r : PluginResultImpl) : string :=
  match string_data_ r !! key with Some v => v | None => "" end.

Definition getDoubleData (key : string) (r : PluginResultImpl) : double :=
  match double_data_ r !! key with Some v => v | None => Double.zero end.

Definition getIntData (key : string) (r : PluginResultImpl) : Z :=
  match int_data_ r !! key with Some v => v | None => 0 end.

Definition hasData (key : string) (r : PluginResultImpl) : bool :=
  bool_decide (is_Some (string_data_ r !! key))
  || bool_decide (is_Some (double_data_ r !! key))
  || bool_decide (is_Some (int_data_ r !! key)).

(** A written value together with the overload that writes it: the
    argument type of a call [setData(key, v)] selects the typed slot. *)
Inductive value :=
| VString (s : string)
| VDouble (d : double)
| VInt (i : Z).

Definition setData (key : string) (v : value) (r : PluginResultImpl) : PluginResultImpl :=
  match v with
  | VString s => setData_string key s r
  | VDouble d => setData_double key d r
  | VInt i => setData_int key i r
  end.

(** Reading [key] back through the getter of the slot that [v] was written to. *)
Definition getData_as (v : value) (key : string) (r : PluginResultImpl) : value :=
  match v with
  | VString _ => VString (getStringData key r)
  | VDouble _ => VDouble (getDoubleData key r)
  | VInt _ => VInt (getIntData key r)
  end.

End Result.

(** ** Clock ([std::chrono::system_clock]) *)

Module Clock.

(** Ticks of [system_clock::duration] per second (nanoseconds with libstdc++). *)
Definition ticks_per_second : Z := 1000000000.

(** [duration_cast<seconds>(later - earlier).count()]: truncation toward zero. *)
Definition seconds_between (earlier later : Z) : Z :=
  Z.quot (later - earlier) ticks_per_second.

End Clock.

(** ** The classification state machine (decision_plugin_base.cpp) *)

Module Decision.

(** Input data: only the variant tag and the payload read by the code. *)
Inductive PluginData :=
| RealTimeData (custom_features : gmap string double)
| BatchData
| FeatureData (features_ : gmap string double)
| StatusData (status_ : Z).

(** Configuration members of [UniversalClassifyPluginBase] and
    [Motor97Plugin]: written by [validateParameters] or left at their
    in-class initialisers, and read-only during classification. *)
Record Config := mkConfig {
  max_history_size_ : nat;
  offline_length_ : Z;
  transition_status_ : Z;
  time_series_status_ : Z;
  transition_width_ : list Z;
  time_series_width_ : list Z;
  run_feature_num_ : Z;
  veto_index_ : Z;
  select_features_ : list string;
  thresholds_ : list (list double);
  status_mapping_ : gmap Z string
}.

(** Mutable members: the persistent per-instance state. *)
Record State := mkState {
  last_error_ : string;
  status_history_ : list Z;
  prev_time_ : Z;
  time_point_ : Z * Z;
  transition_counter_ : Z;
  close_counter_ : Z;
  time_series_counter_ : Z;
  prev_status_ : Z
}.

(** The in-class initialisers of the header. *)
Definition initial_state : State := mkState "" [] 0 (0, 0) 0 0 0 (-1).

Definition setError (error : string) (s : State) : State :=
  mkState error (status_history_ s) (prev_time_ s) (time_point_ s)
    (transition_counter_ s) (close_counter_ s) (time_series_counter_ s) (prev_status_ s).

Definition set_prev_time (t : Z) (s : State) : State :=
  mkState (last_error_ s) (status_history_ s) t (time_point_ s)
    (transition_counter_ s) (close_counter_ s) (time_series_counter_ s) (prev_status_ s).

Definition set_transition_counter (c : Z) (s : State) : State :=
  mkState (last_error_ s) (status_history_ s) (prev_time_ s) (time_point_ s)
    c (close_counter_ s) (time_series_counter_ s) (prev_status_ s).

Definition set_close_counter (c : Z) (s : State) : State :=
  mkState (last_error_ s) (status_history_ s) (prev_time_ s) (time_point_ s)
    (transition_counter_ s) c (time_series_counter_ s) (prev_status_ s).

Definition set_time_series_counter (c : Z) (s : State) : State :=
  mkState (last_error_ s) (status_history_ s) (prev_time_ s) (time_point_ s)
    (transition_counter_ s) (close_counter_ s) c (prev_status_ s).

Definition set_prev_status (p : Z) (s : State) : State :=
  mkState (last_error_ s) (status_history_ s) (prev_time_ s) (time_point_ s)
    (transition_counter_ s) (close_counter_ s) (time_series_counter_ s) p.

(** [DecisionPluginBase::addStatusToHistory] *)
Definition addStatusToHistory (cfg : Config) (status : Z) (s : State) : State :=
  let pushed := status_history_ s ++ [status] in
  let history := if (max_history_size_ cfg <? List.length pushed)%nat then tail pushed else pushed in
  mkState (last_error_ s) history (prev_time_ s) (time_point_ s)
    (transition_counter_ s) (close_counter_ s) (time_series_counter_ s) (prev_status_ s).

(** [status_count[status]++] over the history. *)
Definition count_statuses (history : list Z) : gmap Z Z :=
  fold_left (fun m status => <[status := default 0 (m !! status) + 1]> m) history ∅.

(** [std::max_element] over the entries of the map in key order with the
    comparison [a.second < b.second]: the first entry of maximal count. *)
Fixpoint max_element (best : Z * Z) (entries : list (Z * Z)) : Z * Z :=
  match entries with
  | [] => best
  | e :: rest => max_element (if snd best <? snd e then e else best) rest
  end.

Definition sorted_entries (m : gmap Z Z) : list (Z * Z) :=
  let keys := merge_sort Z.le (map fst (map_to_list m)) in
  map (fun k => (k, default 0 (m !! k))) keys.

(** [DecisionPluginBase::getMostFrequentStatus] *)
Definition getMostFrequentStatus (s : State) : Z :=
  match status_history_ s with
  | [] => -1
  | _ =>
    match sorted_entries (count_statuses (status_history_ s)) with
    | [] => -1
    | e :: rest => fst (max_element e rest)
    end
  end.

(** [UniversalClassifyPluginBase::resetState] *)
Definition resetState (s : State) : State :=
  mkState (last_error_ s) (status_history_ s) (prev_time_ s) (0, 0) 0 0 0 (-1).

(** [UniversalClassifyPluginBase::offlineCheck] *)
Definition offlineCheck (cfg : Config) (current_time : Z) (s : State) : State :=
  let s1 :=
    if prev_time_ s =? 0 then s
    else if offline_length_ cfg <? Clock.seconds_between (prev_time_ s) current_time
         then resetState s else s in
  set_prev_time current_time s1.

(** [UniversalClassifyPluginBase::calculateFeatureStatus]: the index of the
    first threshold that the value does not exceed, else the size. *)
Fixpoint first_not_exceeded (feature_value : double) (threshold : list double) (i : nat) : nat :=
  match threshold with
  | [] => i
  | t :: rest =>
    if Double.leb feature_value t then i else first_not_exceeded feature_value rest (S i)
  end.

Definition calculateFeatureStatus (feature_value : double) (threshold : list double) : Z :=
  Z.of_nat (first_not_exceeded feature_value threshold 0).

(** An ascending threshold list: every element is [<=] its successor. *)
Fixpoint is_ascending (threshold : list double) : bool :=
  match threshold with
  | a :: (b :: _) as rest => Double.leb a b && is_ascending rest
  | _ => true
  end.

(** The loop [for (int status : feature_statuses) if (status > 0) run_count++]. *)
Definition run_count (feature_statuses : list Z) : Z :=
  fold_left (fun n status => if 0 <? status then n + 1 else n) feature_statuses 0.

(** [UniversalClassifyPluginBase::calculateOverallStatus] *)
Definition calculateOverallStatus (cfg : Config) (feature_statuses : list Z) : Z :=
  match feature_statuses with
  | [] => 0
  | _ =>
    if (0 <=? veto_index_ cfg) && (veto_index_ cfg <? Z.of_nat (List.length feature_statuses))
       && (nth (Z.to_nat (veto_index_ cfg)) feature_statuses 0 =? 0)
    then 0
    else if run_feature_num_ cfg <=? run_count feature_statuses then 1 else 0
  end.

(** [UniversalClassifyPluginBase::calculateConfidence] *)
Definition calculateConfidence (s : State) (feature_statuses : list Z) : double :=
  match feature_statuses with
  | [] => Double.zero
  | _ =>
    let most_frequent := getMostFrequentStatus s in
    let consistent_count :=
      fold_left (fun n status => if status =? most_frequent then n + 1 else n) feature_statuses 0 in
    Double.div (Double.of_Z consistent_count) (Double.of_Z (Z.of_nat (List.length feature_statuses)))
  end.

(** [Motor97Plugin::handleTransition].  [transition_width_[k]] is read
    with [nth k _ 0]; the vector has two elements in every configuration
    the code builds. *)
Definition handleTransition (cfg : Config) (current_status previous_status : Z) (s : State)
  : bool * State :=
  if (current_status =? 1) && (previous_status =? 0) then
    let s1 := set_transition_counter (transition_counter_ s + 1) s in
    if nth 0 (transition_width_ cfg) 0 <=? transition_counter_ s1
    then (true, set_transition_counter 0 s1)
    else (false, s1)
  else if (current_status =? 0) && (previous_status =? 1) then
    let s1 := set_close_counter (close_counter_ s + 1) s in
    if nth 1 (transition_width_ cfg) 0 <=? close_counter_ s1
    then (false, set_transition_counter 0 (set_close_counter 0 s1))
    else (false, s1)
  else (false, s).

(** [Motor97Plugin::handleTimeSeriesTransition] *)
Definition handleTimeSeriesTransition (cfg : Config) (current_status previous_status : Z) (s : State)
  : bool * State :=
  if 0 <? nth 0 (time_series_width_ cfg) 0 then
    if negb (current_status =? previous_status) then
      let s1 := set_time_series_counter (time_series_counter_ s + 1) s in
      if nth 0 (time_series_width_ cfg) 0 <=? time_series_counter_ s1
      then (true, set_time_series_counter 0 s1)
      else (false, s1)
    else (false, set_time_series_counter 0 s)
  else (false, s).

(** The feature loop of [classifyStatus]: the sub-statuses in the order of
    [getSelectFeatures()], or the name of the first feature that the input
    lacks.  [getThresholds()[k]] is read with [nth k _ []] (the C++ index
    is unchecked; the configurations of interest give one threshold list
    per selected feature). *)
Fixpoint featureStatuses (cfg : Config) (features : gmap string double)
    (names : list string) (feature_statuses : list Z) : string + list Z :=
  match names with
  | [] => inr feature_statuses
  | feature_name :: rest =>
    match features !! feature_name with
    | Some v =>
      let status :=
        calculateFeatureStatus v (nth (List.length feature_statuses) (thresholds_ cfg) []) in
      featureStatuses cfg features rest (feature_statuses ++ [status])
    | None => inl feature_name
    end
  end.

(** The transition block of [classifyStatus], entered when
    [prev_status_ != -1 && overall_status != prev_status_]. *)
Definition smoothTransition (cfg : Config) (overall_status : Z) (s : State) : Z * State :=
  if negb (prev_status_ s =? -1) && negb (overall_status =? prev_status_ s) then
    let '(in_transition, s1) := handleTransition cfg overall_status (prev_status_ s) s in
    let overall1 := if in_transition then transition_status_ cfg else overall_status in
    let '(in_time_series, s2) := handleTimeSeriesTransition cfg overall1 (prev_status_ s1) s1 in
    let overall2 := if in_time_series then time_series_status_ cfg else overall1 in
    (overall2, s2)
  else (overall_status, s).

(** [UniversalClassifyPluginBase::classifyStatus], with the virtual
    [handleTransition] and [handleTimeSeriesTransition] resolved to their
    only definitions, those of [Motor97Plugin].  The result is the returned
    flag, the plugin state after the call and the output record after the
    call.  [std::map::at] throws on an absent key; the [catch] clause then
    records the error and returns [false]. *)
Definition classifyStatus (cfg : Config) (input : PluginData) (now : Z)
    (s : State) (output : Result.PluginResultImpl) : bool * State * Result.PluginResultImpl :=
  match input with
  | FeatureData features =>
    let s1 := offlineCheck cfg now s in
    match featureStatuses cfg features (select_features_ cfg) [] with
    | inl feature_name =>
      (false, setError (String.append "缺少特征: " feature_name) s1, output)
    | inr feature_statuses =>
      let '(overall_status, s2) :=
        smoothTransition cfg (calculateOverallStatus cfg feature_statuses) s1 in
      let s3 := set_prev_status overall_status (addStatusToHistory cfg overall_status s2) in
      let out1 := Result.setData_int "status" overall_status output in
      match status_mapping_ cfg !! overall_status with
      | None => (false, setError "状态分类异常: map::at" s3, out1)
      | Some status_name =>
        let out2 := Result.setData_string "status_name" status_name out1 in
        let out3 := Result.setData_double "confidence" (calculateConfidence s3 feature_statuses) out2 in
        (true, s3, out3)
      end
    end
  | _ => (false, setError "输入数据类型错误，期望FeatureData" s, output)
  end.

End Decision.

(** ** Health composition (evaluation_plugin_base.cpp) *)

Module Evaluation.

(** [struct HealthConfig] *)
Record HealthConfig := mkHealthConfig {
  name : string;
  formula : string;
  weights : list double;
  dependencies : list string
}.

(** The inner loop of [calculateOverallHealth], over the indices below both
    sizes: the pair [(weighted_sum, total_weight)]. *)
Fixpoint accumulate (feature_scores : gmap string double)
    (deps : list string) (ws : list double) (acc : double * double) : double * double :=
  match deps, ws with
  | dependency :: deps', weight :: ws' =>
    let acc' :=
      match feature_scores !! dependency with
      | Some score => (Double.add (fst acc) (Double.mul score weight), Double.add (snd acc) weight)
      | None => acc
      end in
    accumulate feature_scores deps' ws' acc'
  | _, _ => acc
  end.

(** [total_weight] after the loop: the sum of the weights of the
    dependencies that were found in [feature_scores]. *)
Definition total_weight (config : HealthConfig) (feature_scores : gmap string double) : double :=
  snd (accumulate feature_scores (dependencies config) (weights config) (Double.zero, Double.zero)).

Definition weighted_sum (config : HealthConfig) (feature_scores : gmap string double) : double :=
  fst (accumulate feature_scores (dependencies config) (weights config) (Double.zero, Double.zero)).

(** The value stored in [health_scores[config.name]] by one loop iteration. *)
Definition healthScore (config : HealthConfig) (feature_scores : gmap string double) : double :=
  if String.eqb (formula config) "weighted_average" then
    if Double.ltb Double.zero (total_weight config feature_scores)
    then Double.div (weighted_sum config feature_scores) (total_weight config feature_scores)
    else Double.hundred
  else Double.hundred.

(** [CompRealtimeHealth34Plugin::calculateOverallHealth] *)
Definition calculateOverallHealth (configs : list HealthConfig)
    (feature_scores : gmap string double) : gmap string double :=
  fold_left (fun health_scores config =>
               <[name config := healthScore config feature_scores]> health_scores)
            configs ∅.

End Evaluation.

(** ** Score-alarm debounce (event_plugin_base.cpp) *)

Module Event.

(** Parameters of [ScoreAlarmPluginBase] and [ScoreAlarm5Plugin]. *)
Record Config := mkConfig {
  tolerable_length_ : Z;
  alarm_interval_ : Z;
  health_definitions_ : list string;
  alarm_lines_ : list double
}.

(** The alarm state maps of [ScoreAlarmPluginBase]. *)
Record State := mkState {
  last_alarm_time_ : gmap string Z;
  alarm_count_ : gmap string Z;
  tolerable_count_ : gmap string Z
}.

Definition initial_state : State := mkState ∅ ∅ ∅.

(** [ScoreAlarmPluginBase::shouldTriggerAlarm] *)
Definition shouldTriggerAlarm (cfg : Config) (s : State)
    (health_name : string) (score : double) (now : Z) : bool :=
  let too_early :=
    match last_alarm_time_ s !! health_name with
    | Some last => Clock.seconds_between last now <? alarm_interval_ cfg
    | None => false
    end in
  if too_early then false
  else
    let current_count := default 0 (alarm_count_ s !! health_name) in
    let tolerable_count := default 0 (tolerable_count_ s !! health_name) in
    if current_count <? tolerable_count then false else true.

(** [ScoreAlarmPluginBase::updateAlarmState] *)
Definition updateAlarmState (s : State) (health_name : string) (score : double) (now : Z) : State :=
  let count :=
    match alarm_count_ s !! health_name with
    | Some c => c + 1
    | None => 1
    end in
  mkState (<[health_name := now]> (last_alarm_time_ s))
          (<[health_name := count]> (alarm_count_ s))
          (<[health_name := 0]> (tolerable_count_ s)).

End Event.

(** ** The registry and the chain orchestrator (plugin_manager.cpp) *)

Module Chain.

Import Result.

(** The part of the [IPlugin] interface that the managers call.  A plugin
    object is a value of [P]; a method that mutates the object returns the
    object after the call.  [process] also returns the output record after
    the call. *)
Class IPlugin (P Param Data : Type) := {
  initialize : P -> Param -> bool * P;
  process : P -> Data -> PluginResultImpl -> bool * P * PluginResultImpl
}.

Section Managers.

Context {P Param Data : Type} `{IPlugin P Param Data}.

(** [IPluginFactory]: what [createPlugin()] returns, a fresh object or
    a null pointer. *)
Definition IPluginFactory : Type := option P.

(** [PluginManager]: the name -> factory map. *)
Record PluginManager := mkPluginManager {
  plugin_factories_ : gmap string IPluginFactory
}.

Definition isPluginAvailable (manager : PluginManager) (plugin_name : string) : bool :=
  bool_decide (is_Some (plugin_factories_ manager !! plugin_name)).

(** [PluginManager::createPlugin(plugin_name)] *)
Definition createPlugin (manager : PluginManager) (plugin_name : string) : option P :=
  match plugin_factories_ manager !! plugin_name with
  | Some factory => factory
  | None => None
  end.

(** [PluginManager::createPlugin(plugin_name, params)]: a null [params]
    skips the initialisation. *)
Definition createPlugin_params (manager : PluginManager) (plugin_name : string)
    (params : option Param) : option P :=
  match createPlugin manager plugin_name with
  | None => None
  | Some plugin =>
    match params with
    | None => Some plugin
    | Some prm =>
      let '(ok, plugin') := initialize plugin prm in
      if ok then Some plugin' else None
    end
  end.

(** [PluginChainManager::ChainConfig] *)
Record ChainConfig := mkChainConfig {
  chain_name : string;
  plugin_names : list string;
  plugin_params : list (option Param);
  data_mappings : gmap string string
}.

(** [PluginChainManager] *)
Record PluginChainManager := mkChainManager {
  plugin_chains_ : gmap string ChainConfig;
  plugin_instances_ : gmap string (gmap string P)
}.

Definition empty_manager : PluginChainManager := mkChainManager ∅ ∅.

Definition isChainAvailable (m : PluginChainManager) (name : string) : bool :=
  bool_decide (is_Some (plugin_chains_ m !! name)).

(** [plugin_instances_[chain][plugin_name] = plugin] *)
Definition store_instance (chain plugin_name : string) (plugin : P)
    (instances : gmap string (gmap string P)) : gmap string (gmap string P) :=
  <[chain := <[plugin_name := plugin]> (default ∅ (instances !! chain))]> instances.

(** The loop of [initializeChainPlugins] from index [i] on. *)
Fixpoint initializeLoop (manager : PluginManager) (config : ChainConfig) (chain : string)
    (names : list string) (i : nat) (instances : gmap string (gmap string P))
  : bool * gmap string (gmap string P) :=
  match names with
  | [] => (true, instances)
  | plugin_name :: rest =>
    let params := match plugin_params config !! i with Some p => p | None => None end in
    match createPlugin_params manager plugin_name params with
    | None => (false, instances)
    | Some plugin =>
      initializeLoop manager config chain rest (S i) (store_instance chain plugin_name plugin instances)
    end
  end.

(** [PluginChainManager::initializeChainPlugins] *)
Definition initializeChainPlugins (manager : PluginManager) (chain : string)
    (m : PluginChainManager) : bool * PluginChainManager :=
  match plugin_chains_ m !! chain with
  | None => (false, m)
  | Some config =>
    let '(ok, instances) :=
      initializeLoop manager config chain (plugin_names config) 0 (plugin_instances_ m) in
    (ok, mkChainManager (plugin_chains_ m) instances)
  end.

(** [PluginChainManager::createChain] *)
Definition createChain (manager : PluginManager) (config : ChainConfig)
    (m : PluginChainManager) : bool * PluginChainManager :=
  if bool_decide (chain_name config = ""%string) || bool_decide (plugin_names config = []) then (false, m)
  else if forallb (isPluginAvailable manager) (plugin_names config) then
    initializeChainPlugins manager (chain_name config)
      (mkChainManager (<[chain_name config := config]> (plugin_chains_ m)) (plugin_instances_ m))
  else (false, m).

(** [PluginChainManager::executePluginInChain]: the object found under
    [plugin_instances_[chain][plugin_name]] is shared with the map, so the
    object after [process] is the one the map holds afterwards. *)
Definition executePluginInChain (chain plugin_name : string) (input_data : Data)
    (instances : gmap string (gmap string P)) (output_result : PluginResultImpl)
  : bool * gmap string (gmap string P) * PluginResultImpl :=
  match instances !! chain with
  | None => (false, instances, output_result)
  | Some of_chain =>
    match of_chain !! plugin_name with
    | None => (false, instances, output_result)
    | Some plugin =>
      let '(ok, plugin', output') := process plugin input_data output_result in
      (ok, <[chain := <[plugin_name := plugin']> of_chain]> instances, output')
    end
  end.

(** [PluginChainManager::convertDataForPlugin] *)
Definition convertDataForPlugin (input_data : Data) (target_plugin : option P) : Data :=
  input_data.

(** The stage loop of [executeChain].  Besides the flag, the instance map
    and [current_result], the loop returns the names handed to
    [executePluginInChain], in call order; this list is bookkeeping of the
    model, the C++ keeps no such log.  After a successful stage both map
    entries exist, so [plugin_instances_[chain][plugin_name]] only reads. *)
Fixpoint executeLoop (chain : string) (names : list string) (current_data : Data)
    (instances : gmap string (gmap string P)) (current_result : PluginResultImpl)
    (calls : list string)
  : bool * gmap string (gmap string P) * PluginResultImpl * list string :=
  match names with
  | [] => (true, instances, current_result, calls)
  | plugin_name :: rest =>
    let '(ok, instances', result') :=
      executePluginInChain chain plugin_name current_data instances current_result in
    if ok then
      let next_data :=
        match rest with
        | [] => current_data
        | _ => convertDataForPlugin current_data ((instances' !! chain) ≫= (.!! plugin_name))
        end in
      executeLoop chain rest next_data instances' result' (calls ++ [plugin_name])
    else (false, instances', result', calls ++ [plugin_name])
  end.

(** [PluginChainManager::executeChain].  The third component is what the
    call copies into the caller's record [*output_result]: nothing, on every
    path.  The early returns do not reach the final assignment, and the final
    assignment [*output_result = *current_result] goes through references to
    the abstract base [PluginResult], whose implicitly defined copy
    assignment is not virtual and finds no data member to copy: no entry of
    [current_result] reaches the caller's record.  The record that the
    stages have filled is local and is dropped on return. *)
Definition executeChain (m : PluginChainManager) (chain : string) (input_data : Data)
  : bool * PluginChainManager * option PluginResultImpl * list string :=
  match plugin_chains_ m !! chain with
  | None => (false, m, None, [])
  | Some config =>
    let '(ok, instances, current_result, calls) :=
      executeLoop chain (plugin_names config) input_data (plugin_instances_ m) Result.empty [] in
    (ok, mkChainManager (plugin_chains_ m) instances, None, calls)
  end.

End Managers.

Arguments PluginManager : clear implicits.
Arguments ChainConfig : clear implicits.
Arguments PluginChainManager : clear implicits.

End Chain.

(** ** [AlgorithmWork] (plugin_base.cpp): the base class of concrete plugins *)

Module AlgorithmWork.

Import Result.

(** How a call of the virtual [algorithm] ends.  It returns its flag, with
    the output record as it has left it and the text of its last [setError],
    if it made one; or it throws a [std::exception] with the message [what],
    with the output record as it stood at the throw. *)
Inductive outcome :=
| Returns (ok : bool) (output : PluginResultImpl) (error : option string)
| Throws (what : string) (output : PluginResultImpl).

(** An object of a class derived from [AlgorithmWork].  The two protected
    virtuals are fields: the derived class fixes them. *)
Record AlgorithmWork (Param D : Type) := mkWork {
  initialized_ : bool;
  last_error_ : string;
  parameters_ : option Param;
  validateParameters : Param -> bool;
  algorithm : D -> PluginResultImpl -> outcome
}.

Arguments mkWork {Param D}.
Arguments initialized_ {Param D}.
Arguments last_error_ {Param D}.
Arguments parameters_ {Param D}.
Arguments validateParameters {Param D}.
Arguments algorithm {Param D}.

Section Methods.

Context {Param D : Type}.

(** A freshly constructed object ([AlgorithmWork::AlgorithmWork]). *)
Definition construct (validate : Param -> bool)
    (algo : D -> PluginResultImpl -> outcome) : AlgorithmWork Param D :=
  mkWork false ""%string None validate algo.

(** [AlgorithmWork::initialize] *)
Definition initialize (w : AlgorithmWork Param D) (params : Param) : bool * AlgorithmWork Param D :=
  let ok := validateParameters w params in
  if ok then (true, mkWork true (last_error_ w) (Some params) (validateParameters w) (algorithm w))
  else (false, mkWork false "参数验证失败" (Some params) (validateParameters w) (algorithm w)).

(** [AlgorithmWork::setError] *)
Definition setError (error : string) (w : AlgorithmWork Param D) : AlgorithmWork Param D :=
  mkWork (initialized_ w) error (parameters_ w) (validateParameters w) (algorithm w).

(** [AlgorithmWork::process]; a null [input] is [None].  The [catch]
    clause turns an exception of [algorithm] into a failure whose text is
    stored with [setError]. *)
Definition process (w : AlgorithmWork Param D) (input : option D) (output : PluginResultImpl)
  : bool * AlgorithmWork Param D * PluginResultImpl :=
  if negb (initialized_ w) then
    (false, mkWork (initialized_ w) "插件未初始化" (parameters_ w) (validateParameters w) (algorithm w), output)
  else
    match input with
    | None =>
      (false, mkWork (initialized_ w) "输入或输出数据为空" (parameters_ w) (validateParameters w) (algorithm w), output)
    | Some d =>
      match algorithm w d output with
      | Returns ok output' error =>
        (ok, match error with Some text => setError text w | None => w end, output')
      | Throws what output' => (false, setError ("算法执行异常: " ++ what) w, output')
      end
    end.

End Methods.

#[global] Instance AlgorithmWork_IPlugin (Param D : Type)
  : Chain.IPlugin (AlgorithmWork Param D) Param (option D) :=
  {| Chain.initialize := initialize; Chain.process := process |}.

End AlgorithmWork.

(** ** Concrete configurations used in the examples *)

Module Examples.

Import Result.

(** Doubles [0.0], [100.0], [200.0], [150.0], [-5.0]. *)
Definition d0 : double := Double.of_Z 0.
Definition d100 : double := Double.of_Z 100.
Definition d200 : double := Double.of_Z 200.
Definition d150 : double := Double.of_Z 150.
Definition dm5 : double := Double.of_Z (-5).

(** The status names installed by [Motor97Plugin::parseStatusMapping]. *)
Definition motor_mapping : gmap Z string :=
  <[0 := "停机"%string]> (<[1 := "运行"%string]> (<[2 := "过渡"%string]> (<[3 := "异常"%string]> ∅))).

(** A [Motor97Plugin] after [validateParameters] with
    [select_features = ["mean_hf"]], [threshold = [[0,100,200]]] and a
    non-empty [status_mapping]; every other member keeps its in-class
    initialiser. *)
Definition motor97 : Decision.Config :=
  Decision.mkConfig 10 3600 2 5 [60; 10] [0; 0] 1 (-1)
    ["mean_hf"%string] [[d0; d100; d200]] motor_mapping.

Definition reading (v : double) : Decision.PluginData :=
  Decision.FeatureData (<["mean_hf"%string := v]> ∅).

(** The classifier state that [motor97] reaches from the initial state by
    two readings, stopped and then running, the second one second after the
    epoch: the device was last seen running. *)
Definition seen_running : Decision.State :=
  Decision.mkState "" [0; 1] 1000000000 (0, 0) 1 0 0 1.

(** A [ScoreAlarm5Plugin] with the default [tolerable_length = 5] and
    [alarm_interval = 180]. *)
Definition score_alarm5 : Event.Config :=
  Event.mkConfig 5 180 ["overall_health"%string] [Double.of_Z 60; Double.of_Z 80].

(** Feature scores and health configurations. *)
Definition scores : gmap string double :=
  <["vibration"%string := Double.of_Z 80]> ∅.

Definition resolved_health : Evaluation.HealthConfig :=
  Evaluation.mkHealthConfig "overall_health" "weighted_average"
    [Double.of_Z 2] ["vibration"%string].

Definition unresolved_health : Evaluation.HealthConfig :=
  Evaluation.mkHealthConfig "overall_health" "weighted_average"
    [Double.of_Z 2] ["temperature"%string].

Definition geometric_health : Evaluation.HealthConfig :=
  Evaluation.mkHealthConfig "trend_health" "geometric_mean"
    [Double.of_Z 1] ["vibration"%string].

(** Parameters of the chain examples: the [select_features] string array. *)
Definition Param : Type := list string.

(** A derived plugin whose [validateParameters] rejects an empty
    [select_features] (as the plugins of the repository do) and whose
    [algorithm] records a feature and succeeds. *)
Definition extractor : AlgorithmWork.AlgorithmWork Param unit :=
  AlgorithmWork.construct
    (fun select_features => negb (bool_decide (select_features = [])))
    (fun _ output => AlgorithmWork.Returns true (setData_double "mean_hf" d150 output) None).

(** A plugin that keeps the base [AlgorithmWork::validateParameters] and
    the base [AlgorithmWork::algorithm]: the parameters are accepted, and
    every input fails with the error text of the base class. *)
Definition unimplemented : AlgorithmWork.AlgorithmWork Param unit :=
  AlgorithmWork.construct (fun _ => true)
    (fun _ output => AlgorithmWork.Returns false output (Some "算法未实现"%string)).

(** A derived plugin whose [algorithm] overwrites the feature. *)
Definition rescaler : AlgorithmWork.AlgorithmWork Param unit :=
  AlgorithmWork.construct (fun _ => true)
    (fun _ output => AlgorithmWork.Returns true (setData_double "mean_hf" d100 output) None).

Definition registry : Chain.PluginManager (AlgorithmWork.AlgorithmWork Param unit) :=
  Chain.mkPluginManager
    (<["extractor"%string := Some extractor]>
       (<["unimplemented"%string := Some unimplemented]>
          (<["rescaler"%string := Some rescaler]> ∅))).

(** A chain whose second stage fails at run time. *)
Definition monitoring : Chain.ChainConfig Param :=
  Chain.mkChainConfig "monitoring"
    ["extractor"%string; "unimplemented"%string; "rescaler"%string]
    [Some ["mean_hf"%string]; Some ["mean_hf"%string]; Some ["mean_hf"%string]] ∅.

(** A chain whose second stage fails to initialise: the parameters of the
    extractor carry an empty [select_features]. *)
Definition half_built : Chain.ChainConfig Param :=
  Chain.mkChainConfig "half_built"
    ["rescaler"%string; "extractor"%string]
    [Some ["mean_hf"%string]; Some []] ∅.

(** A chain that names a plugin absent from the registry. *)
Definition dangling : Chain.ChainConfig Param :=
  Chain.mkChainConfig "dangling"
    ["rescaler"%string; "motor97"%string]
    [Some ["mean_hf"%string]; Some ["mean_hf"%string]] ∅.

(** The chain manager after [createChain(monitoring)] on an empty manager. *)
Definition with_monitoring : Chain.PluginChainManager (AlgorithmWork.AlgorithmWork Param unit) Param :=
  (Chain.createChain (Data := option unit) registry monitoring Chain.empty_manager).2.

End Examples.

(** ** Registry and chain maintenance (plugin_manager.cpp) *)

Module ChainOps.

Import Chain.

Section Operations.

Context {P Param Data : Type} `{IPlugin P Param Data}.

(** [PluginManager::registerPluginFactory(plugin_name, factory)]; a null
    [factory] pointer is [None]. *)
Definition registerPluginFactory (plugin_name : string) (factory : option (@IPluginFactory P))
    (manager : PluginManager P) : bool * PluginManager P :=
  match factory with
  | None => (false, manager)
  | Some f =>
    if bool_decide (plugin_name = ""%string) then (false, manager)
    else (true, mkPluginManager (<[plugin_name := f]> (plugin_factories_ manager)))
  end.

(** [PluginManager::unregisterPlugin] *)
Definition unregisterPlugin (plugin_name : string) (manager : PluginManager P)
  : bool * PluginManager P :=
  match plugin_factories_ manager !! plugin_name with
  | Some _ => (true, mkPluginManager (delete plugin_name (plugin_factories_ manager)))
  | None => (false, manager)
  end.

(** [PluginManager::clearAllPlugins] *)
Definition clearAllPlugins (manager : PluginManager P) : PluginManager P :=
  mkPluginManager ∅.

(** [PluginChainManager::addPluginToChain] *)
Definition addPluginToChain (manager : PluginManager P) (chain plugin_name : string)
    (params : option Param) (m : PluginChainManager P Param) : bool * PluginChainManager P Param :=
  match plugin_chains_ m !! chain with
  | None => (false, m)
  | Some config =>
    if isPluginAvailable manager plugin_name then
      let config' :=
        mkChainConfig (chain_name config) (plugin_names config ++ [plugin_name])
          (plugin_params config ++ [params]) (data_mappings config) in
      (true, mkChainManager (<[chain := config']> (plugin_chains_ m)) (plugin_instances_ m))
    else (false, m)
  end.

(** [std::find] followed by [std::distance]: the index of the first
    occurrence. *)
Fixpoint find_index (plugin_name : string) (names : list string) (i : nat) : option nat :=
  match names with
  | [] => None
  | n :: rest => if bool_decide (n = plugin_name) then Some i else find_index plugin_name rest (S i)
  end.

(** [PluginChainManager::removePluginFromChain] *)
Definition removePluginFromChain (chain plugin_name : string) (m : PluginChainManager P Param)
  : bool * PluginChainManager P Param :=
  match plugin_chains_ m !! chain with
  | None => (false, m)
  | Some config =>
    match find_index plugin_name (plugin_names config) 0 with
    | Some index =>
      let params' :=
        if (index <? List.length (plugin_params config))%nat
        then delete index (plugin_params config) else plugin_params config in
      let config' :=
        mkChainConfig (chain_name config) (delete index (plugin_names config))
          params' (data_mappings config) in
      (true, mkChainManager (<[chain := config']> (plugin_chains_ m)) (plugin_instances_ m))
    | None => (false, m)
    end
  end.

(** [PluginChainManager::clearChain] *)
Definition clearChain (chain : string) (m : PluginChainManager P Param)
  : bool * PluginChainManager P Param :=
  match plugin_chains_ m !! chain with
  | Some _ =>
    (true, mkChainManager (delete chain (plugin_chains_ m)) (delete chain (plugin_instances_ m)))
  | None => (false, m)
  end.

(** [PluginChainManager::getChainPlugins] *)
Definition getChainPlugins (m : PluginChainManager P Param) (chain : string) : list string :=
  match plugin_chains_ m !! chain with
  | Some config => plugin_names config
  | None => []
  end.

(** [PluginChainManager::setDataMapping] *)
Definition setDataMapping (chain source_plugin target_plugin data_key : string)
    (m : PluginChainManager P Param) : bool * PluginChainManager P Param :=
  match plugin_chains_ m !! chain with
  | None => (false, m)
  | Some config =>
    let mapping_key := String.append source_plugin (String.append "->" target_plugin) in
    let config' :=
      mkChainConfig (chain_name config) (plugin_names config) (plugin_params config)
        (<[mapping_key := data_key]> (data_mappings config)) in
    (true, mkChainManager (<[chain := config']> (plugin_chains_ m)) (plugin_instances_ m))
  end.

End Operations.

End ChainOps.

(** ** Views of the chain manager used in the statements *)

Module ChainView.

Import Chain.

(** The object stored under [plugin_instances_[chain][plugin_name]], if any. *)
Definition instance_of {P : Type} (instances : gmap string (gmap string P))
    (chain plugin_name : string) : option P :=
  (instances !! chain) ≫= (.!! plugin_name).

(** The flag returned by [executeChain]. *)
Definition succeeded {P Param : Type}
    (run : bool * PluginChainManager P Param * option Result.PluginResultImpl * list string) : bool :=
  run.1.1.1.

End ChainView.

(** ** Further scenarios *)

Module Scenarios.

Import Result.

(** A one-stage chain and the manager that holds it. *)
Definition extraction : Chain.ChainConfig Examples.Param :=
  Chain.mkChainConfig "extraction" ["extractor"%string] [Some ["mean_hf"%string]] ∅.

Definition with_extraction
  : Chain.PluginChainManager (AlgorithmWork.AlgorithmWork Examples.Param unit) Examples.Param :=
  (Chain.createChain (Data := option unit) Examples.registry extraction Chain.empty_manager).2.

(** A two-stage chain whose stages both succeed: the second overwrites
    the feature that the first has written. *)
Definition rescaling : Chain.ChainConfig Examples.Param :=
  Chain.mkChainConfig "rescaling" ["extractor"%string; "rescaler"%string]
    [Some ["mean_hf"%string]; Some ["mean_hf"%string]] ∅.

Definition with_rescaling
  : Chain.PluginChainManager (AlgorithmWork.AlgorithmWork Examples.Param unit) Examples.Param :=
  (Chain.createChain (Data := option unit) Examples.registry rescaling Chain.empty_manager).2.

End Scenarios.

(** ** Invariants of the classifier state used in the statements *)

Module DecisionView.

Import Decision.

(** The counters stay inside their windows: each lies between 0 and the
    width that resets it. *)
Definition counters_bounded (cfg : Config) (s : State) : Prop :=
  0 <= transition_counter_ s < nth 0 (transition_width_ cfg) 0
  /\ 0 <= close_counter_ s < nth 1 (transition_width_ cfg) 0
  /\ 0 <= time_series_counter_ s
  /\ (0 < nth 0 (time_series_width_ cfg) 0 ->
      time_series_counter_ s < nth 0 (time_series_width_ cfg) 0).

(** The state and the output of a classification call. *)
Definition state_after (run : bool * State * Result.PluginResultImpl) : State := run.1.2.
Definition output_after (run : bool * State * Result.PluginResultImpl) : Result.PluginResultImpl :=
  run.2.
Definition returned (run : bool * State * Result.PluginResultImpl) : bool := run.1.1.

End DecisionView.

(** ** Alarm levels and status alarms (event_plugin_base.cpp) *)

Module Alarm.

(** The loop of [EventPluginBase::calculateAlarmLevel] from index [i] on. *)
Fixpoint alarm_level_from (score : double) (alarm_lines : list double) (i : nat) : nat :=
  match alarm_lines with
  | [] => (i + 1)%nat
  | line :: rest =>
    if Double.leb score line then (i + 1)%nat else alarm_level_from score rest (S i)
  end.

(** [EventPluginBase::calculateAlarmLevel] *)
Definition calculateAlarmLevel (score : double) (alarm_lines : list double) : Z :=
  match alarm_lines with
  | [] => 0
  | _ => Z.of_nat (alarm_level_from score alarm_lines 0)
  end.


End Alarm.

Module StatusAlarm.

(** Members of [StatusAlarmPluginBase] that the alarm test reads without
    writing. *)
Record Config := mkConfig {
  alarm_enabled_ : bool;
  max_alarm_num_ : gmap Z Z;
  recovery_reset_time_ : gmap Z Z
}.

(** The alarm state maps of [StatusAlarmPluginBase], keyed by status code. *)
Record State := mkState {
  last_alarm_time_ : gmap Z Z;
  alarm_count_ : gmap Z Z
}.

Definition initial_state : State := mkState ∅ ∅.

(** The in-class initialisers: alarms enabled, no per-status limits. *)
Definition default_config : Config := mkConfig true ∅ ∅.

(** [StatusAlarmPluginBase::shouldTriggerStatusAlarm] *)
Definition shouldTriggerStatusAlarm (cfg : Config) (s : State) (status : Z) (now : Z) : bool :=
  if negb (alarm_enabled_ cfg) then false
  else
    let current_count := default 0 (alarm_count_ s !! status) in
    let max_count := default 10 (max_alarm_num_ cfg !! status) in
    if max_count <=? current_count then false
    else
      match last_alarm_time_ s !! status with
      | Some last =>
        let recovery_time := default 3600 (recovery_reset_time_ cfg !! status) in
        if Clock.seconds_between last now <? recovery_time then false else true
      | None => true
      end.

(** [StatusAlarmPluginBase::updateStatusAlarmState] *)
Definition updateStatusAlarmState (s : State) (status : Z) (now : Z) : State :=
  let count :=
    match alarm_count_ s !! status with
    | Some c => c + 1
    | None => 1
    end in
  mkState (<[status := now]> (last_alarm_time_ s)) (<[status := count]> (alarm_count_ s)).

(** A run of firings of one status at the given times, oldest first. *)
Definition fire_all (s : State) (status : Z) (times : list Z) : State :=
  fold_left (fun s now => updateStatusAlarmState s status now) times s.

End StatusAlarm.

(** ** Scores from thresholds (evaluation_plugin_base.cpp) *)

Module Score.

(** [a - b] on doubles. *)
Definition sub (a b : double) : double := SFsub Double.prec Double.emax a b.

(** [100.0 - (i * 100.0 / n)] for a bucket index [i] and a bucket count [n],
    both converted from [size_t]. *)
Definition bucket_score (i n : nat) : double :=
  sub Double.hundred
      (Double.div (Double.mul (Double.of_Z (Z.of_nat i)) Double.hundred)
                  (Double.of_Z (Z.of_nat n))).

(** The threshold loop shared by [calculateScore] and [convertToScore],
    from index [i] on, for a list of [n] thresholds. *)
Fixpoint score_from (value : double) (thresholds : list double) (i n : nat) : double :=
  match thresholds with
  | [] => Double.zero
  | t :: rest =>
    if Double.leb value t then bucket_score i n else score_from value rest (S i) n
  end.

(** [EvaluationPluginBase::calculateScore(value, thresholds)] *)
Definition calculateScore (value : double) (thresholds : list double) : double :=
  match thresholds with
  | [] => Double.hundred
  | _ => score_from value thresholds 0 (List.length thresholds)
  end.

(** The tail of [convertToScore], reached when the value exceeds every
    threshold: both branches return [0.0]. *)
Definition beyond_thresholds (value upper_limit : double) : double :=
  if Double.ltb Double.zero upper_limit && Double.ltb upper_limit value
  then Double.zero else Double.zero.

Fixpoint convert_from (value : double) (thresholds : list double) (upper_limit : double)
    (i n : nat) : double :=
  match thresholds with
  | [] => beyond_thresholds value upper_limit
  | t :: rest =>
    if Double.leb value t then bucket_score i n
    else convert_from value rest upper_limit (S i) n
  end.

(** [CompRealtimeHealth34Plugin::convertToScore] *)
Definition convertToScore (value : double) (thresholds : list double) (upper_limit : double)
  : double :=
  match thresholds with
  | [] => Double.hundred
  | _ => convert_from value thresholds upper_limit 0 (List.length thresholds)
  end.

End Score.

(** ** The realtime health engine ([RealtimeHealthPluginBase]) *)

Module RealtimeHealth.

Import Result.

(** Input data with the payload that the engine reads. *)
Inductive PluginData :=
| StatusData (status_ : Z)
| FeatureData (features_ : gmap string double)
| RealTimeData (mean_hf_ mean_lf_ mean_ std_ temperature_ speed_ : double)
| BatchData.

(** [struct FeatureStat] *)
Record FeatureStat := mkFeatureStat {
  analysis_features : string;
  analysis_status : string;
  statistic : list string;
  result_key : string;
  thresholds : list double;
  upper_limit : double;
  clean_formula : gmap string string;
  move_smooth_param : gmap string string;
  long_smooth : gmap string string
}.

(** Parameters and configuration lists. *)
Record Config := mkConfig {
  offline_length_ : Z;
  minimum_quantity_ : Z;
  close_width_ : Z;
  feature_stats_ : list FeatureStat;
  health_configs_ : list Evaluation.HealthConfig
}.

(** The caches and counters of the engine.  [last_error_] is left out: the
    modelled paths do not write it. *)
Record State := mkState {
  feature_cache_ : gmap string (list double);
  time_cache_ : gmap string (list Z);
  last_health_scores_ : gmap string double;
  close_count_ : Z;
  run_count_ : Z;
  prev_time_ : Z
}.

Definition initial_state : State := mkState ∅ ∅ ∅ 0 0 0.

(** [static_cast<int>(d)]: truncation toward zero.  The conversion is
    undefined in C++ for NaN, infinities and values outside the [int] range;
    here it gives 0 for the first two and the mathematical value otherwise. *)
Definition truncate (d : double) : Z :=
  match d with
  | S754_finite s m e =>
    let magnitude := if 0 <=? e then Z.shiftl (Zpos m) e else Z.shiftr (Zpos m) (- e) in
    if s then - magnitude else magnitude
  | _ => 0
  end.

(** The status that [statusCheckAndCacheData] derives from the input. *)
Definition input_status (input : PluginData) : Z :=
  match input with
  | StatusData status => status
  | FeatureData features =>
    match features !! "status"%string with
    | Some v => truncate v
    | None => 0
    end
  | _ => 0
  end.

(** The feature map that [statusCheckAndCacheData] derives from the input. *)
Definition input_features (input : PluginData) : gmap string double :=
  match input with
  | FeatureData features => features
  | RealTimeData mean_hf mean_lf mean std temperature speed =>
    <["speed"%string := speed]>
      (<["temperature"%string := temperature]>
         (<["std"%string := std]>
            (<["mean"%string := mean]>
               (<["mean_lf"%string := mean_lf]>
                  (<["mean_hf"%string := mean_hf]> ∅)))))
  | _ => ∅
  end.

(** [RealtimeHealthPluginBase::resetCache] *)
Definition resetCache (all_cache : bool) (s : State) : State :=
  mkState (if all_cache then ∅ else feature_cache_ s)
          (if all_cache then ∅ else time_cache_ s)
          (last_health_scores_ s) 0 0 (prev_time_ s).

(** [RealtimeHealthPluginBase::offlineCheck] *)
Definition offlineCheck (cfg : Config) (current_time : Z) (s : State) : State :=
  let s1 :=
    if prev_time_ s =? 0 then s
    else if offline_length_ cfg <? Clock.seconds_between (prev_time_ s) current_time
         then resetCache true s else s in
  mkState (feature_cache_ s1) (time_cache_ s1) (last_health_scores_ s1)
          (close_count_ s1) (run_count_ s1) current_time.

(** One iteration of the caching loop. *)
Definition cache_feature (features : gmap string double) (current_time : Z)
    (s : State) (stat : FeatureStat) : State :=
  match features !! analysis_features stat with
  | Some v =>
    mkState
      (<[analysis_features stat :=
           default [] (feature_cache_ s !! analysis_features stat) ++ [v]]> (feature_cache_ s))
      (<[analysis_status stat :=
           default [] (time_cache_ s !! analysis_status stat) ++ [current_time]]> (time_cache_ s))
      (last_health_scores_ s) (close_count_ s) (run_count_ s) (prev_time_ s)
  | None => s
  end.

(** [RealtimeHealthPluginBase::statusCheckAndCacheData] *)
Definition statusCheckAndCacheData (cfg : Config) (input_data : PluginData) (current_time : Z)
    (s : State) : bool * State :=
  let status := input_status input_data in
  let features := input_features input_data in
  if status =? 1 then
    let s1 :=
      mkState (feature_cache_ s) (time_cache_ s) (last_health_scores_ s)
              0 (run_count_ s + 1) (prev_time_ s) in
    (true, fold_left (cache_feature features current_time) (feature_stats_ cfg) s1)
  else
    let s1 :=
      mkState (feature_cache_ s) (time_cache_ s) (last_health_scores_ s)
              (close_count_ s + 1) 0 (prev_time_ s) in
    if close_width_ cfg <=? close_count_ s1 then (false, resetCache false s1) else (false, s1).

(** The loop [for (key, value) : scores) output->setData(key, value)]. *)
Definition write_scores (scores : gmap string double) (output : PluginResultImpl)
  : PluginResultImpl :=
  map_fold (fun key value out => setData_double key value out) output scores.

Section Engine.

(** The virtual [calculateFeatureHealth] of the derived class: the scores
    of one feature statistic over its cached samples. *)
Variable calculateFeatureHealth : FeatureStat -> list double -> gmap string double.

(** One iteration of the statistics loop.  [feature_cache_[key]] creates an
    empty entry for an absent key, and [stat_scores.insert(first, last)]
    keeps the entries that [stat_scores] already has. *)
Definition score_feature (acc : gmap string double * gmap string (list double))
    (stat : FeatureStat) : gmap string double * gmap string (list double) :=
  let data := default [] (acc.2 !! analysis_features stat) in
  (acc.1 ∪ calculateFeatureHealth stat data, <[analysis_features stat := data]> acc.2).

(** One iteration of the composition loop: the scores of
    [calculateOverallHealth({config}, stat_scores)] are written to the output
    and remembered. *)
Definition compose_health (stat_scores : gmap string double)
    (acc : gmap string double * PluginResultImpl) (config : Evaluation.HealthConfig)
  : gmap string double * PluginResultImpl :=
  map_fold (fun key value acc => (<[key := value]> acc.1, setData_double key value acc.2))
           acc (Evaluation.calculateOverallHealth [config] stat_scores).

(** [RealtimeHealthPluginBase::evaluateHealth], with the virtual
    [calculateOverallHealth] resolved to its one override.  The two reads of
    the clock are the arguments [now_check] and [now_cache]. *)
Definition evaluateHealth (cfg : Config) (input : PluginData) (now_check now_cache : Z)
    (s : State) (output : PluginResultImpl) : bool * State * PluginResultImpl :=
  let s1 := offlineCheck cfg now_check s in
  let '(running, s2) := statusCheckAndCacheData cfg input now_cache s1 in
  if negb running then (true, s2, write_scores (last_health_scores_ s2) output)
  else
    let '(stat_scores, cache) :=
      fold_left score_feature (feature_stats_ cfg) (∅, feature_cache_ s2) in
    let '(last, output') :=
      fold_left (compose_health stat_scores) (health_configs_ cfg)
                (last_health_scores_ s2, output) in
    (true,
     mkState cache (time_cache_ s2) last (close_count_ s2) (run_count_ s2) (prev_time_ s2),
     output').

End Engine.

End RealtimeHealth.

(** ** Scenarios of the health engine *)

Module HealthScenarios.

Import RealtimeHealth.

(** The feature statistic and the health configuration installed by
    [parseFeatureStats] and [parseHealthConfigs]. *)
Definition vibration_stat : FeatureStat :=
  mkFeatureStat "mean_hf" "运行状态" ["mean"%string; "std"%string; "max"%string]
    "vibration_health" [Double.of_Z 100; Double.of_Z 200; Double.of_Z 300] (Double.of_Z 500)
    ∅ ∅ ∅.

(** The weights [0.4] and [0.3]: the doubles nearest to 4/10 and 3/10,
    [0x3FD999999999999A] and [0x3FD3333333333333]. *)
Definition weight_0_4 : double := Double.div (Double.of_Z 4) (Double.of_Z 10).
Definition weight_0_3 : double := Double.div (Double.of_Z 3) (Double.of_Z 10).

Definition overall_health : Evaluation.HealthConfig :=
  Evaluation.mkHealthConfig "overall_health" "weighted_average"
    [weight_0_4; weight_0_3; weight_0_3]
    ["vibration_health"%string; "current_health"%string; "temperature_health"%string].

Definition comp34 : Config :=
  mkConfig (86400 * 15) 30 1 [vibration_stat] [overall_health].

(** A feature health that is warming up: the neutral score under the
    result key. *)
Definition warming_up (stat : FeatureStat) (data : list double) : gmap string double :=
  <[result_key stat := Double.hundred]> ∅.

(** A running reading and an idle reading. *)
Definition running_reading : PluginData :=
  FeatureData (<["status"%string := Double.of_Z 1]> (<["mean_hf"%string := Double.of_Z 150]> ∅)).

Definition idle_reading : PluginData :=
  RealTimeData (Double.of_Z 150) Double.zero Double.zero Double.zero Double.zero Double.zero.

End HealthScenarios.

(** ** Parameter sets and array views (data_types.cpp) *)

Module Parameters.

(** [PluginParameterImpl]: one map per parameter type. *)
Record PluginParameterImpl := mkParams {
  string_params_ : gmap string string;
  double_params_ : gmap string double;
  int_params_ : gmap string Z;
  bool_params_ : gmap string bool;
  double_array_params_ : gmap string (list double);
  int_array_params_ : gmap string (list Z)
}.

Definition empty : PluginParameterImpl := mkParams ∅ ∅ ∅ ∅ ∅ ∅.

Definition getString (key defaultValue : string) (p : PluginParameterImpl) : string :=
  match string_params_ p !! key with Some v => v | None => defaultValue end.

Definition getDouble (key : string) (defaultValue : double) (p : PluginParameterImpl) : double :=
  match double_params_ p !! key with Some v => v | None => defaultValue end.

Definition getInt (key : string) (defaultValue : Z) (p : PluginParameterImpl) : Z :=
  match int_params_ p !! key with Some v => v | None => defaultValue end.

Definition getBool (key : string) (defaultValue : bool) (p : PluginParameterImpl) : bool :=
  match bool_params_ p !! key with Some v => v | None => defaultValue end.

Definition getDoubleArray (key : string) (p : PluginParameterImpl) : list double :=
  match double_array_params_ p !! key with Some v => v | None => [] end.

Definition getIntArray (key : string) (p : PluginParameterImpl) : list Z :=
  match int_array_params_ p !! key with Some v => v | None => [] end.

Definition setString (key value : string) (p : PluginParameterImpl) : PluginParameterImpl :=
  mkParams (<[key := value]> (string_params_ p)) (double_params_ p) (int_params_ p)
           (bool_params_ p) (double_array_params_ p) (int_array_params_ p).

Definition setDouble (key : string) (value : double) (p : PluginParameterImpl) : PluginParameterImpl :=
  mkParams (string_params_ p) (<[key := value]> (double_params_ p)) (int_params_ p)
           (bool_params_ p) (double_array_params_ p) (int_array_params_ p).

Definition setInt (key : string) (value : Z) (p : PluginParameterImpl) : PluginParameterImpl :=
  mkParams (string_params_ p) (double_params_ p) (<[key := value]> (int_params_ p))
           (bool_params_ p) (double_array_params_ p) (int_array_params_ p).

Definition setBool (key : string) (value : bool) (p : PluginParameterImpl) : PluginParameterImpl :=
  mkParams (string_params_ p) (double_params_ p) (int_params_ p)
           (<[key := value]> (bool_params_ p)) (double_array_params_ p) (int_array_params_ p).

Definition setDoubleArray (key : string) (value : list double) (p : PluginParameterImpl)
  : PluginParameterImpl :=
  mkParams (string_params_ p) (double_params_ p) (int_params_ p)
           (bool_params_ p) (<[key := value]> (double_array_params_ p)) (int_array_params_ p).

Definition setIntArray (key : string) (value : list Z) (p : PluginParameterImpl)
  : PluginParameterImpl :=
  mkParams (string_params_ p) (double_params_ p) (int_params_ p)
           (bool_params_ p) (double_array_params_ p) (<[key := value]> (int_array_params_ p)).

(** A parameter value together with the setter that stores it. *)
Inductive value :=
| PString (s : string)
| PDouble (d : double)
| PInt (i : Z)
| PBool (b : bool)
| PDoubleArray (a : list double)
| PIntArray (a : list Z).

Definition set (key : string) (v : value) (p : PluginParameterImpl) : PluginParameterImpl :=
  match v with
  | PString s => setString key s p
  | PDouble d => setDouble key d p
  | PInt i => setInt key i p
  | PBool b => setBool key b p
  | PDoubleArray a => setDoubleArray key a p
  | PIntArray a => setIntArray key a p
  end.

(** The getter of the type of [defaultValue], called with that default (the
    array getters take none and fall back to the empty array). *)
Definition get (key : string) (defaultValue : value) (p : PluginParameterImpl) : value :=
  match defaultValue with
  | PString s => PString (getString key s p)
  | PDouble d => PDouble (getDouble key d p)
  | PInt i => PInt (getInt key i p)
  | PBool b => PBool (getBool key b p)
  | PDoubleArray _ => PDoubleArray (getDoubleArray key p)
  | PIntArray _ => PIntArray (getIntArray key p)
  end.

(** The parameter type of a value. *)
Definition kind (v : value) : nat :=
  match v with
  | PString _ => 0 | PDouble _ => 1 | PInt _ => 2
  | PBool _ => 3 | PDoubleArray _ => 4 | PIntArray _ => 5
  end%nat.

(** What an array getter returns for an absent key. *)
Definition fallback (defaultValue : value) : value :=
  match defaultValue with
  | PDoubleArray _ => PDoubleArray []
  | PIntArray _ => PIntArray []
  | v => v
  end.

End Parameters.

Module ResultArrays.

Import Result.

(** [PluginResultImpl::getStringArray] *)
Definition getStringArray (key : string) (r : PluginResultImpl) : list string :=
  let value := getStringData key r in
  if bool_decide (value = ""%string) then [] else [value].

(** [PluginResultImpl::getDoubleArray] *)
Definition getDoubleArray (key : string) (r : PluginResultImpl) : list double :=
  let value := getDoubleData key r in
  if Double.eqb value Double.zero then [] else [value].

(** [PluginResultImpl::getIntArray] *)
Definition getIntArray (key : string) (r : PluginResultImpl) : list Z :=
  let value := getIntData key r in
  if value =? 0 then [] else [value].

End ResultArrays.

(** ** [AlgorithmWork::cleanup] *)

Module AlgorithmWorkMore.

Import AlgorithmWork.

(** [AlgorithmWork::cleanup] *)
Definition cleanup {Param D : Type} (w : AlgorithmWork Param D) : AlgorithmWork Param D :=
  mkWork false (last_error_ w) None (validateParameters w) (algorithm w).

End AlgorithmWorkMore.

(** ** Execution metrics ([PluginMonitorManager], plugin_manager.cpp) *)

Module Monitor.

(** [uint64_t] arithmetic wraps modulo [2^64]. *)
Definition wrap (n : Z) : Z := n mod 2 ^ 64.

(** [struct PluginMetrics] *)
Record PluginMetrics := mkMetrics {
  plugin_name : string;
  execution_count : Z;
  success_count : Z;
  error_count : Z;
  avg_execution_time_ms : double;
  max_execution_time_ms : double;
  min_execution_time_ms : double;
  last_execution_time : Z;
  last_error_message : string
}.

(** A value-initialised [PluginMetrics] with the given name. *)
Definition fresh_metrics (name : string) : PluginMetrics :=
  mkMetrics name 0 0 0 Double.zero Double.zero Double.zero 0 "".

Record State := mkState {
  plugin_metrics_ : gmap string PluginMetrics;
  monitored_plugins_ : gset string;
  monitoring_enabled_ : bool
}.

Definition initial_state : State := mkState ∅ ∅ true.

(** [PluginMonitorManager::startMonitoring] *)
Definition startMonitoring (name : string) (s : State) : State :=
  if monitoring_enabled_ s then
    mkState
      (match plugin_metrics_ s !! name with
       | Some _ => plugin_metrics_ s
       | None => <[name := fresh_metrics name]> (plugin_metrics_ s)
       end)
      ({[name]} ∪ monitored_plugins_ s) (monitoring_enabled_ s)
  else s.

(** [PluginMonitorManager::stopMonitoring] *)
Definition stopMonitoring (name : string) (s : State) : State :=
  mkState (plugin_metrics_ s) (monitored_plugins_ s ∖ {[name]}) (monitoring_enabled_ s).

(** The update of one metrics record in [recordExecution]. *)
Definition record (success : bool) (execution_time_ms : double) (error_message : string)
    (now : Z) (metrics : PluginMetrics) : PluginMetrics :=
  let count := wrap (execution_count metrics + 1) in
  let min_time :=
    if Double.eqb (min_execution_time_ms metrics) Double.zero
       || Double.ltb execution_time_ms (min_execution_time_ms metrics)
    then execution_time_ms else min_execution_time_ms metrics in
  let max_time :=
    if Double.ltb (max_execution_time_ms metrics) execution_time_ms
    then execution_time_ms else max_execution_time_ms metrics in
  let avg_time :=
    Double.div
      (Double.add (Double.mul (avg_execution_time_ms metrics) (Double.of_Z (wrap (count - 1))))
                  execution_time_ms)
      (Double.of_Z count) in
  mkMetrics (plugin_name metrics) count
    (if success then wrap (success_count metrics + 1) else success_count metrics)
    (if success then error_count metrics else wrap (error_count metrics + 1))
    avg_time max_time min_time now
    (if success then last_error_message metrics else error_message).

(** [PluginMonitorManager::recordExecution] *)
Definition recordExecution (name : string) (success : bool) (execution_time_ms : double)
    (error_message : string) (now : Z) (s : State) : State :=
  if negb (monitoring_enabled_ s) || negb (bool_decide (name ∈ monitored_plugins_ s)) then s
  else
    let metrics := default (fresh_metrics name) (plugin_metrics_ s !! name) in
    mkState (<[name := record success execution_time_ms error_message now metrics]>
               (plugin_metrics_ s))
            (monitored_plugins_ s) (monitoring_enabled_ s).

(** [PluginMonitorManager::getPluginMetrics] *)
Definition getPluginMetrics (name : string) (s : State) : PluginMetrics :=
  default (fresh_metrics "") (plugin_metrics_ s !! name).

(** [PluginMonitorManager::getExecutionCount] *)
Definition getExecutionCount (name : string) (s : State) : Z :=
  match plugin_metrics_ s !! name with
  | Some metrics => execution_count metrics
  | None => 0
  end.

(** [PluginMonitorManager::getSuccessRate] *)
Definition getSuccessRate (name : string) (s : State) : double :=
  match plugin_metrics_ s !! name with
  | Some metrics =>
    if 0 <? execution_count metrics
    then Double.div (Double.of_Z (success_count metrics)) (Double.of_Z (execution_count metrics))
    else Double.zero
  | None => Double.zero
  end.

(** One reported execution: success flag, duration, error text, clock. *)
Definition execution : Type := bool * double * string * Z.

Definition record_all (name : string) (executions : list execution) (s : State) : State :=
  fold_left (fun s e => recordExecution name e.1.1.1 e.1.1.2 e.1.2 e.2 s) executions s.

Definition successes (executions : list execution) : nat :=
  List.length (filter (fun e : execution => e.1.1.1 = true) executions).

Definition failures (executions : list execution) : nat :=
  List.length (filter (fun e : execution => e.1.1.1 = false) executions).

End Monitor.

(** * Properties *)

Import Result.

(** ** Literals *)

Example hundred_is_100 : Double.of_Z 100 = Double.hundred.
Proof. reflexivity. Qed.

(** ** The result record *)

Lemma setData_twice_read (r : PluginResultImpl) (key : string) (v1 v2 : value) :
  getData_as v2 key (setData key v2 (setData key v1 r)) = v2
  /\ hasData key (setData key v2 (setData key v1 r)) = true.
Proof.
  destruct v2, v1; cbn; unfold getStringData, getDoubleData, getIntData, hasData; cbn;
    rewrite ?lookup_insert_eq; split; try reflexivity;
    repeat (rewrite bool_decide_eq_true_2 by eauto); cbn;
    rewrite ?orb_true_r; reflexivity.
Qed.

Lemma setData_other_key (r : PluginResultImpl) (key other : string) (v : value) :
  other <> key ->
  getStringData other (setData key v r) = getStringData other r
  /\ getDoubleData other (setData key v r) = getDoubleData other r
  /\ getIntData other (setData key v r) = getIntData other r
  /\ hasData other (setData key v r) = hasData other r.
Proof.
  intros Hne.
  destruct v; cbn; unfold getStringData, getDoubleData, getIntData, hasData; cbn;
    rewrite lookup_insert_ne by congruence; auto.
Qed.

(** C10.  Last write wins: after two successive writes to a key, reading the
    slot of the later write returns the later value (and the key is
    present); a write to one key leaves what every getter returns for every
    other key unchanged. *)
Theorem setData_last_write_wins (r : PluginResultImpl) (key : string) (v1 v2 : value) :
  getData_as v2 key (setData key v2 (setData key v1 r)) = v2
  /\ hasData key (setData key v2 (setData key v1 r)) = true
  /\ (forall other v, other <> key ->
        getStringData other (setData key v r) = getStringData other r
        /\ getDoubleData other (setData key v r) = getDoubleData other r
        /\ getIntData other (setData key v r) = getIntData other r
        /\ hasData other (setData key v r) = hasData other r).
Proof.
  destruct (setData_twice_read r key v1 v2) as [Hread Hhas].
  repeat split; auto; now apply setData_other_key.
Qed.

Lemma setData_last_write_wins_witness :
  getIntData "status" (setData "status" (VInt 1) (setData "status" (VInt 0) Result.empty)) = 1
  /\ getStringData "status_name"
       (setData "status" (VInt 1) (setData_string "status_name" "运行" Result.empty)) = "运行"%string.
Proof.
  pose proof (setData_last_write_wins Result.empty "status" (VInt 0) (VInt 1)) as [Hread _].
  pose proof (setData_last_write_wins (setData_string "status_name" "运行" Result.empty)
                "status" (VInt 0) (VInt 1)) as (_ & _ & Hother).
  split.
  - exact (f_equal (fun v => match v with VInt i => i | _ => 0 end) Hread).
  - apply (Hother "status_name"%string (VInt 1)). discriminate.
Defined.

(** ** Comparison of doubles *)

Section DoubleOrder.

Local Ltac split_compare :=
  repeat match goal with
  | |- context [Pos.compare_cont Eq ?a ?b] => change (Pos.compare_cont Eq a b) with (Pos.compare a b)
  | H : context [Pos.compare_cont Eq ?a ?b] |- _ =>
      change (Pos.compare_cont Eq a b) with (Pos.compare a b) in H
  end;
  repeat match goal with
  | H : context [Z.compare ?a ?b] |- _ => destruct (Z.compare_spec a b); subst
  | H : context [Pos.compare ?a ?b] |- _ => destruct (Pos.compare_spec a b); subst
  | |- context [Z.compare ?a ?b] => destruct (Z.compare_spec a b); subst
  | |- context [Pos.compare ?a ?b] => destruct (Pos.compare_spec a b); subst
  end;
  cbn in *; try reflexivity; try discriminate; try lia.

Lemma leb_trans (a b c : double) :
  Double.leb a b = true -> Double.leb b c = true -> Double.leb a c = true.
Proof.
  unfold Double.leb, SFleb.
  destruct a as [sa|sa| |sa ma ea], b as [sb|sb| |sb mb eb], c as [sc|sc| |sc mc ec];
    cbn; try discriminate; try reflexivity;
    try destruct sa; try destruct sb; try destruct sc; cbn;
    try discriminate; try reflexivity; intros Hab Hbc; split_compare.
Qed.

Lemma ltb_not_leb (a b : double) :
  Double.ltb a b = true -> Double.leb b a = false.
Proof.
  unfold Double.ltb, Double.leb, SFltb, SFleb.
  destruct a as [sa|sa| |sa ma ea], b as [sb|sb| |sb mb eb];
    cbn; try discriminate; try reflexivity;
    try destruct sa; try destruct sb; cbn;
    try discriminate; try reflexivity; intros Hab; split_compare.
Qed.

End DoubleOrder.

(** ** Thresholds and sub-statuses *)

Section FeatureStatus.

Import Decision.

Lemma ascending_tail (a : double) (T : list double) :
  is_ascending (a :: T) = true -> is_ascending T = true.
Proof.
  destruct T as [|b T]; [reflexivity|].
  cbn [is_ascending]. intros [_ ?]%andb_true_iff. assumption.
Qed.

Lemma ascending_head_le (T : list double) :
  forall (a b : double) (j : nat),
    is_ascending (a :: T) = true -> T !! j = Some b -> Double.leb a b = true.
Proof.
  induction T as [|c T IH]; intros a b j Hasc Hj; [destruct j; discriminate|].
  pose proof (ascending_tail _ _ Hasc) as Htl.
  cbn [is_ascending] in Hasc. apply andb_true_iff in Hasc as [Hac _].
  destruct j as [|j]; cbn in Hj.
  - congruence.
  - eapply leb_trans; [exact Hac|]. eapply IH; eauto.
Qed.

Lemma ascending_le (T : list double) :
  forall (j k : nat) (a b : double),
    is_ascending T = true -> (j < k)%nat ->
    T !! j = Some a -> T !! k = Some b -> Double.leb a b = true.
Proof.
  induction T as [|c T IH]; intros j k a b Hasc Hlt Hj Hk; [destruct j; discriminate|].
  destruct k as [|k]; [lia|]. cbn in Hk.
  destruct j as [|j]; cbn in Hj.
  - inversion Hj; subst. eapply ascending_head_le; eauto.
  - eapply (IH j k); eauto using ascending_tail. lia.
Qed.

(** Below a cut point that the value exceeds, every threshold is exceeded. *)
Lemma exceeded_below (T : list double) (v : double) (j k : nat) (a b : double) :
  is_ascending T = true -> T !! k = Some b -> Double.ltb b v = true ->
  (j <= k)%nat -> T !! j = Some a -> Double.leb v a = false.
Proof.
  intros Hasc Hk Hlt Hjk Hj.
  pose proof (ltb_not_leb _ _ Hlt) as Hvb.
  destruct (decide (j = k)) as [->|Hne]; [congruence|].
  destruct (Double.leb v a) eqn:Hva; [|reflexivity].
  assert (Double.leb a b = true) as Hab by (eapply (ascending_le T j k); eauto; lia).
  rewrite (leb_trans _ _ _ Hva Hab) in Hvb. discriminate.
Qed.

Lemma first_not_exceeded_at (v : double) (T : list double) :
  forall (k i : nat) (hi : double),
    T !! i = Some hi -> Double.leb v hi = true ->
    (forall j a, (j < i)%nat -> T !! j = Some a -> Double.leb v a = false) ->
    first_not_exceeded v T k = (k + i)%nat.
Proof.
  induction T as [|t T IH]; intros k i hi Hi Hle Hbelow; [destruct i; discriminate|].
  destruct i as [|i]; cbn in Hi |- *.
  - inversion Hi; subst. rewrite Hle. lia.
  - rewrite (Hbelow 0%nat t) by (reflexivity || lia).
    rewrite (IH (S k) i hi Hi Hle); [lia|].
    intros j a Hj Ha. apply (Hbelow (S j) a); [lia|exact Ha].
Qed.

Lemma first_not_exceeded_all (v : double) (T : list double) :
  forall k : nat,
    (forall j a, T !! j = Some a -> Double.leb v a = false) ->
    first_not_exceeded v T k = (k + List.length T)%nat.
Proof.
  induction T as [|t T IH]; intros k Hall; cbn; [lia|].
  rewrite (Hall 0%nat t eq_refl).
  rewrite IH; [lia|]. intros j a Ha. apply (Hall (S j) a Ha).
Qed.

(** C3.  Threshold monotonicity.  For an ascending threshold list [T]:
    a value [v] with [T[i-1] < v <= T[i]] (for [i = 0] only [v <= T[0]])
    has sub-status [i]; a value above the last element of [T] has
    sub-status [len(T)]. *)
Theorem calculateFeatureStatus_bucket (T : list double) (v : double) :
  is_ascending T = true ->
  (forall (i : nat) (hi : double),
      T !! i = Some hi -> Double.leb v hi = true ->
      (forall lo, (0 < i)%nat -> T !! (i - 1)%nat = Some lo -> Double.ltb lo v = true) ->
      calculateFeatureStatus v T = Z.of_nat i)
  /\ (forall top, last T = Some top -> Double.ltb top v = true ->
      calculateFeatureStatus v T = Z.of_nat (List.length T)).
Proof.
  intros Hasc. unfold calculateFeatureStatus. split.
  - intros i hi Hi Hle Hlo. f_equal.
    rewrite (first_not_exceeded_at v T 0 i hi Hi Hle); [reflexivity|].
    intros j a Hj Ha.
    destruct (T !! (i - 1)%nat) as [lo|] eqn:Hprev.
    + eapply (exceeded_below T v j (i - 1)); eauto; [apply Hlo; [lia|reflexivity]|lia].
    + apply lookup_ge_None in Hprev. apply lookup_lt_Some in Hi. lia.
  - intros top Htop Hlt. f_equal.
    rewrite (first_not_exceeded_all v T 0); [reflexivity|].
    intros j a Ha. rewrite last_lookup in Htop.
    eapply (exceeded_below T v j (pred (List.length T))); eauto.
    apply lookup_lt_Some in Ha. lia.
Qed.

Lemma calculateFeatureStatus_bucket_witness :
  calculateFeatureStatus Examples.d150 [Examples.d0; Examples.d100; Examples.d200] = 2
  /\ calculateFeatureStatus (Double.of_Z 250) [Examples.d0; Examples.d100; Examples.d200] = 3.
Proof.
  destruct (calculateFeatureStatus_bucket [Examples.d0; Examples.d100; Examples.d200]
              Examples.d150 eq_refl) as [Hin _].
  destruct (calculateFeatureStatus_bucket [Examples.d0; Examples.d100; Examples.d200]
              (Double.of_Z 250) eq_refl) as [_ Habove].
  split.
  - apply (Hin 2%nat Examples.d200); [reflexivity|reflexivity|].
    intros lo _ Hlo. inversion Hlo. reflexivity.
  - apply (Habove Examples.d200); reflexivity.
Defined.

End FeatureStatus.

(** ** The overall status *)

Section OverallStatus.

Import Decision.

(** C4.  Veto dominance.  When [veto_index_] is an index of the
    sub-status vector and the sub-status there is 0, the overall status is
    0, whatever the other sub-statuses and [run_feature_num_] are. *)
Theorem calculateOverallStatus_veto (cfg : Config) (feature_statuses : list Z) :
  0 <= veto_index_ cfg ->
  feature_statuses !! Z.to_nat (veto_index_ cfg) = Some 0 ->
  calculateOverallStatus cfg feature_statuses = 0.
Proof.
  intros Hnonneg Hveto.
  pose proof (lookup_lt_Some _ _ _ Hveto) as Hlt.
  unfold calculateOverallStatus.
  destruct feature_statuses as [|st rest] eqn:Hfs; [reflexivity|].
  rewrite <- Hfs in *.
  replace (0 <=? veto_index_ cfg) with true by (symmetry; apply Z.leb_le; lia).
  replace (veto_index_ cfg <? Z.of_nat (List.length feature_statuses)) with true
    by (symmetry; apply Z.ltb_lt; lia).
  rewrite (nth_lookup_Some _ _ 0 _ Hveto). reflexivity.
Qed.

Lemma calculateOverallStatus_veto_witness :
  calculateOverallStatus
    (mkConfig 10 3600 2 5 [60; 10] [0; 0] 1 1 [] [] ∅) [2; 0; 3] = 0.
Proof.
  apply calculateOverallStatus_veto; [cbn; lia | reflexivity].
Defined.

(** Without a veto the quorum decides: the same vector is "running". *)
Example calculateOverallStatus_quorum :
  calculateOverallStatus
    (mkConfig 10 3600 2 5 [60; 10] [0; 0] 1 (-1) [] [] ∅) [2; 0; 3] = 1.
Proof. reflexivity. Qed.

End OverallStatus.

(** ** The classification call *)

Section Classify.

Import Decision.

(** The example state [seen_running] is reached from the initial state by
    two calls of [classifyStatus]. *)
Example seen_running_reachable :
  (classifyStatus Examples.motor97 (Examples.reading Examples.d150) 1000000000
     (classifyStatus Examples.motor97 (Examples.reading Examples.dm5) 999000000
        initial_state Result.empty).1.2
     Result.empty).1.2
  = Examples.seen_running.
Proof. vm_compute. reflexivity. Qed.

Lemma featureStatuses_missing (cfg : Config) (features : gmap string double) (names : list string) :
  forall (acc : list Z) (name : string),
    name ∈ names -> features !! name = None ->
    exists missing, featureStatuses cfg features names acc = inl missing
                    /\ missing ∈ names /\ features !! missing = None.
Proof.
  induction names as [|n names IH]; intros acc name Hin Hnone.
  - inversion Hin.
  - cbn [featureStatuses]. destruct (features !! n) as [v|] eqn:Hn.
    + assert (name ∈ names) as Hin'.
      { apply elem_of_cons in Hin as [->|Hin]; [congruence|assumption]. }
      destruct (IH (acc ++ [calculateFeatureStatus v (nth (List.length acc) (thresholds_ cfg) [])])
                   name Hin' Hnone) as (missing & Heq & Hmem & Hmiss).
      exists missing. split; [exact Heq|]. split; [apply elem_of_cons; auto|exact Hmiss].
    + exists n. split; [reflexivity|]. split; [apply elem_of_cons; auto|exact Hn].
Qed.

(** What [offlineCheck] leaves alone. *)
Lemma offlineCheck_history (cfg : Config) (now : Z) (s : State) :
  status_history_ (offlineCheck cfg now s) = status_history_ s
  /\ prev_time_ (offlineCheck cfg now s) = now.
Proof.
  unfold offlineCheck.
  destruct (prev_time_ s =? 0); [split; reflexivity|].
  destruct (offline_length_ cfg <? Clock.seconds_between (prev_time_ s) now); split; reflexivity.
Qed.

Lemma offlineCheck_online (cfg : Config) (now : Z) (s : State) :
  prev_time_ s = 0 \/ Clock.seconds_between (prev_time_ s) now <= offline_length_ cfg ->
  offlineCheck cfg now s = set_prev_time now s.
Proof.
  intros Hon. unfold offlineCheck.
  destruct (prev_time_ s =? 0) eqn:Hzero; [reflexivity|].
  destruct Hon as [Hz|Hle]; [apply Z.eqb_neq in Hzero; contradiction|].
  replace (offline_length_ cfg <? Clock.seconds_between (prev_time_ s) now) with false
    by (symmetry; apply Z.ltb_ge; exact Hle).
  reflexivity.
Qed.

Lemma offlineCheck_offline (cfg : Config) (now : Z) (s : State) :
  prev_time_ s <> 0 -> offline_length_ cfg < Clock.seconds_between (prev_time_ s) now ->
  offlineCheck cfg now s = set_prev_time now (resetState s).
Proof.
  intros Hnz Hgap. unfold offlineCheck.
  replace (prev_time_ s =? 0) with false by (symmetry; apply Z.eqb_neq; exact Hnz).
  replace (offline_length_ cfg <? Clock.seconds_between (prev_time_ s) now) with true
    by (symmetry; apply Z.ltb_lt; exact Hgap).
  reflexivity.
Qed.

(** C5 (as amended).  When the input lacks a selected feature, the call
    returns [false] with the error "缺少特征: <name>" for a selected feature
    absent from the input, and writes nothing to the output.  The offline
    check has run before: [prev_time_] is the time of the call, the status
    history is unchanged, and [prev_status_] and the three counters are
    unchanged unless the gap since the previous call exceeds
    [offline_length_], in which case they are reset. *)
Theorem classifyStatus_missing_feature (cfg : Config) (features : gmap string double)
    (now : Z) (s : State) (output : PluginResultImpl) (name : string) :
  name ∈ select_features_ cfg -> features !! name = None ->
  exists missing,
    missing ∈ select_features_ cfg /\ features !! missing = None
    /\ classifyStatus cfg (FeatureData features) now s output
       = (false, setError (String.append "缺少特征: " missing) (offlineCheck cfg now s), output)
    /\ forall s', s' = (classifyStatus cfg (FeatureData features) now s output).1.2 ->
         status_history_ s' = status_history_ s
         /\ prev_time_ s' = now
         /\ (prev_time_ s = 0 \/ Clock.seconds_between (prev_time_ s) now <= offline_length_ cfg ->
             prev_status_ s' = prev_status_ s
             /\ transition_counter_ s' = transition_counter_ s
             /\ close_counter_ s' = close_counter_ s
             /\ time_series_counter_ s' = time_series_counter_ s)
         /\ (prev_time_ s <> 0 -> offline_length_ cfg < Clock.seconds_between (prev_time_ s) now ->
             prev_status_ s' = -1
             /\ transition_counter_ s' = 0
             /\ close_counter_ s' = 0
             /\ time_series_counter_ s' = 0).
Proof.
  intros Hin Hnone.
  destruct (featureStatuses_missing cfg features (select_features_ cfg) [] name Hin Hnone)
    as (missing & Heq & Hmem & Hmiss).
  exists missing. split; [exact Hmem|]. split; [exact Hmiss|].
  assert (classifyStatus cfg (FeatureData features) now s output
          = (false, setError (String.append "缺少特征: " missing) (offlineCheck cfg now s), output))
    as Hcall by (unfold classifyStatus; rewrite Heq; reflexivity).
  split; [exact Hcall|].
  intros s' ->. rewrite Hcall. cbn [fst snd setError status_history_ prev_time_ prev_status_
    transition_counter_ close_counter_ time_series_counter_].
  destruct (offlineCheck_history cfg now s) as [Hhist Htime].
  split; [exact Hhist|]. split; [exact Htime|]. split.
  - intros Hon. rewrite (offlineCheck_online cfg now s Hon). repeat split.
  - intros Hnz Hgap. rewrite (offlineCheck_offline cfg now s Hnz Hgap). repeat split.
Qed.

Lemma classifyStatus_missing_feature_witness :
  classifyStatus Examples.motor97 (FeatureData ∅) 5 initial_state Result.empty
  = (false, setError "缺少特征: mean_hf" (set_prev_time 5 initial_state), Result.empty).
Proof.
  destruct (classifyStatus_missing_feature Examples.motor97 ∅ 5 initial_state Result.empty
              "mean_hf"%string) as (missing & Hmem & _ & Hcall & _).
  - cbn. apply list_elem_of_here.
  - reflexivity.
  - cbn in Hmem. apply list_elem_of_singleton in Hmem. subst missing. exact Hcall.
Defined.

(** C5 (as stated) fails: a call that lacks the selected feature, made
    3700 seconds after the previous one, returns [false] and yet changes
    [prev_time_], [prev_status_] and the transition counter. *)
Lemma classifyStatus_missing_feature_mutates :
  let '(ok, s', _) :=
    classifyStatus Examples.motor97 (FeatureData ∅) 3701000000000 Examples.seen_running Result.empty in
  ok = false
  /\ prev_time_ s' <> prev_time_ Examples.seen_running
  /\ prev_status_ s' <> prev_status_ Examples.seen_running
  /\ transition_counter_ s' <> transition_counter_ Examples.seen_running.
Proof.
  cbn. repeat split; discriminate.
Qed.

(** The transition block emits the new status at once: with the previous
    status 0, a raw status 1, the time-series width off and the transition
    counter still below [transition_width_[0]], the emitted status is 1. *)
Lemma smoothTransition_start_at_once (cfg : Config) (s : State) :
  prev_status_ s = 0 ->
  transition_counter_ s + 1 < nth 0 (transition_width_ cfg) 0 ->
  nth 0 (time_series_width_ cfg) 0 <= 0 ->
  smoothTransition cfg 1 s = (1, set_transition_counter (transition_counter_ s + 1) s).
Proof.
  intros Hprev Hcount Hts.
  unfold smoothTransition, handleTransition, handleTimeSeriesTransition.
  rewrite Hprev. cbn [negb andb Z.eqb].
  cbn [transition_counter_ set_transition_counter prev_status_].
  replace (nth 0 (transition_width_ cfg) 0 <=? transition_counter_ s + 1) with false
    by (symmetry; apply Z.leb_gt; exact Hcount).
  replace (0 <? nth 0 (time_series_width_ cfg) 0) with false
    by (symmetry; apply Z.ltb_ge; exact Hts).
  reflexivity.
Qed.

(** C2 at a failing input.  A [Motor97Plugin] with
    [transition_width_ = {60, 10}]: after one reading that classifies as
    stopped (status 0), a single reading that classifies as running is
    answered with the emitted status 1. *)
Theorem classifyStatus_change_after_one_reading :
  let '(ok1, s1, out1) :=
    classifyStatus Examples.motor97 (Examples.reading Examples.dm5) 1000000000
      initial_state Result.empty in
  let '(ok2, s2, out2) :=
    classifyStatus Examples.motor97 (Examples.reading Examples.d150) 2000000000
      s1 Result.empty in
  ok1 = true /\ getIntData "status" out1 = 0
  /\ ok2 = true /\ getIntData "status" out2 = 1
  /\ prev_status_ s2 = 1
  /\ nth 0 (transition_width_ Examples.motor97) 0 = 60.
Proof.
  vm_compute. repeat split.
Qed.

(** Three alternating readings (stopped, running, stopped) are answered
    with the three raw statuses, each at once. *)
Example classifyStatus_alternating :
  let '(_, s1, out1) :=
    classifyStatus Examples.motor97 (Examples.reading Examples.dm5) 1000000000
      initial_state Result.empty in
  let '(_, s2, out2) :=
    classifyStatus Examples.motor97 (Examples.reading Examples.d150) 2000000000
      s1 Result.empty in
  let '(_, s3, out3) :=
    classifyStatus Examples.motor97 (Examples.reading Examples.dm5) 3000000000
      s2 Result.empty in
  [getIntData "status" out1; getIntData "status" out2; getIntData "status" out3] = [0; 1; 0]
  /\ transition_counter_ s3 = 1 /\ close_counter_ s3 = 1.
Proof.
  vm_compute. repeat split.
Qed.

End Classify.

(** ** Score alarms *)

Section ScoreAlarm.

Import Event.

Lemma updateAlarmState_records (s : State) (health_name : string) (score : double) (fired : Z) :
  last_alarm_time_ (updateAlarmState s health_name score fired) !! health_name = Some fired
  /\ tolerable_count_ (updateAlarmState s health_name score fired) !! health_name = Some 0.
Proof.
  unfold updateAlarmState; cbn. rewrite !lookup_insert_eq. split; reflexivity.
Qed.

Lemma seconds_between_lt (fired now interval : Z) :
  fired <= now -> now - fired < interval * Clock.ticks_per_second ->
  Clock.seconds_between fired now < interval.
Proof.
  intros Hle Hlt. unfold Clock.seconds_between.
  apply Z.quot_lt_upper_bound; unfold Clock.ticks_per_second in *; lia.
Qed.

(** C6.  Debounce non-repetition.  [updateAlarmState] records the firing
    time of a key; in every state whose recorded firing time for the key is
    [fired], a call made less than [alarm_interval_] seconds after [fired]
    returns [false], whatever the score. *)
Theorem shouldTriggerAlarm_debounce (cfg : Config) (health_name : string) (fired : Z) :
  (forall s0 score0,
      last_alarm_time_ (updateAlarmState s0 health_name score0 fired) !! health_name = Some fired)
  /\ (forall (s : State) (score : double) (now : Z),
        last_alarm_time_ s !! health_name = Some fired ->
        fired <= now ->
        now - fired < alarm_interval_ cfg * Clock.ticks_per_second ->
        shouldTriggerAlarm cfg s health_name score now = false).
Proof.
  split.
  - intros s0 score0. apply updateAlarmState_records.
  - intros s score now Hrec Hle Hlt. unfold shouldTriggerAlarm. rewrite Hrec.
    replace (Clock.seconds_between fired now <? alarm_interval_ cfg) with true; [reflexivity|].
    symmetry. apply Z.ltb_lt. now apply seconds_between_lt.
Qed.

Lemma shouldTriggerAlarm_debounce_witness :
  shouldTriggerAlarm Examples.score_alarm5
    (updateAlarmState initial_state "overall_health" Examples.d100 0)
    "overall_health" Examples.d0 100000000000 = false.
Proof.
  destruct (shouldTriggerAlarm_debounce Examples.score_alarm5 "overall_health" 0) as [Hrec Hquiet].
  apply Hquiet; [apply Hrec | lia | reflexivity].
Defined.

(** The second qualifying call of the scenario, 200 seconds after the firing. *)
Example shouldTriggerAlarm_after_interval :
  shouldTriggerAlarm Examples.score_alarm5
    (updateAlarmState initial_state "overall_health" Examples.d100 0)
    "overall_health" Examples.d0 200000000000 = true.
Proof. reflexivity. Qed.

(** The tolerance parameter is never consulted. *)
Lemma shouldTriggerAlarm_ignores_tolerable_length (cfg : Config) (tolerable : Z)
    (s : State) (health_name : string) (score : double) (now : Z) :
  shouldTriggerAlarm
    (mkConfig tolerable (alarm_interval_ cfg) (health_definitions_ cfg) (alarm_lines_ cfg))
    s health_name score now
  = shouldTriggerAlarm cfg s health_name score now.
Proof. reflexivity. Qed.

(** C7 at a failing input.  For a key never seen before, the first call
    already returns [true]: with [tolerable_length_ = 5] and no breach
    counted at all, whatever the score and the time. *)
Theorem shouldTriggerAlarm_fresh_key_fires (health_name : string) (score : double) (now : Z) :
  tolerable_length_ Examples.score_alarm5 = 5
  /\ shouldTriggerAlarm Examples.score_alarm5 initial_state health_name score now = true.
Proof.
  split; [reflexivity|].
  unfold shouldTriggerAlarm, initial_state; cbn.
  rewrite !lookup_empty. reflexivity.
Qed.

End ScoreAlarm.


(** ** Health composition *)

Section Health.

Import Evaluation.

Lemma zero_weight_not_positive (w : double) :
  Double.eqb w Double.zero = true -> Double.ltb Double.zero w = false.
Proof.
  unfold Double.eqb, Double.ltb, SFeqb, SFltb, Double.zero.
  destruct w as [sw|sw| |sw mw ew]; cbn; try reflexivity; destruct sw; cbn; congruence.
Qed.

Lemma healthScore_default (config : HealthConfig) (feature_scores : gmap string double) :
  formula config <> "weighted_average"%string
  \/ Double.eqb (total_weight config feature_scores) Double.zero = true ->
  healthScore config feature_scores = Double.hundred.
Proof.
  intros [Hformula|Hzero]; unfold healthScore.
  - apply String.eqb_neq in Hformula. rewrite Hformula. reflexivity.
  - rewrite (zero_weight_not_positive _ Hzero). destruct (String.eqb _ _); reflexivity.
Qed.

Lemma calculateOverallHealth_later (feature_scores : gmap string double) (key : string)
    (later : list HealthConfig) :
  forall health_scores : gmap string double,
    (forall c, c ∈ later -> name c <> key) ->
    fold_left (fun health_scores config =>
                 <[name config := healthScore config feature_scores]> health_scores)
              later health_scores !! key
    = health_scores !! key.
Proof.
  induction later as [|c later IH]; intros health_scores Hnames; [reflexivity|].
  cbn [fold_left]. rewrite IH.
  - apply lookup_insert_ne. apply Hnames. apply list_elem_of_here.
  - intros c' Hc'. apply Hnames. now apply list_elem_of_further.
Qed.

(** C9.  Fail open.  A health configuration whose formula is not
    [weighted_average], or whose resolved dependency weights sum to zero,
    gets the neutral score 100: this is the value stored for its name, and
    the value found under its name in the result of [calculateOverallHealth]
    for every configuration list in which no later entry reuses the name. *)
Theorem calculateOverallHealth_fail_open (config : HealthConfig)
    (feature_scores : gmap string double) :
  formula config <> "weighted_average"%string
  \/ Double.eqb (total_weight config feature_scores) Double.zero = true ->
  healthScore config feature_scores = Double.hundred
  /\ forall earlier later : list HealthConfig,
       (forall c, c ∈ later -> name c <> name config) ->
       calculateOverallHealth (earlier ++ config :: later) feature_scores !! name config
       = Some Double.hundred.
Proof.
  intros Hopen. pose proof (healthScore_default config feature_scores Hopen) as Hscore.
  split; [exact Hscore|].
  intros earlier later Hlater. unfold calculateOverallHealth.
  rewrite fold_left_app. cbn [fold_left].
  rewrite (calculateOverallHealth_later feature_scores (name config) later _ Hlater).
  rewrite lookup_insert_eq. now rewrite Hscore.
Qed.

Lemma calculateOverallHealth_fail_open_witness :
  calculateOverallHealth
    [Examples.unresolved_health; Examples.geometric_health] Examples.scores
    !! "overall_health"%string = Some Double.hundred
  /\ calculateOverallHealth
       [Examples.unresolved_health; Examples.geometric_health] Examples.scores
       !! "trend_health"%string = Some Double.hundred.
Proof.
  destruct (calculateOverallHealth_fail_open Examples.unresolved_health Examples.scores)
    as [_ Hfirst]; [right; vm_compute; reflexivity|].
  destruct (calculateOverallHealth_fail_open Examples.geometric_health Examples.scores)
    as [_ Hsecond]; [left; discriminate|].
  split.
  - apply (Hfirst [] [Examples.geometric_health]).
    intros c Hc. apply list_elem_of_singleton in Hc. subst c. discriminate.
  - apply (Hsecond [Examples.unresolved_health] []).
    intros c Hc. inversion Hc.
Defined.

(** With a resolved dependency of positive weight the score is the weighted
    average. *)
Example calculateOverallHealth_weighted :
  calculateOverallHealth [Examples.resolved_health] Examples.scores
  = <["overall_health"%string := Double.of_Z 80]> ∅.
Proof. vm_compute. reflexivity. Qed.

End Health.


(** ** The chain orchestrator *)

Section ChainProperties.

Import Chain ChainView.

Context {P Param Data : Type} `{IPlugin P Param Data}.

Lemma executeLoop_cons (chain plugin_name : string) (rest : list string) (data : Data)
    (instances : gmap string (gmap string P)) (r : PluginResultImpl) (calls : list string) :
  executeLoop chain (plugin_name :: rest) data instances r calls
  = let '(ok, instances', r') := executePluginInChain chain plugin_name data instances r in
    if ok then executeLoop chain rest data instances' r' (calls ++ [plugin_name])
    else (false, instances', r', calls ++ [plugin_name]).
Proof.
  cbn [executeLoop].
  destruct (executePluginInChain chain plugin_name data instances r) as [[ok instances'] r'].
  destruct ok; [|reflexivity]. destruct rest; reflexivity.
Qed.

(** The stages after a prefix run on the instances and on the record that
    the prefix leaves: one record is threaded through the whole chain. *)
Lemma executeLoop_app (chain : string) (data : Data) (pre rest : list string) :
  forall (instances : gmap string (gmap string P)) (r : PluginResultImpl) (calls : list string),
    executeLoop chain (pre ++ rest) data instances r calls
    = let '(ok, instances1, r1, calls1) := executeLoop chain pre data instances r calls in
      if ok then executeLoop chain rest data instances1 r1 calls1
      else (false, instances1, r1, calls1).
Proof.
  induction pre as [|n pre IH]; intros instances r calls; [reflexivity|].
  rewrite <- app_comm_cons, !executeLoop_cons.
  destruct (executePluginInChain chain n data instances r) as [[ok instances'] r'].
  destruct ok; [apply IH|reflexivity].
Qed.

(** The calls of a run follow the declared order: they are a prefix of the
    stage list, and the whole list when the run succeeds. *)
Lemma executeLoop_calls (chain : string) (data : Data) (names : list string) :
  forall (instances : gmap string (gmap string P)) (r : PluginResultImpl) (calls : list string)
         ok instances' r' calls',
    executeLoop chain names data instances r calls = (ok, instances', r', calls') ->
    exists done, calls' = calls ++ done /\ done `prefix_of` names /\ (ok = true -> done = names).
Proof.
  induction names as [|n names IH]; intros instances r calls ok instances' r' calls' Hrun.
  - cbn in Hrun. inversion Hrun; subst. exists []. rewrite app_nil_r.
    split; [reflexivity|]. split; [apply prefix_nil|reflexivity].
  - rewrite executeLoop_cons in Hrun.
    destruct (executePluginInChain chain n data instances r) as [[ok1 instances1] r1].
    destruct ok1.
    + destruct (IH _ _ _ _ _ _ _ Hrun) as (done & Hcalls & Hprefix & Hall).
      exists (n :: done). rewrite Hcalls, <- app_assoc. split; [reflexivity|]. split.
      * now apply prefix_cons.
      * intros Hok. now rewrite (Hall Hok).
    + inversion Hrun; subst. exists [n]. split; [reflexivity|]. split; [|discriminate].
      apply prefix_cons, prefix_nil.
Qed.

(** A stage whose instance is stored runs the [process] of that instance
    on the record it is handed, and the object after the call replaces the
    stored one; a stage without an instance fails and touches nothing. *)
Lemma executePluginInChain_process (chain plugin_name : string) (data : Data)
    (instances : gmap string (gmap string P)) (r : PluginResultImpl) (plugin : P) :
  instance_of instances chain plugin_name = Some plugin ->
  executePluginInChain chain plugin_name data instances r
  = let '(ok, plugin', r') := process plugin data r in
    (ok, store_instance chain plugin_name plugin' instances, r').
Proof.
  unfold instance_of, executePluginInChain, store_instance. intros Hfound.
  destruct (instances !! chain) as [of_chain|]; [|discriminate]. cbn in Hfound.
  rewrite Hfound. cbn [default from_option id]. reflexivity.
Qed.

Lemma executePluginInChain_absent (chain plugin_name : string) (data : Data)
    (instances : gmap string (gmap string P)) (r : PluginResultImpl) :
  instance_of instances chain plugin_name = None ->
  executePluginInChain chain plugin_name data instances r = (false, instances, r).
Proof.
  unfold instance_of, executePluginInChain. intros Habsent.
  destruct (instances !! chain) as [of_chain|]; [|reflexivity]. cbn in Habsent.
  now rewrite Habsent.
Qed.

(** A failed run stops at a first failing stage: the stages before it
    succeeded and are the only other ones called. *)
Lemma executeLoop_failure (chain : string) (data : Data) (names : list string) :
  forall (instances : gmap string (gmap string P)) (r : PluginResultImpl) (calls : list string)
         instances' r' calls',
    executeLoop chain names data instances r calls = (false, instances', r', calls') ->
    exists pre failing post instances1 r1,
      names = pre ++ failing :: post
      /\ calls' = calls ++ pre ++ [failing]
      /\ executeLoop chain pre data instances r calls = (true, instances1, r1, calls ++ pre)
      /\ executePluginInChain chain failing data instances1 r1 = (false, instances', r').
Proof.
  induction names as [|n names IH]; intros instances r calls instances' r' calls' Hrun.
  - cbn in Hrun. discriminate.
  - rewrite executeLoop_cons in Hrun.
    destruct (executePluginInChain chain n data instances r) as [[ok1 instances1] r1] eqn:Hstage.
    destruct ok1.
    + destruct (IH _ _ _ _ _ _ Hrun) as (pre & failing & post & instances2 & r2
                                          & -> & -> & Hpre & Hfail).
      exists (n :: pre), failing, post, instances2, r2.
      split; [reflexivity|]. split; [now rewrite <- !app_assoc|]. split; [|exact Hfail].
      rewrite executeLoop_cons, Hstage.
      rewrite Hpre. now rewrite <- app_assoc.
    + inversion Hrun; subst. exists [], n, names, instances, r.
      split; [reflexivity|]. split; [reflexivity|]. split; [|exact Hstage].
      cbn. now rewrite app_nil_r.
Qed.

(** C8.  [executeChain] hands the stages to [executePluginInChain] in
    their declared order, threading one result record that starts empty:
    after a prefix of stages has succeeded, the next stage runs the
    [process] of its stored instance on the record that the prefix left,
    and the record and the object after that call are what the following
    stage finds.  When the stages of a prefix succeed and the next stage
    fails (its instance is missing or its [process] returns [false]),
    [executeChain] returns [false], the stages after the failing one are not
    called and their objects are untouched.  In every run the calls form a
    prefix of the declared stage list, a successful run calls every stage, a
    failed run has a first failing stage, and nothing is copied into the
    caller's result record. *)
Theorem executeChain_first_failure (m : PluginChainManager P Param) (chain : string)
    (config : ChainConfig Param) (input : Data) :
  plugin_chains_ m !! chain = Some config ->
  (forall (pre post : list string) (failing : string) instances1 r1 calls1 instances2 r2,
      plugin_names config = pre ++ failing :: post ->
      executeLoop chain pre input (plugin_instances_ m) Result.empty [] = (true, instances1, r1, calls1) ->
      executePluginInChain chain failing input instances1 r1 = (false, instances2, r2) ->
      executeChain m chain input
      = (false, mkChainManager (plugin_chains_ m) instances2, None, pre ++ [failing]))
  /\ (forall (pre post : list string) (stage : string) instances1 r1 calls1,
        plugin_names config = pre ++ stage :: post ->
        executeLoop chain pre input (plugin_instances_ m) Result.empty []
        = (true, instances1, r1, calls1) ->
        calls1 = pre
        /\ (pre = [] -> instances1 = plugin_instances_ m /\ r1 = Result.empty)
        /\ (instance_of instances1 chain stage = None ->
            executeChain m chain input
            = (false, mkChainManager (plugin_chains_ m) instances1, None, pre ++ [stage]))
        /\ (forall plugin ok plugin' r2,
              instance_of instances1 chain stage = Some plugin ->
              process plugin input r1 = (ok, plugin', r2) ->
              executeLoop chain (pre ++ [stage]) input (plugin_instances_ m) Result.empty []
              = (ok, store_instance chain stage plugin' instances1, r2, pre ++ [stage])
              /\ (ok = false ->
                  executeChain m chain input
                  = (false,
                     mkChainManager (plugin_chains_ m)
                       (store_instance chain stage plugin' instances1),
                     None, pre ++ [stage]))))
  /\ (forall ok m' assigned calls,
        executeChain m chain input = (ok, m', assigned, calls) ->
        calls `prefix_of` plugin_names config
        /\ assigned = None
        /\ (ok = true ->
            calls = plugin_names config
            /\ exists r,
                 executeLoop chain (plugin_names config) input (plugin_instances_ m)
                   Result.empty []
                 = (true, plugin_instances_ m', r, plugin_names config))
        /\ (ok = false ->
            exists pre failing post instances1 r1,
              plugin_names config = pre ++ failing :: post
              /\ calls = pre ++ [failing]
              /\ executeLoop chain pre input (plugin_instances_ m) Result.empty []
                 = (true, instances1, r1, pre)
              /\ (executePluginInChain chain failing input instances1 r1).1.1 = false)).
Proof.
  intros Hchain.
  assert (forall (pre post : list string) (failing : string) instances1 r1 calls1 instances2 r2,
             plugin_names config = pre ++ failing :: post ->
             executeLoop chain pre input (plugin_instances_ m) Result.empty []
             = (true, instances1, r1, calls1) ->
             executePluginInChain chain failing input instances1 r1 = (false, instances2, r2) ->
             executeChain m chain input
             = (false, mkChainManager (plugin_chains_ m) instances2, None, pre ++ [failing]))
    as Hfirst.
  { intros pre post failing instances1 r1 calls1 instances2 r2 Hnames Hpre Hfail.
    unfold executeChain. rewrite Hchain, Hnames, executeLoop_app, Hpre.
    rewrite executeLoop_cons, Hfail.
    destruct (executeLoop_calls _ _ _ _ _ _ _ _ _ _ Hpre) as (done & -> & _ & Hall).
    rewrite (Hall eq_refl). reflexivity. }
  split; [exact Hfirst|]. split.
  - intros pre post stage instances1 r1 calls1 Hnames Hpre.
    assert (calls1 = pre) as ->.
    { destruct (executeLoop_calls _ _ _ _ _ _ _ _ _ _ Hpre) as (done & -> & _ & Hall).
      now rewrite (Hall eq_refl). }
    split; [reflexivity|]. split.
    { intros ->. cbn in Hpre. now inversion Hpre. }
    split.
    + intros Habsent.
      apply (Hfirst pre post stage instances1 r1 pre instances1 r1 Hnames Hpre).
      now apply executePluginInChain_absent.
    + intros plugin ok plugin' r2 Hfound Hprocess.
      pose proof (executePluginInChain_process chain stage input instances1 r1 plugin Hfound)
        as Hstage.
      rewrite Hprocess in Hstage. split.
      * rewrite executeLoop_app, Hpre, executeLoop_cons, Hstage.
        destruct ok; reflexivity.
      * intros ->. now apply (Hfirst pre post stage instances1 r1 pre _ r2 Hnames Hpre).
  - intros ok m' assigned calls. unfold executeChain. rewrite Hchain.
    destruct (executeLoop chain (plugin_names config) input (plugin_instances_ m) Result.empty [])
      as [[[ok1 instances1] r1] calls1] eqn:Hrun.
    intros Heq. inversion Heq; subst.
    destruct (executeLoop_calls _ _ _ _ _ _ _ _ _ _ Hrun) as (done & -> & Hprefix & Hall).
    cbn [app]. split; [exact Hprefix|]. split; [reflexivity|]. split.
    + intros ->. rewrite (Hall eq_refl). split; [reflexivity|]. exists r1.
      cbn [plugin_instances_]. reflexivity.
    + intros ->. destruct (executeLoop_failure _ _ _ _ _ _ _ _ _ Hrun)
        as (pre & failing & post & instances2 & r2 & Hnames & Hcalls & Hpre & Hfail).
      exists pre, failing, post, instances2, r2.
      cbn [app] in Hcalls, Hpre. split; [exact Hnames|]. split; [exact Hcalls|].
      split; [exact Hpre|]. now rewrite Hfail.
Qed.

End ChainProperties.

(** ** Chain creation *)

Section ChainCreation.

Import Chain.

Context {P Param Data : Type} `{IPlugin P Param Data}.

(** A chain that names an unavailable plugin is rejected before anything is
    stored: the manager is unchanged. *)
Lemma createChain_unavailable (manager : PluginManager P) (config : ChainConfig Param)
    (m : PluginChainManager P Param) (plugin_name : string) :
  plugin_name ∈ plugin_names config ->
  isPluginAvailable manager plugin_name = false ->
  createChain manager config m = (false, m).
Proof.
  intros Hin Hmissing. unfold createChain.
  destruct (bool_decide (chain_name config = ""%string) || bool_decide (plugin_names config = []));
    [reflexivity|].
  destruct (forallb (isPluginAvailable manager) (plugin_names config)) eqn:Hall; [|reflexivity].
  rewrite forallb_forall in Hall. apply list_elem_of_In in Hin.
  rewrite (Hall _ Hin) in Hmissing. discriminate.
Qed.

(** Once every plugin name is available, the configuration is stored before
    the instances are built, and it stays stored whatever the
    initialisation returns. *)
Lemma createChain_stores_config (manager : PluginManager P) (config : ChainConfig Param)
    (m : PluginChainManager P Param) :
  chain_name config <> ""%string -> plugin_names config <> [] ->
  (forall plugin_name, plugin_name ∈ plugin_names config ->
                       isPluginAvailable manager plugin_name = true) ->
  plugin_chains_ (createChain manager config m).2 !! chain_name config = Some config.
Proof.
  intros Hname Hstages Havailable. unfold createChain.
  rewrite (bool_decide_eq_false_2 _ Hname), (bool_decide_eq_false_2 _ Hstages). cbn [orb].
  replace (forallb (isPluginAvailable manager) (plugin_names config)) with true.
  - unfold initializeChainPlugins. cbn [plugin_chains_ plugin_instances_].
    rewrite lookup_insert_eq.
    destruct (initializeLoop manager config (chain_name config) (plugin_names config) 0
                (plugin_instances_ m)) as [ok instances].
    cbn. apply lookup_insert_eq.
  - symmetry. apply forallb_forall. intros x Hx. apply Havailable. now apply list_elem_of_In.
Qed.

End ChainCreation.

Section ChainExamples.

Import Chain.

(** C1 at a failing input.  The second stage of [half_built] fails to
    initialise: [createChain] returns [false], and yet the chain is
    available afterwards, its configuration is stored, and the instance of
    the first stage is kept under the chain name. *)
Theorem createChain_init_failure_leaves_chain :
  let '(ok, m') :=
    createChain (Data := option unit) Examples.registry Examples.half_built empty_manager in
  ok = false
  /\ isChainAvailable m' "half_built" = true
  /\ plugin_chains_ m' !! "half_built"%string = Some Examples.half_built
  /\ (plugin_instances_ m' !! "half_built"%string) ≫= (.!! "rescaler"%string)
     = Some (AlgorithmWork.initialize Examples.rescaler ["mean_hf"%string]).2
  /\ (plugin_instances_ m' !! "half_built"%string) ≫= (.!! "extractor"%string) = None.
Proof.
  vm_compute. repeat split.
Qed.

(** The chain left behind can be executed: its first stage runs. *)
Example executeChain_on_half_built :
  let m' := (createChain (Data := option unit) Examples.registry Examples.half_built empty_manager).2 in
  let '(ok, _, assigned, calls) := executeChain m' "half_built" (Some tt) in
  ok = false /\ assigned = None /\ calls = ["rescaler"%string; "extractor"%string].
Proof.
  vm_compute. repeat split.
Qed.

(** An unavailable plugin leaves the manager as it was. *)
Example createChain_dangling :
  createChain (Data := option unit) Examples.registry Examples.dangling Examples.with_monitoring
  = (false, Examples.with_monitoring).
Proof.
  apply (createChain_unavailable _ _ _ "motor97"%string).
  - cbn. apply list_elem_of_further, list_elem_of_here.
  - vm_compute. reflexivity.
Qed.

Lemma executeChain_first_failure_witness :
  let '(ok, _, assigned, calls) :=
    executeChain Examples.with_monitoring "monitoring" (Some tt) in
  ok = false /\ assigned = None /\ calls = ["extractor"%string; "unimplemented"%string].
Proof.
  assert (plugin_chains_ Examples.with_monitoring !! "monitoring"%string = Some Examples.monitoring)
    as Hchain by (vm_compute; reflexivity).
  destruct (executeChain_first_failure Examples.with_monitoring "monitoring"
              Examples.monitoring (Some tt) Hchain) as (Hfail & _ & _).
  set (run := executeLoop "monitoring" ["extractor"%string] (Some tt)
                (plugin_instances_ Examples.with_monitoring) Result.empty []).
  set (step := executePluginInChain "monitoring" "unimplemented" (Some tt) run.1.1.2 run.1.2).
  rewrite (Hfail ["extractor"%string] ["rescaler"%string] "unimplemented"%string
             run.1.1.2 run.1.2 run.2 step.1.2 step.2).
  - repeat split.
  - reflexivity.
  - vm_compute. reflexivity.
  - vm_compute. reflexivity.
Defined.

(** A run whose stages all succeed: the second stage has overwritten the
    entry of the first in the record that the loop threads, and still
    nothing is copied into the caller's record. *)
Example executeChain_success_copies_nothing :
  let '(ok, _, assigned, calls) :=
    executeChain Scenarios.with_rescaling "rescaling" (Some tt) in
  ok = true /\ assigned = None /\ calls = ["extractor"%string; "rescaler"%string]
  /\ Result.getDoubleData "mean_hf"
       (executeLoop "rescaling" ["extractor"%string; "rescaler"%string] (Some tt)
          (plugin_instances_ Scenarios.with_rescaling) Result.empty []).1.2
     = Examples.d100.
Proof.
  vm_compute. repeat split.
Qed.

End ChainExamples.

(** * Further properties *)

(** ** The registry *)

Section RegistryProperties.

Import Chain ChainOps.

Context {P Param Data : Type} `{IPlugin P Param Data}.

(** X1.  Registration overwrites.  A null factory or an empty name is
    rejected and the registry is unchanged.  Otherwise the name is available
    afterwards and [createPlugin] yields what the new factory makes, whether
    or not the name was registered before; every other name is unaffected. *)
Theorem registerPluginFactory_overwrites (manager : PluginManager P) (plugin_name : string)
    (factory : @IPluginFactory P) :
  registerPluginFactory plugin_name None manager = (false, manager)
  /\ registerPluginFactory ""%string (Some factory) manager = (false, manager)
  /\ (plugin_name <> ""%string ->
      let manager' := (registerPluginFactory plugin_name (Some factory) manager).2 in
      (registerPluginFactory plugin_name (Some factory) manager).1 = true
      /\ isPluginAvailable manager' plugin_name = true
      /\ createPlugin manager' plugin_name = factory
      /\ forall other, other <> plugin_name ->
           isPluginAvailable manager' other = isPluginAvailable manager other
           /\ createPlugin manager' other = createPlugin manager other).
Proof.
  split; [reflexivity|]. split; [reflexivity|].
  intros Hname. unfold registerPluginFactory.
  rewrite (bool_decide_eq_false_2 _ Hname). cbn.
  unfold isPluginAvailable, createPlugin; cbn.
  split; [reflexivity|]. split; [|split].
  - apply bool_decide_eq_true_2. rewrite lookup_insert_eq. eauto.
  - now rewrite lookup_insert_eq.
  - intros other Hother. rewrite !lookup_insert_ne by congruence. split; reflexivity.
Qed.

(** X2.  After [unregisterPlugin] the name is unavailable, so that
    [createChain] rejects every configuration that names it and leaves the
    chain manager as it was; the returned flag tells whether the name was
    registered. *)
Theorem unregisterPlugin_blocks_chains (manager : PluginManager P) (plugin_name : string)
    (config : ChainConfig Param) (m : PluginChainManager P Param) :
  plugin_name ∈ plugin_names config ->
  (unregisterPlugin plugin_name manager).1 = isPluginAvailable manager plugin_name
  /\ isPluginAvailable (unregisterPlugin plugin_name manager).2 plugin_name = false
  /\ createChain (unregisterPlugin plugin_name manager).2 config m = (false, m).
Proof.
  intros Hin.
  assert (isPluginAvailable (unregisterPlugin plugin_name manager).2 plugin_name = false) as Hgone.
  { unfold unregisterPlugin, isPluginAvailable.
    destruct (plugin_factories_ manager !! plugin_name) eqn:Hreg; cbn.
    - rewrite lookup_delete_eq. apply bool_decide_eq_false_2. intros [? ?]; discriminate.
    - rewrite Hreg. apply bool_decide_eq_false_2. intros [? ?]; discriminate. }
  split; [|split; [exact Hgone|]].
  - unfold unregisterPlugin, isPluginAvailable.
    destruct (plugin_factories_ manager !! plugin_name); reflexivity.
  - eapply createChain_unavailable; eauto.
Qed.

(** X3.  Registering a fresh name and unregistering it again gives back the
    registry exactly. *)
Theorem register_unregister_roundtrip (manager : PluginManager P) (plugin_name : string)
    (factory : @IPluginFactory P) :
  plugin_name <> ""%string ->
  plugin_factories_ manager !! plugin_name = None ->
  unregisterPlugin plugin_name (registerPluginFactory plugin_name (Some factory) manager).2
  = (true, manager).
Proof.
  intros Hname Hfresh. unfold registerPluginFactory.
  rewrite (bool_decide_eq_false_2 _ Hname). cbn.
  unfold unregisterPlugin; cbn. rewrite lookup_insert_eq.
  rewrite delete_insert_id by exact Hfresh. destruct manager; reflexivity.
Qed.

End RegistryProperties.

Section RegistryExamples.

Import Chain ChainOps.

Lemma registerPluginFactory_overwrites_witness :
  createPlugin
    (registerPluginFactory "rescaler" (Some (Some Examples.extractor)) Examples.registry).2
    "rescaler" = Some Examples.extractor
  /\ createPlugin
       (registerPluginFactory "rescaler" (Some (Some Examples.extractor)) Examples.registry).2
       "unimplemented" = Some Examples.unimplemented.
Proof.
  destruct (registerPluginFactory_overwrites Examples.registry "rescaler" (Some Examples.extractor))
    as (_ & _ & Hreg).
  destruct Hreg as (_ & _ & Hnew & Hother); [discriminate|].
  split; [exact Hnew|].
  destruct (Hother "unimplemented"%string) as [_ Hsame]; [discriminate|].
  etransitivity; [exact Hsame | vm_compute; reflexivity].
Defined.

Lemma unregisterPlugin_blocks_chains_witness :
  createChain (Data := option unit) (unregisterPlugin "extractor" Examples.registry).2
    Examples.monitoring empty_manager = (false, empty_manager).
Proof.
  apply (unregisterPlugin_blocks_chains Examples.registry "extractor" Examples.monitoring
           empty_manager).
  cbn. apply list_elem_of_here.
Defined.

Lemma register_unregister_roundtrip_witness :
  unregisterPlugin "motor97"
    (registerPluginFactory "motor97" (Some (Some Examples.rescaler)) Examples.registry).2
  = (true, Examples.registry).
Proof.
  apply register_unregister_roundtrip; [discriminate | vm_compute; reflexivity].
Defined.

End RegistryExamples.

(** ** Chain maintenance *)

Section ChainMaintenance.

Import Chain ChainOps ChainView.

Context {P Param Data : Type} `{IPlugin P Param Data}.

Lemma instance_of_store (instances : gmap string (gmap string P)) (chain n : string) (plugin : P)
    (chain' n' : string) :
  is_Some (instance_of instances chain' n') ->
  is_Some (instance_of (store_instance chain n plugin instances) chain' n').
Proof.
  unfold instance_of, store_instance. intros Hsome.
  destruct (decide (chain = chain')) as [->|Hne].
  - rewrite lookup_insert_eq. cbn.
    destruct (decide (n = n')) as [->|Hn]; [rewrite lookup_insert_eq; eauto|].
    rewrite lookup_insert_ne by exact Hn.
    destruct (instances !! chain'); cbn in *; [exact Hsome|destruct Hsome; discriminate].
  - rewrite lookup_insert_ne by exact Hne. exact Hsome.
Qed.

Lemma instance_of_store_eq (instances : gmap string (gmap string P)) (chain n : string) (plugin : P) :
  instance_of (store_instance chain n plugin instances) chain n = Some plugin.
Proof.
  unfold instance_of, store_instance. rewrite lookup_insert_eq. cbn. apply lookup_insert_eq.
Qed.

Lemma initializeLoop_instances (manager : PluginManager P) (config : ChainConfig Param)
    (chain : string) (names : list string) :
  forall (i : nat) (instances instances' : gmap string (gmap string P)),
    initializeLoop manager config chain names i instances = (true, instances') ->
    (forall n, n ∈ names -> is_Some (instance_of instances' chain n))
    /\ (forall c n, is_Some (instance_of instances c n) -> is_Some (instance_of instances' c n)).
Proof.
  induction names as [|n0 names IH]; intros i instances instances' Hrun; cbn in Hrun.
  - inversion Hrun; subst. split; [intros n Hn; inversion Hn|auto].
  - destruct (createPlugin_params manager n0 _) as [plugin|]; [|discriminate].
    destruct (IH _ _ _ Hrun) as [Hnames Hkeep]. split.
    + intros n Hn. apply elem_of_cons in Hn as [->|Hn]; [|auto].
      apply Hkeep. rewrite instance_of_store_eq. eauto.
    + intros c n Hsome. apply Hkeep. now apply instance_of_store.
Qed.

Lemma initializeLoop_other_chains (manager : PluginManager P) (config : ChainConfig Param)
    (chain : string) (names : list string) :
  forall (i : nat) (instances : gmap string (gmap string P)),
    delete chain (initializeLoop manager config chain names i instances).2 = delete chain instances.
Proof.
  induction names as [|n0 names IH]; intros i instances; cbn; [reflexivity|].
  destruct (createPlugin_params manager n0 _) as [plugin|]; [|reflexivity].
  rewrite IH. unfold store_instance. apply delete_insert_eq.
Qed.

(** X4.  A chain that [createChain] reports as created is complete: its
    configuration is stored under its (non-empty) name and every stage has
    an instance under that name, so that no stage of a later execution can
    fail for want of an instance. *)
Theorem createChain_success_complete (manager : PluginManager P) (config : ChainConfig Param)
    (m m' : PluginChainManager P Param) :
  createChain manager config m = (true, m') ->
  chain_name config <> ""%string
  /\ plugin_chains_ m' !! chain_name config = Some config
  /\ forall n, n ∈ plugin_names config ->
       is_Some (instance_of (plugin_instances_ m') (chain_name config) n).
Proof.
  unfold createChain. intros Hcreate.
  destruct (bool_decide (chain_name config = ""%string)) eqn:Hname; [discriminate|].
  destruct (bool_decide (plugin_names config = [])); [discriminate|]. cbn [orb] in Hcreate.
  destruct (forallb (isPluginAvailable manager) (plugin_names config)); [|discriminate].
  unfold initializeChainPlugins in Hcreate. cbn [plugin_chains_ plugin_instances_] in Hcreate.
  rewrite lookup_insert_eq in Hcreate.
  destruct (initializeLoop manager config (chain_name config) (plugin_names config) 0
              (plugin_instances_ m)) as [ok instances] eqn:Hloop.
  inversion Hcreate; subst. cbn.
  split; [now apply bool_decide_eq_false in Hname|]. split; [apply lookup_insert_eq|].
  apply (initializeLoop_instances _ _ _ _ _ _ _ Hloop).
Qed.

(** X5.  [clearChain] undoes [createChain].  When the manager holds neither
    a configuration nor instances under the chain name, creating the chain
    and clearing it again gives back the manager exactly, whether the
    creation succeeded or stopped half-way. *)
Theorem createChain_clearChain_roundtrip (manager : PluginManager P) (config : ChainConfig Param)
    (m : PluginChainManager P Param) :
  plugin_chains_ m !! chain_name config = None ->
  plugin_instances_ m !! chain_name config = None ->
  (clearChain (chain_name config) (createChain manager config m).2).2 = m.
Proof.
  intros Hchain Hinst.
  assert ((clearChain (chain_name config) m).2 = m) as Hnoop
    by (unfold clearChain; rewrite Hchain; reflexivity).
  unfold createChain.
  destruct (bool_decide (chain_name config = ""%string) || bool_decide (plugin_names config = []));
    [exact Hnoop|].
  destruct (forallb (isPluginAvailable manager) (plugin_names config)); [|exact Hnoop].
  unfold initializeChainPlugins. cbn [plugin_chains_ plugin_instances_].
  rewrite lookup_insert_eq.
  pose proof (initializeLoop_other_chains manager config (chain_name config) (plugin_names config)
                0 (plugin_instances_ m)) as Hother.
  destruct (initializeLoop manager config (chain_name config) (plugin_names config) 0
              (plugin_instances_ m)) as [ok instances].
  cbn in Hother |- *. unfold clearChain. cbn [plugin_chains_ plugin_instances_].
  rewrite lookup_insert_eq. cbn.
  rewrite Hother, (delete_id _ _ Hinst), (delete_insert_id _ _ _ Hchain).
  destruct m; reflexivity.
Qed.

Lemma executePluginInChain_keys (chain plugin_name : string) (input : Data)
    (instances : gmap string (gmap string P)) (r : PluginResultImpl) (c n : string) :
  is_Some (instance_of (executePluginInChain chain plugin_name input instances r).1.2 c n)
  <-> is_Some (instance_of instances c n).
Proof.
  unfold executePluginInChain.
  destruct (instances !! chain) as [of_chain|] eqn:Hchain; [|reflexivity].
  destruct (of_chain !! plugin_name) as [plugin|] eqn:Hplugin; [|reflexivity].
  destruct (process plugin input r) as [[ok plugin'] r']. cbn.
  unfold instance_of.
  destruct (decide (chain = c)) as [->|Hc].
  - rewrite lookup_insert_eq, Hchain. cbn.
    destruct (decide (plugin_name = n)) as [->|Hn].
    + rewrite lookup_insert_eq, Hplugin. split; eauto.
    + rewrite lookup_insert_ne by exact Hn. reflexivity.
  - rewrite lookup_insert_ne by exact Hc. reflexivity.
Qed.

Lemma executeLoop_keys (chain : string) (input : Data) (names : list string) (c n : string) :
  forall (instances : gmap string (gmap string P)) (r : PluginResultImpl) (calls : list string),
    is_Some (instance_of (executeLoop chain names input instances r calls).1.1.2 c n)
    <-> is_Some (instance_of instances c n).
Proof.
  induction names as [|n0 names IH]; intros instances r calls; [reflexivity|].
  rewrite executeLoop_cons.
  pose proof (executePluginInChain_keys chain n0 input instances r c n) as Hstep.
  destruct (executePluginInChain chain n0 input instances r) as [[ok instances'] r'].
  cbn in Hstep. destruct ok; [rewrite IH; exact Hstep|exact Hstep].
Qed.

Lemma executeLoop_missing_instance (chain : string) (input : Data) (missing : string)
    (names : list string) :
  forall (instances : gmap string (gmap string P)) (r : PluginResultImpl) (calls : list string),
    missing ∈ names -> instance_of instances chain missing = None ->
    (executeLoop chain names input instances r calls).1.1.1 = false.
Proof.
  induction names as [|n0 names IH]; intros instances r calls Hin Hnone; [inversion Hin|].
  rewrite executeLoop_cons.
  destruct (decide (n0 = missing)) as [->|Hne].
  - unfold executePluginInChain. unfold instance_of in Hnone.
    destruct (instances !! chain) as [of_chain|]; [|reflexivity]. cbn in Hnone.
    rewrite Hnone. reflexivity.
  - pose proof (executePluginInChain_keys chain n0 input instances r chain missing) as Hkeys.
    destruct (executePluginInChain chain n0 input instances r) as [[ok instances'] r'].
    cbn in Hkeys. destruct ok; [|reflexivity].
    apply IH.
    + apply elem_of_cons in Hin as [->|Hin]; [congruence|exact Hin].
    + destruct (instance_of instances' chain missing) eqn:Hi; [|reflexivity].
      rewrite Hnone in Hkeys. destruct Hkeys as [Hk _]. destruct Hk; eauto; discriminate.
Qed.

(** X6.  [executeChain] changes only the state of the plugin objects: the
    stored configurations are the same afterwards, and an instance exists
    under a chain and plugin name afterwards exactly when it existed before. *)
Theorem executeChain_preserves_structure (m : PluginChainManager P Param) (chain : string)
    (input : Data) :
  let m' := (executeChain m chain input).1.1.2 in
  plugin_chains_ m' = plugin_chains_ m
  /\ forall c n, is_Some (instance_of (plugin_instances_ m') c n)
                 <-> is_Some (instance_of (plugin_instances_ m) c n).
Proof.
  unfold executeChain.
  destruct (plugin_chains_ m !! chain) as [config|]; [|split; reflexivity].
  pose proof (executeLoop_keys chain input (plugin_names config)) as Hkeys.
  destruct (executeLoop chain (plugin_names config) input (plugin_instances_ m) Result.empty [])
    as [[[ok instances] r] calls] eqn:Hrun.
  cbn. split; [reflexivity|]. intros c n.
  specialize (Hkeys c n (plugin_instances_ m) Result.empty []). rewrite Hrun in Hkeys. exact Hkeys.
Qed.

(** X7.  [addPluginToChain] appends the stage to the configuration but
    builds no instance.  When the chain has no instance under the added
    name, every later execution of the chain fails. *)
Theorem addPluginToChain_builds_no_instance (manager : PluginManager P) (chain plugin_name : string)
    (params : option Param) (m : PluginChainManager P Param) (config : ChainConfig Param) :
  plugin_chains_ m !! chain = Some config ->
  isPluginAvailable manager plugin_name = true ->
  instance_of (plugin_instances_ m) chain plugin_name = None ->
  let m' := (addPluginToChain manager chain plugin_name params m).2 in
  (addPluginToChain manager chain plugin_name params m).1 = true
  /\ getChainPlugins m' chain = plugin_names config ++ [plugin_name]
  /\ plugin_instances_ m' = plugin_instances_ m
  /\ forall input : Data, succeeded (executeChain m' chain input) = false.
Proof.
  intros Hchain Havail Hnone. unfold addPluginToChain. rewrite Hchain, Havail. cbn.
  split; [reflexivity|]. split.
  { unfold getChainPlugins; cbn. now rewrite lookup_insert_eq. }
  split; [reflexivity|].
  intros input. unfold succeeded, executeChain. cbn [plugin_chains_ plugin_instances_].
  rewrite lookup_insert_eq. cbn [plugin_names].
  pose proof (executeLoop_missing_instance chain input plugin_name
                (plugin_names config ++ [plugin_name]) (plugin_instances_ m) Result.empty []) as Hfail.
  destruct (executeLoop chain (plugin_names config ++ [plugin_name]) input (plugin_instances_ m)
              Result.empty []) as [[[ok instances] r] calls].
  cbn in Hfail |- *. apply Hfail; [|exact Hnone].
  apply elem_of_app. right. apply list_elem_of_here.
Qed.

End ChainMaintenance.

Section ChainEditing.

Import Chain ChainOps ChainView.

Context {P Param Data : Type} `{IPlugin P Param Data}.

Lemma find_index_first (plugin_name : string) (pre post : list string) :
  forall i : nat,
    plugin_name ∉ pre ->
    find_index plugin_name (pre ++ plugin_name :: post) i = Some (i + List.length pre)%nat.
Proof.
  induction pre as [|n pre IH]; intros i Hnot; cbn.
  - rewrite bool_decide_eq_true_2 by reflexivity. f_equal. lia.
  - apply not_elem_of_cons in Hnot as [Hne Hnot].
    rewrite bool_decide_eq_false_2 by congruence. rewrite IH by exact Hnot. f_equal. lia.
Qed.

Lemma find_index_absent (plugin_name : string) (names : list string) :
  forall i : nat, plugin_name ∉ names -> find_index plugin_name names i = None.
Proof.
  induction names as [|n names IH]; intros i Hnot; cbn; [reflexivity|].
  apply not_elem_of_cons in Hnot as [Hne Hnot].
  rewrite bool_decide_eq_false_2 by congruence. now apply IH.
Qed.

(** X8.  [removePluginFromChain] removes the first occurrence of the name
    together with the parameter set at the same position, so that stages and
    parameters stay aligned; the instance map is not touched.  A name that
    is not a stage of the chain is refused and nothing changes. *)
Theorem removePluginFromChain_aligned (chain plugin_name : string)
    (m : PluginChainManager P Param) (config : ChainConfig Param) :
  plugin_chains_ m !! chain = Some config ->
  (plugin_name ∉ plugin_names config -> removePluginFromChain chain plugin_name m = (false, m))
  /\ (forall (pre post : list string) (ppre ppost : list (option Param)) (p : option Param),
        plugin_names config = pre ++ plugin_name :: post ->
        plugin_name ∉ pre ->
        plugin_params config = ppre ++ p :: ppost ->
        List.length ppre = List.length pre ->
        removePluginFromChain chain plugin_name m
        = (true,
           mkChainManager
             (<[chain := mkChainConfig (chain_name config) (pre ++ post) (ppre ++ ppost)
                           (data_mappings config)]> (plugin_chains_ m))
             (plugin_instances_ m))).
Proof.
  intros Hchain. unfold removePluginFromChain. rewrite Hchain. split.
  - intros Hnot. now rewrite find_index_absent.
  - intros pre post ppre ppost p Hnames Hnot Hparams Hlen.
    rewrite Hnames, Hparams, find_index_first by exact Hnot. cbn [Nat.add].
    replace (List.length pre <? List.length (ppre ++ p :: ppost))%nat with true.
    + rewrite <- Hlen at 2. rewrite !delete_middle. reflexivity.
    + symmetry. apply Nat.ltb_lt. rewrite length_app. cbn. lia.
Qed.

(** X9.  The data mappings are advisory: recording a mapping with
    [setDataMapping] changes neither the flag, nor the assigned record, nor
    the calls, nor the instances of any later [executeChain]. *)
Theorem setDataMapping_advisory (chain source_plugin target_plugin data_key : string)
    (m : PluginChainManager P Param) (run_chain : string) (input : Data) :
  let m' := (setDataMapping chain source_plugin target_plugin data_key m).2 in
  succeeded (executeChain m' run_chain input) = succeeded (executeChain m run_chain input)
  /\ (executeChain m' run_chain input).1.2 = (executeChain m run_chain input).1.2
  /\ (executeChain m' run_chain input).2 = (executeChain m run_chain input).2
  /\ plugin_instances_ (executeChain m' run_chain input).1.1.2
     = plugin_instances_ (executeChain m run_chain input).1.1.2.
Proof.
  unfold setDataMapping, succeeded.
  destruct (plugin_chains_ m !! chain) as [config|] eqn:Hchain; [|repeat split].
  cbn. unfold executeChain. cbn [plugin_chains_ plugin_instances_].
  destruct (decide (chain = run_chain)) as [->|Hne].
  - rewrite lookup_insert_eq, Hchain. cbn [plugin_names].
    destruct (executeLoop run_chain (plugin_names config) input (plugin_instances_ m) Result.empty [])
      as [[[ok instances] r] calls].
    repeat split.
  - rewrite lookup_insert_ne by exact Hne.
    destruct (plugin_chains_ m !! run_chain) as [config'|]; [|repeat split].
    destruct (executeLoop run_chain (plugin_names config') input (plugin_instances_ m) Result.empty [])
      as [[[ok instances] r] calls].
    repeat split.
Qed.

End ChainEditing.

Section ChainMaintenanceExamples.

Import Chain ChainOps ChainView.

Lemma createChain_success_complete_witness :
  is_Some (instance_of (plugin_instances_ Examples.with_monitoring) "monitoring" "rescaler").
Proof.
  destruct (createChain_success_complete (Data := option unit) Examples.registry
              Examples.monitoring empty_manager Examples.with_monitoring) as (_ & _ & Hall).
  - vm_compute. reflexivity.
  - apply Hall. cbn. apply list_elem_of_further, list_elem_of_further, list_elem_of_here.
Defined.

Lemma createChain_clearChain_roundtrip_witness :
  (clearChain "half_built"
     (createChain (Data := option unit) Examples.registry Examples.half_built empty_manager).2).2
  = empty_manager.
Proof.
  apply (createChain_clearChain_roundtrip (Data := option unit) Examples.registry
           Examples.half_built empty_manager); reflexivity.
Defined.

Lemma addPluginToChain_builds_no_instance_witness :
  succeeded
    (executeChain
       (addPluginToChain Examples.registry "extraction" "rescaler" (Some ["mean_hf"%string])
          Scenarios.with_extraction).2
       "extraction" (Some tt)) = false.
Proof.
  destruct (addPluginToChain_builds_no_instance (Data := option unit) Examples.registry
              "extraction" "rescaler" (Some ["mean_hf"%string]) Scenarios.with_extraction
              Scenarios.extraction) as (_ & _ & _ & Hfails).
  - vm_compute. reflexivity.
  - vm_compute. reflexivity.
  - vm_compute. reflexivity.
  - apply Hfails.
Defined.

(** Before the stage is added the chain runs. *)
Example executeChain_extraction :
  succeeded (executeChain Scenarios.with_extraction "extraction" (Some tt)) = true.
Proof. vm_compute. reflexivity. Qed.

Lemma removePluginFromChain_aligned_witness :
  getChainPlugins (removePluginFromChain "monitoring" "unimplemented" Examples.with_monitoring).2
    "monitoring" = ["extractor"%string; "rescaler"%string].
Proof.
  destruct (removePluginFromChain_aligned "monitoring" "unimplemented"
              Examples.with_monitoring Examples.monitoring) as [_ Hremove].
  - vm_compute. reflexivity.
  - rewrite (Hremove ["extractor"%string] ["rescaler"%string]
               [Some ["mean_hf"%string]] [Some ["mean_hf"%string]] (Some ["mean_hf"%string])).
    + unfold getChainPlugins; cbn. now rewrite lookup_insert_eq.
    + reflexivity.
    + intros Hin. apply list_elem_of_singleton in Hin. discriminate.
    + reflexivity.
    + reflexivity.
Defined.

End ChainMaintenanceExamples.

(** ** The classifier state across calls *)

Section ClassifierInvariants.

Import Decision DecisionView.

Lemma handleTransition_frame (cfg : Config) (current previous : Z) (s : State) :
  let s' := (handleTransition cfg current previous s).2 in
  status_history_ s' = status_history_ s /\ prev_time_ s' = prev_time_ s
  /\ prev_status_ s' = prev_status_ s /\ last_error_ s' = last_error_ s
  /\ time_series_counter_ s' = time_series_counter_ s.
Proof.
  unfold handleTransition.
  destruct ((current =? 1) && (previous =? 0)).
  - cbn. destruct (_ <=? _); cbn; repeat split.
  - destruct ((current =? 0) && (previous =? 1)); [|cbn; repeat split].
    cbn. destruct (_ <=? _); cbn; repeat split.
Qed.

Lemma handleTimeSeriesTransition_frame (cfg : Config) (current previous : Z) (s : State) :
  let s' := (handleTimeSeriesTransition cfg current previous s).2 in
  status_history_ s' = status_history_ s /\ prev_time_ s' = prev_time_ s
  /\ prev_status_ s' = prev_status_ s /\ last_error_ s' = last_error_ s
  /\ transition_counter_ s' = transition_counter_ s
  /\ close_counter_ s' = close_counter_ s.
Proof.
  unfold handleTimeSeriesTransition.
  destruct (0 <? _); [|cbn; repeat split].
  destruct (negb _); [|cbn; repeat split].
  cbn. destruct (_ <=? _); cbn; repeat split.
Qed.

Lemma smoothTransition_frame (cfg : Config) (overall : Z) (s : State) :
  let s' := (smoothTransition cfg overall s).2 in
  status_history_ s' = status_history_ s /\ prev_time_ s' = prev_time_ s
  /\ prev_status_ s' = prev_status_ s /\ last_error_ s' = last_error_ s.
Proof.
  unfold smoothTransition.
  destruct (negb (prev_status_ s =? -1) && negb (overall =? prev_status_ s)); [|cbn; repeat split].
  pose proof (handleTransition_frame cfg overall (prev_status_ s) s) as Hone.
  destruct (handleTransition cfg overall (prev_status_ s) s) as [in_transition s1].
  cbn in Hone. destruct Hone as (Hh & Ht & Hp & He & _).
  pose proof (handleTimeSeriesTransition_frame cfg
                (if in_transition then transition_status_ cfg else overall) (prev_status_ s1) s1) as Htwo.
  destruct (handleTimeSeriesTransition cfg _ (prev_status_ s1) s1) as [in_time_series s2].
  cbn in Htwo |- *. destruct Htwo as (Hh2 & Ht2 & Hp2 & He2 & _).
  repeat split; congruence.
Qed.

Lemma calculateOverallStatus_range (cfg : Config) (feature_statuses : list Z) :
  calculateOverallStatus cfg feature_statuses = 0 \/ calculateOverallStatus cfg feature_statuses = 1.
Proof.
  unfold calculateOverallStatus. destruct feature_statuses; [left; reflexivity|].
  destruct (_ && _); [left; reflexivity|].
  destruct (_ <=? _); [right|left]; reflexivity.
Qed.

Lemma smoothTransition_status (cfg : Config) (overall : Z) (s : State) :
  let emitted := (smoothTransition cfg overall s).1 in
  emitted = overall \/ emitted = transition_status_ cfg \/ emitted = time_series_status_ cfg.
Proof.
  unfold smoothTransition.
  destruct (negb (prev_status_ s =? -1) && negb (overall =? prev_status_ s)); [|left; reflexivity].
  destruct (handleTransition cfg overall (prev_status_ s) s) as [in_transition s1].
  destruct (handleTimeSeriesTransition cfg _ (prev_status_ s1) s1) as [in_time_series s2].
  cbn. destruct in_time_series; [right; right; reflexivity|].
  destruct in_transition; [right; left|left]; reflexivity.
Qed.

Lemma addStatusToHistory_bound (cfg : Config) (status : Z) (s : State) :
  (List.length (status_history_ s) <= max_history_size_ cfg)%nat ->
  (List.length (status_history_ (addStatusToHistory cfg status s)) <= max_history_size_ cfg)%nat.
Proof.
  intros Hbound. unfold addStatusToHistory; cbn [status_history_].
  destruct (max_history_size_ cfg <? List.length (status_history_ s ++ [status]))%nat eqn:Hfull.
  - destruct (status_history_ s ++ [status]) as [|h rest] eqn:Hpushed; [cbn; lia|].
    apply Nat.ltb_lt in Hfull. cbn [tail].
    assert (List.length (h :: rest) = S (List.length (status_history_ s))) as Hlen
      by (rewrite <- Hpushed, length_app; cbn; lia).
    cbn in Hlen. lia.
  - apply Nat.ltb_ge in Hfull. exact Hfull.
Qed.

(** X10.  The status history is bounded.  When the history holds at most
    [max_history_size_] entries before a classification call, it holds at
    most that many after it, whatever the input and whether or not the call
    succeeds. *)
Theorem classifyStatus_history_bounded (cfg : Config) (input : PluginData) (now : Z)
    (s : State) (output : PluginResultImpl) :
  (List.length (status_history_ s) <= max_history_size_ cfg)%nat ->
  (List.length (status_history_ (state_after (classifyStatus cfg input now s output)))
   <= max_history_size_ cfg)%nat.
Proof.
  intros Hbound. unfold state_after, classifyStatus.
  destruct input as [custom| |features|status]; try exact Hbound.
  destruct (offlineCheck_history cfg now s) as [Hhist _].
  destruct (featureStatuses cfg features (select_features_ cfg) []) as [missing|statuses].
  - cbn [fst snd]. unfold setError; cbn [status_history_]. rewrite Hhist. exact Hbound.
  - pose proof (smoothTransition_frame cfg (calculateOverallStatus cfg statuses)
                  (offlineCheck cfg now s)) as Hframe.
    destruct (smoothTransition cfg (calculateOverallStatus cfg statuses) (offlineCheck cfg now s))
      as [overall s2].
    cbv zeta in Hframe. cbn [snd] in Hframe. destruct Hframe as (Hh & _).
    assert (List.length (status_history_ (addStatusToHistory cfg overall s2))
            <= max_history_size_ cfg)%nat as Hadded
      by (apply addStatusToHistory_bound; rewrite Hh, Hhist; exact Hbound).
    destruct (status_mapping_ cfg !! overall); cbn [fst snd]; unfold setError, set_prev_status;
      cbn [status_history_]; exact Hadded.
Qed.

Lemma classifyStatus_history_bounded_witness :
  (List.length
     (status_history_
        (state_after (classifyStatus Examples.motor97 (Examples.reading Examples.d150)
                        2000000000 Examples.seen_running Result.empty))) <= 10)%nat.
Proof.
  apply (classifyStatus_history_bounded Examples.motor97). cbn. lia.
Defined.

(** X11.  What a successful call emits.  When [classifyStatus] returns
    [true], the emitted status is 0, 1, [transition_status_] or
    [time_series_status_]; it is the value written under "status", the new
    [prev_status_], and it has a name in the status mapping, which is the
    value written under "status_name". *)
Theorem classifyStatus_success_emits (cfg : Config) (input : PluginData) (now : Z)
    (s s' : State) (output output' : PluginResultImpl) :
  classifyStatus cfg input now s output = (true, s', output') ->
  (prev_status_ s' = 0 \/ prev_status_ s' = 1
   \/ prev_status_ s' = transition_status_ cfg \/ prev_status_ s' = time_series_status_ cfg)
  /\ getIntData "status" output' = prev_status_ s'
  /\ status_mapping_ cfg !! prev_status_ s' = Some (getStringData "status_name" output').
Proof.
  unfold classifyStatus. intros Hcall.
  destruct input as [custom| |features|status]; try discriminate.
  destruct (featureStatuses cfg features (select_features_ cfg) []) as [missing|statuses];
    [discriminate|].
  pose proof (smoothTransition_status cfg (calculateOverallStatus cfg statuses)
                (offlineCheck cfg now s)) as Hstatus.
  destruct (smoothTransition cfg (calculateOverallStatus cfg statuses) (offlineCheck cfg now s))
    as [overall s2].
  cbn in Hstatus.
  destruct (status_mapping_ cfg !! overall) as [status_name|] eqn:Hname; [|discriminate].
  inversion Hcall; subst. cbn. split; [|split].
  - destruct Hstatus as [-> | [-> | ->]]; [|auto|auto].
    destruct (calculateOverallStatus_range cfg statuses) as [-> | ->]; auto.
  - unfold getIntData; cbn. now rewrite lookup_insert_eq.
  - unfold getStringData; cbn. now rewrite lookup_insert_eq.
Qed.

Lemma classifyStatus_success_emits_witness :
  getIntData "status"
    (output_after (classifyStatus Examples.motor97 (Examples.reading Examples.d150)
                     2000000000 Examples.seen_running Result.empty)) = 1.
Proof.
  destruct (classifyStatus_success_emits Examples.motor97 (Examples.reading Examples.d150)
              2000000000 Examples.seen_running
              (state_after (classifyStatus Examples.motor97 (Examples.reading Examples.d150)
                              2000000000 Examples.seen_running Result.empty))
              Result.empty
              (output_after (classifyStatus Examples.motor97 (Examples.reading Examples.d150)
                               2000000000 Examples.seen_running Result.empty)))
    as (_ & Hstatus & _).
  - vm_compute. reflexivity.
  - rewrite Hstatus. vm_compute. reflexivity.
Defined.

End ClassifierInvariants.

Section ClassifierRestart.

Import Decision DecisionView.

Lemma resetState_idempotent (s : State) : resetState (resetState s) = resetState s.
Proof. reflexivity. Qed.

Lemma smoothTransition_after_reset (cfg : Config) (overall now : Z) (s : State) :
  smoothTransition cfg overall (set_prev_time now (resetState s))
  = (overall, set_prev_time now (resetState s)).
Proof. reflexivity. Qed.

(** X12.  Offline restart.  A reading that arrives more than
    [offline_length_] whole seconds after the previous one is classified as
    if the counters and [prev_status_] had their initial values: the result
    is the one obtained from the reset state, the emitted status is the raw
    overall status without transition smoothing, and the counters are 0
    afterwards.  The status history is not cleared by the restart. *)
Theorem classifyStatus_offline_restart (cfg : Config) (features : gmap string double) (now : Z)
    (s : State) (output : PluginResultImpl) :
  prev_time_ s <> 0 ->
  offline_length_ cfg < Clock.seconds_between (prev_time_ s) now ->
  classifyStatus cfg (FeatureData features) now s output
  = classifyStatus cfg (FeatureData features) now (resetState s) output
  /\ forall statuses,
       featureStatuses cfg features (select_features_ cfg) [] = inr statuses ->
       let run := classifyStatus cfg (FeatureData features) now s output in
       getIntData "status" (output_after run) = calculateOverallStatus cfg statuses
       /\ prev_status_ (state_after run) = calculateOverallStatus cfg statuses
       /\ transition_counter_ (state_after run) = 0
       /\ close_counter_ (state_after run) = 0
       /\ time_series_counter_ (state_after run) = 0
       /\ status_history_ (state_after run)
          = status_history_
              (addStatusToHistory cfg (calculateOverallStatus cfg statuses) s).
Proof.
  intros Hseen Hgap.
  pose proof (offlineCheck_offline cfg now s Hseen Hgap) as Hreset.
  assert (offlineCheck cfg now (resetState s) = set_prev_time now (resetState s)) as Hagain.
  { rewrite (offlineCheck_offline cfg now (resetState s)); [reflexivity|exact Hseen|exact Hgap]. }
  split.
  - unfold classifyStatus. rewrite Hreset, Hagain. reflexivity.
  - intros statuses Hall run. subst run. unfold classifyStatus, output_after, state_after.
    rewrite Hall, Hreset, smoothTransition_after_reset.
    destruct (status_mapping_ cfg !! calculateOverallStatus cfg statuses);
      cbn [fst snd]; unfold getIntData; cbn; rewrite ?lookup_insert_eq; repeat split.
Qed.

Lemma classifyStatus_offline_restart_witness :
  getIntData "status"
    (output_after (classifyStatus Examples.motor97 (Examples.reading Examples.dm5)
                     3701000000000 Examples.seen_running Result.empty)) = 0.
Proof.
  destruct (classifyStatus_offline_restart Examples.motor97
              (<["mean_hf"%string := Examples.dm5]> ∅) 3701000000000 Examples.seen_running
              Result.empty) as [_ Hraw].
  - discriminate.
  - reflexivity.
  - destruct (Hraw [0]) as [Hstatus _]; [vm_compute; reflexivity|]. exact Hstatus.
Defined.

(** The same reading one second after the previous one is smoothed: here it
    starts the closing window and is still answered with the raw status. *)
Example classifyStatus_without_gap :
  close_counter_
    (state_after (classifyStatus Examples.motor97 (Examples.reading Examples.dm5)
                    2000000000 Examples.seen_running Result.empty)) = 1.
Proof. vm_compute. reflexivity. Qed.

Lemma handleTransition_bounded (cfg : Config) (current previous : Z) (s : State) :
  1 <= nth 0 (transition_width_ cfg) 0 -> 1 <= nth 1 (transition_width_ cfg) 0 ->
  counters_bounded cfg s ->
  counters_bounded cfg (handleTransition cfg current previous s).2.
Proof.
  intros Hw0 Hw1 (Htc & Hcc & Hts & Htsw). unfold handleTransition, counters_bounded.
  destruct ((current =? 1) && (previous =? 0)).
  - cbn [transition_counter_ set_transition_counter].
    destruct (nth 0 (transition_width_ cfg) 0 <=? transition_counter_ s + 1) eqn:Hreach; cbn.
    + repeat split; try lia; tauto.
    + apply Z.leb_gt in Hreach. repeat split; try lia; tauto.
  - destruct ((current =? 0) && (previous =? 1)); [|cbn; tauto].
    cbn [close_counter_ set_close_counter].
    destruct (nth 1 (transition_width_ cfg) 0 <=? close_counter_ s + 1) eqn:Hreach; cbn.
    + repeat split; try lia; tauto.
    + apply Z.leb_gt in Hreach. repeat split; try lia; tauto.
Qed.

Lemma handleTimeSeriesTransition_bounded (cfg : Config) (current previous : Z) (s : State) :
  counters_bounded cfg s ->
  counters_bounded cfg (handleTimeSeriesTransition cfg current previous s).2.
Proof.
  intros (Htc & Hcc & Hts & Htsw). unfold handleTimeSeriesTransition, counters_bounded.
  destruct (0 <? nth 0 (time_series_width_ cfg) 0) eqn:Hon; [|cbn; tauto].
  apply Z.ltb_lt in Hon.
  destruct (negb (current =? previous)); [|cbn; repeat split; try lia; tauto].
  cbn [time_series_counter_ set_time_series_counter].
  destruct (nth 0 (time_series_width_ cfg) 0 <=? time_series_counter_ s + 1) eqn:Hreach; cbn.
  - repeat split; try lia; tauto.
  - apply Z.leb_gt in Hreach. repeat split; try lia; tauto.
Qed.

Lemma smoothTransition_bounded (cfg : Config) (overall : Z) (s : State) :
  1 <= nth 0 (transition_width_ cfg) 0 -> 1 <= nth 1 (transition_width_ cfg) 0 ->
  counters_bounded cfg s ->
  counters_bounded cfg (smoothTransition cfg overall s).2.
Proof.
  intros Hw0 Hw1 Hs. unfold smoothTransition.
  destruct (negb (prev_status_ s =? -1) && negb (overall =? prev_status_ s)); [|exact Hs].
  pose proof (handleTransition_bounded cfg overall (prev_status_ s) s Hw0 Hw1 Hs) as Hone.
  destruct (handleTransition cfg overall (prev_status_ s) s) as [in_transition s1].
  cbn [snd] in Hone.
  pose proof (handleTimeSeriesTransition_bounded cfg
                (if in_transition then transition_status_ cfg else overall)
                (prev_status_ s1) s1 Hone) as Htwo.
  destruct (handleTimeSeriesTransition cfg _ (prev_status_ s1) s1) as [in_time_series s2].
  exact Htwo.
Qed.

Lemma offlineCheck_bounded (cfg : Config) (now : Z) (s : State) :
  1 <= nth 0 (transition_width_ cfg) 0 -> 1 <= nth 1 (transition_width_ cfg) 0 ->
  counters_bounded cfg s -> counters_bounded cfg (offlineCheck cfg now s).
Proof.
  intros Hw0 Hw1 Hs. unfold offlineCheck.
  destruct (prev_time_ s =? 0); [exact Hs|].
  destruct (offline_length_ cfg <? Clock.seconds_between (prev_time_ s) now); [|exact Hs].
  unfold counters_bounded; cbn. repeat split; lia.
Qed.

(** X13.  The counters stay inside their windows.  When both transition
    widths are at least 1, the transition and the close counter lie between
    0 and their widths, and the time-series counter is at least 0 and, for
    a positive time-series width, below it, the same holds after any
    classification call: the counters never grow beyond the configured
    widths. *)
Theorem classifyStatus_counters_bounded (cfg : Config) (input : PluginData) (now : Z)
    (s : State) (output : PluginResultImpl) :
  1 <= nth 0 (transition_width_ cfg) 0 -> 1 <= nth 1 (transition_width_ cfg) 0 ->
  counters_bounded cfg s ->
  counters_bounded cfg (state_after (classifyStatus cfg input now s output)).
Proof.
  intros Hw0 Hw1 Hs. unfold state_after, classifyStatus.
  destruct input as [custom| |features|status]; try exact Hs.
  pose proof (offlineCheck_bounded cfg now s Hw0 Hw1 Hs) as Hoff.
  destruct (featureStatuses cfg features (select_features_ cfg) []) as [missing|statuses];
    [exact Hoff|].
  pose proof (smoothTransition_bounded cfg (calculateOverallStatus cfg statuses)
                (offlineCheck cfg now s) Hw0 Hw1 Hoff) as Hsmooth.
  destruct (smoothTransition cfg (calculateOverallStatus cfg statuses) (offlineCheck cfg now s))
    as [overall s2].
  cbn [snd] in Hsmooth.
  destruct (status_mapping_ cfg !! overall); exact Hsmooth.
Qed.

Lemma classifyStatus_counters_bounded_witness :
  counters_bounded Examples.motor97
    (state_after (classifyStatus Examples.motor97 (Examples.reading Examples.dm5)
                    2000000000 Examples.seen_running Result.empty)).
Proof.
  apply classifyStatus_counters_bounded; [cbn; lia | cbn; lia |].
  unfold counters_bounded; cbn. repeat split; lia.
Defined.

(** X14.  A status without a name fails late.  When the status mapping has
    no entry for the emitted status, [classifyStatus] returns [false], but
    the status has already been recorded: it is the new [prev_status_] and
    the value written under "status".  With an empty status mapping no call
    returns [true]. *)
Theorem classifyStatus_unmapped_status (cfg : Config) (input : PluginData) (now : Z)
    (s : State) (output : PluginResultImpl) :
  (status_mapping_ cfg = ∅ -> returned (classifyStatus cfg input now s output) = false)
  /\ forall features statuses,
       input = FeatureData features ->
       featureStatuses cfg features (select_features_ cfg) [] = inr statuses ->
       let run := classifyStatus cfg input now s output in
       status_mapping_ cfg !! prev_status_ (state_after run) = None ->
       returned run = false
       /\ getIntData "status" (output_after run) = prev_status_ (state_after run)
       /\ hasData "status" (output_after run) = true.
Proof.
  split.
  - intros Hempty. unfold returned, classifyStatus.
    destruct input as [custom| |features|status]; try reflexivity.
    destruct (featureStatuses cfg features (select_features_ cfg) []); [reflexivity|].
    destruct (smoothTransition cfg _ (offlineCheck cfg now s)) as [overall s2].
    rewrite Hempty, lookup_empty. reflexivity.
  - intros features statuses -> Hall run. subst run.
    unfold returned, state_after, output_after, classifyStatus. rewrite Hall.
    destruct (smoothTransition cfg _ (offlineCheck cfg now s)) as [overall s2].
    destruct (status_mapping_ cfg !! overall) eqn:Hname; cbn [fst snd].
    + unfold set_prev_status; cbn [prev_status_]. rewrite Hname. discriminate.
    + intros _. unfold getIntData, hasData; cbn. rewrite lookup_insert_eq.
      repeat split. rewrite (bool_decide_eq_true_2 (is_Some (Some overall))) by eauto.
      now rewrite orb_true_r.
Qed.

Lemma classifyStatus_unmapped_status_witness :
  returned
    (classifyStatus
       (mkConfig 10 3600 2 5 [60; 10] [0; 0] 1 (-1) ["mean_hf"%string]
          [[Examples.d0; Examples.d100; Examples.d200]] ∅)
       (Examples.reading Examples.d150) 1000000000 initial_state Result.empty) = false.
Proof.
  apply (classifyStatus_unmapped_status
           (mkConfig 10 3600 2 5 [60; 10] [0; 0] 1 (-1) ["mean_hf"%string]
              [[Examples.d0; Examples.d100; Examples.d200]] ∅)).
  reflexivity.
Defined.

End ClassifierRestart.

(** ** Sub-statuses and quorum *)

Section StatusFunctions.

Import Decision.

Lemma first_not_exceeded_spec (v : double) (T : list double) :
  forall k : nat,
    let r := first_not_exceeded v T k in
    (k <= r <= k + List.length T)%nat
    /\ (forall j a, (k + j < r)%nat -> T !! j = Some a -> Double.leb v a = false)
    /\ (forall a, T !! (r - k)%nat = Some a -> Double.leb v a = true).
Proof.
  induction T as [|t T IH]; intros k; cbn.
  - split; [lia|]. split; [intros j a Hj; lia|]. intros a Ha. rewrite lookup_nil in Ha. discriminate.
  - destruct (Double.leb v t) eqn:Hle.
    + split; [lia|]. split; [intros j a Hj; lia|].
      intros a Ha. rewrite Nat.sub_diag in Ha. cbn in Ha. congruence.
    + destruct (IH (S k)) as (Hrange & Hbelow & Hat). split; [lia|]. split.
      * intros j a Hj Ha. destruct j as [|j]; cbn in Ha; [congruence|].
        apply (Hbelow j a); [lia|exact Ha].
      * intros a Ha.
        replace (first_not_exceeded v T (S k) - k)%nat
          with (S (first_not_exceeded v T (S k) - S k))%nat in Ha by lia.
        cbn in Ha. now apply Hat.
Qed.

(** X15.  The sub-status is the first bucket, for any threshold list.
    [calculateFeatureStatus] returns an index between 0 and [len(T)]; every
    threshold before it is exceeded by the value and the threshold at it, if
    any, is not.  A NaN value exceeds nothing and is not below anything: it
    gets the top sub-status [len(T)]. *)
Theorem calculateFeatureStatus_first_bucket (v : double) (T : list double) :
  0 <= calculateFeatureStatus v T <= Z.of_nat (List.length T)
  /\ (forall j a, Z.of_nat j < calculateFeatureStatus v T -> T !! j = Some a ->
                  Double.leb v a = false)
  /\ (forall a, T !! Z.to_nat (calculateFeatureStatus v T) = Some a -> Double.leb v a = true)
  /\ calculateFeatureStatus S754_nan T = Z.of_nat (List.length T).
Proof.
  unfold calculateFeatureStatus.
  destruct (first_not_exceeded_spec v T 0) as (Hrange & Hbelow & Hat).
  split; [lia|]. split; [|split].
  - intros j a Hj Ha. apply (Hbelow j a); [lia|exact Ha].
  - intros a Ha. rewrite Nat2Z.id in Ha. apply Hat. now rewrite Nat.sub_0_r.
  - f_equal. rewrite first_not_exceeded_all; [reflexivity|]. intros j a _. reflexivity.
Qed.

Lemma calculateFeatureStatus_first_bucket_witness :
  0 <= calculateFeatureStatus Examples.d150 [Examples.d0; Examples.d100; Examples.d200] <= 3
  /\ Double.leb Examples.d150 Examples.d200 = true
  /\ Double.leb Examples.d150 Examples.d100 = false.
Proof.
  destruct (calculateFeatureStatus_first_bucket Examples.d150
              [Examples.d0; Examples.d100; Examples.d200]) as (Hrange & Hbelow & Hat & _).
  split; [exact Hrange|]. split.
  - apply Hat. reflexivity.
  - apply (Hbelow 1%nat); reflexivity.
Defined.

Lemma run_count_filter (feature_statuses : list Z) :
  forall n : Z,
    fold_left (fun n status => if 0 <? status then n + 1 else n) feature_statuses n
    = n + Z.of_nat (List.length (filter (fun status => 0 < status) feature_statuses)).
Proof.
  induction feature_statuses as [|st rest IH]; intros n; cbn [fold_left]; [cbn; lia|].
  rewrite IH. rewrite filter_cons.
  destruct (0 <? st) eqn:Hpos.
  - apply Z.ltb_lt in Hpos. rewrite decide_True by exact Hpos. cbn [List.length]. lia.
  - apply Z.ltb_ge in Hpos. rewrite decide_False by lia. lia.
Qed.

(** X16.  The quorum rule.  The overall status is 0 or 1.  When the veto
    index points outside the sub-status vector (as the default -1 does),
    the overall status is 1 exactly when the vector is not empty and at
    least [run_feature_num_] of its sub-statuses are positive. *)
Theorem calculateOverallStatus_quorum_rule (cfg : Config) (feature_statuses : list Z) :
  (calculateOverallStatus cfg feature_statuses = 0 \/ calculateOverallStatus cfg feature_statuses = 1)
  /\ (veto_index_ cfg < 0 \/ Z.of_nat (List.length feature_statuses) <= veto_index_ cfg ->
      (calculateOverallStatus cfg feature_statuses = 1
       <-> feature_statuses <> []
           /\ run_feature_num_ cfg
              <= Z.of_nat (List.length (filter (fun status => 0 < status) feature_statuses)))).
Proof.
  split; [apply calculateOverallStatus_range|].
  intros Hveto. unfold calculateOverallStatus.
  destruct feature_statuses as [|st rest] eqn:Hfs; [split; [discriminate|intros [? _]; congruence]|].
  rewrite <- Hfs in *.
  replace ((0 <=? veto_index_ cfg) && (veto_index_ cfg <? Z.of_nat (List.length feature_statuses)))
    with false.
  - cbn [andb]. unfold run_count. rewrite run_count_filter, Z.add_0_l.
    destruct (run_feature_num_ cfg <=? _) eqn:Hq.
    + apply Z.leb_le in Hq. split; [intros _; split; [subst; discriminate|exact Hq]|reflexivity].
    + apply Z.leb_gt in Hq. split; [discriminate|intros [_ Hle]; lia].
  - symmetry. apply andb_false_iff.
    destruct Hveto as [Hneg|Hout]; [left; apply Z.leb_gt|right; apply Z.ltb_ge]; lia.
Qed.

Lemma calculateOverallStatus_quorum_rule_witness :
  calculateOverallStatus Examples.motor97 [2; 0; 3] = 1.
Proof.
  destruct (calculateOverallStatus_quorum_rule Examples.motor97 [2; 0; 3]) as [_ Hrule].
  apply Hrule; [left; reflexivity|]. split; [discriminate|].
  apply Z.leb_le. vm_compute. reflexivity.
Defined.

End StatusFunctions.

(** ** The most frequent status *)

Section MostFrequent.

Import Decision.

Lemma map_is_fmap {A B : Type} (f : A -> B) (l : list A) : map f l = f <$> l.
Proof. induction l as [|a l IH]; cbn; [reflexivity|now rewrite IH]. Qed.

Lemma count_statuses_fold (history : list Z) (k : Z) :
  forall m : gmap Z Z,
    fold_left (fun m status => <[status := default 0 (m !! status) + 1]> m) history m !! k
    = match count_occ Z.eq_dec history k with
      | O => m !! k
      | S _ => Some (default 0 (m !! k) + Z.of_nat (count_occ Z.eq_dec history k))
      end.
Proof.
  induction history as [|x rest IH]; intros m; [reflexivity|].
  cbn [fold_left count_occ]. rewrite IH.
  destruct (Z.eq_dec x k) as [->|Hne].
  - rewrite lookup_insert_eq. cbn [default from_option id].
    destruct (count_occ Z.eq_dec rest k); f_equal; lia.
  - rewrite lookup_insert_ne by exact Hne. reflexivity.
Qed.

Lemma count_statuses_lookup (history : list Z) (k : Z) :
  default 0 (count_statuses history !! k) = Z.of_nat (count_occ Z.eq_dec history k)
  /\ (is_Some (count_statuses history !! k) <-> k ∈ history).
Proof.
  unfold count_statuses. rewrite count_statuses_fold, lookup_empty.
  pose proof (count_occ_In Z.eq_dec history k) as Hin. rewrite <- list_elem_of_In in Hin.
  destruct (count_occ Z.eq_dec history k) as [|c] eqn:Hc; cbn [default from_option id].
  - split; [reflexivity|]. split; [intros [? ?]; discriminate|]. intros Hk. apply Hin in Hk. lia.
  - split; [lia|]. split; [intros _; apply Hin; lia|eauto].
Qed.

Lemma strictly_sorted (l : list Z) :
  StronglySorted Z.le l -> NoDup l -> StronglySorted Z.lt l.
Proof.
  induction 1 as [|a l Hsorted IH Hall]; intros Hnodup; [constructor|].
  apply NoDup_cons in Hnodup as [Hnotin Hnodup].
  constructor; [auto|].
  rewrite Forall_forall in Hall |- *. intros x Hx.
  assert (a <> x) by (intros ->; contradiction).
  specialize (Hall x Hx). lia.
Qed.

(** [std::max_element] over entries in ascending key order: the entry with
    the largest count and, among those, the smallest key. *)
Lemma max_element_leader (c : Z -> Z) (rest : list Z) :
  forall best : Z * Z,
    (forall k, k ∈ rest -> best.1 < k) ->
    StronglySorted Z.lt rest ->
    let r := max_element best (map (fun k => (k, c k)) rest) in
    (r = best \/ exists k, k ∈ rest /\ r = (k, c k))
    /\ best.2 <= r.2
    /\ (best.2 = r.2 -> r = best)
    /\ forall k, k ∈ rest -> c k <= r.2 /\ (c k = r.2 -> r.1 <= k).
Proof.
  induction rest as [|k1 rest IH]; intros best Habove Hsorted.
  - cbn. split; [auto|]. split; [lia|]. split; [auto|]. intros k Hk. inversion Hk.
  - cbn [map max_element]. inversion Hsorted as [|? ? Hsorted' Hlt]; subst.
    rewrite Forall_forall in Hlt.
    set (best' := if best.2 <? (k1, c k1).2 then (k1, c k1) else best).
    assert (forall k, k ∈ rest -> best'.1 < k) as Habove'.
    { intros k Hk. subst best'. destruct (best.2 <? (k1, c k1).2); cbn.
      - now apply Hlt.
      - apply Habove. now apply list_elem_of_further. }
    destruct (IH best' Habove' Hsorted') as (Hwho & Hge & Htie & Hrest). clear IH.
    assert (best.2 <= best'.2 /\ c k1 <= best'.2 /\ best.1 <= best'.1
            /\ (best'.2 = best.2 -> best' = best)
            /\ (best' = best \/ best' = (k1, c k1))) as (Hb & Hk1 & Hfst & Hsame & Hcase).
    { subst best'. cbn [snd]. destruct (best.2 <? c k1) eqn:Hcmp; cbn.
      - apply Z.ltb_lt in Hcmp.
        pose proof (Habove k1 (list_elem_of_here _ _)).
        repeat split; try lia. auto.
      - apply Z.ltb_ge in Hcmp. repeat split; try lia; auto. }
    split; [|split; [lia|split]].
    + destruct Hwho as [->|(k & Hk & ->)].
      * destruct Hcase as [->| ->]; [auto|].
        right. exists k1. split; [apply list_elem_of_here|reflexivity].
      * right. exists k. split; [now apply list_elem_of_further|reflexivity].
    + intros Heq. rewrite Htie by lia. apply Hsame. lia.
    + intros k Hk. apply elem_of_cons in Hk as [->|Hk]; [|now apply Hrest].
      split; [lia|]. intros Heq. rewrite Htie by lia.
      destruct Hcase as [->| ->]; cbn; [|lia].
      pose proof (Habove k1 (list_elem_of_here _ _)). lia.
Qed.

Lemma most_frequent_entry (h : list Z) :
  h <> [] ->
  match sorted_entries (count_statuses h) with
  | [] => False
  | e :: rest =>
    (max_element e rest).1 ∈ h
    /\ forall x,
         (count_occ Z.eq_dec h x <= count_occ Z.eq_dec h (max_element e rest).1)%nat
         /\ (count_occ Z.eq_dec h x = count_occ Z.eq_dec h (max_element e rest).1 ->
             (max_element e rest).1 <= x)
  end.
Proof.
  intros Hnonempty.
  pose (c := fun k => default 0 (count_statuses h !! k)).
  assert (forall k, c k = Z.of_nat (count_occ Z.eq_dec h k)) as Hc
    by (intros k; apply count_statuses_lookup).
  remember (merge_sort Z.le (map fst (map_to_list (count_statuses h)))) as keys eqn:Hdef.
  assert (sorted_entries (count_statuses h) = map (fun k => (k, c k)) keys) as ->
    by (subst keys; reflexivity).
  assert (forall k, k ∈ keys <-> k ∈ h) as Hkeys.
  { intros k. subst keys. rewrite merge_sort_Permutation, map_is_fmap.
    rewrite <- (proj2 (count_statuses_lookup h k)).
    rewrite list_elem_of_fmap. split.
    - intros ([k' v] & -> & Hin). apply elem_of_map_to_list in Hin. cbn. eauto.
    - intros [v Hv]. exists (k, v). split; [reflexivity|]. now apply elem_of_map_to_list. }
  assert (StronglySorted Z.lt keys) as Hsorted.
  { apply strictly_sorted; [subst keys; apply StronglySorted_merge_sort; apply _|].
    subst keys. rewrite merge_sort_Permutation, map_is_fmap. apply NoDup_fst_map_to_list. }
  clear Hdef. destruct keys as [|k0 krest].
  { destruct h as [|h0 hrest]; [congruence|].
    assert (h0 ∈ h0 :: hrest) as Hin by apply list_elem_of_here.
    apply Hkeys in Hin. inversion Hin. }
  cbn [map]. inversion Hsorted as [|? ? Hsorted' Hlt]; subst.
  rewrite Forall_forall in Hlt.
  destruct (max_element_leader c krest (k0, c k0)) as (Hwho & Hge & Htie & Hrest);
    [exact Hlt|exact Hsorted'|].
  remember (max_element (k0, c k0) (map (fun k => (k, c k)) krest)) as r eqn:Hr.
  clear Hr. cbn [fst snd] in Hge, Htie.
  assert (r.1 ∈ k0 :: krest /\ r.2 = c r.1) as [Hmember Hcount].
  { destruct Hwho as [->|(k & Hin & ->)]; cbn.
    - split; [apply list_elem_of_here|reflexivity].
    - split; [now apply list_elem_of_further|reflexivity]. }
  split; [now apply Hkeys|].
  assert (count_occ Z.eq_dec h r.1 > 0)%nat as Hpos.
  { apply count_occ_In. rewrite <- list_elem_of_In. now apply Hkeys. }
  pose proof (Hc k0) as Hck0. pose proof (Hc r.1) as Hcr.
  intros x. pose proof (Hc x) as Hcx.
  destruct (decide (x ∈ h)) as [Hx|Hx].
  - apply Hkeys in Hx. apply elem_of_cons in Hx as [Hx|Hx].
    + subst x. split; [lia|]. intros Heq. rewrite Htie by lia. cbn. lia.
    + destruct (Hrest x Hx) as [Hle Hfirst]. split; [lia|]. intros Heq. apply Hfirst. lia.
  - assert (count_occ Z.eq_dec h x = 0%nat) as Hzero.
    { apply count_occ_not_In. now rewrite <- list_elem_of_In. }
    split; [lia|]. intros Heq. lia.
Qed.

(** X17.  [getMostFrequentStatus] returns -1 for an empty history.
    Otherwise it returns a status of the history that occurs at least as
    often as every other status and, among the statuses that occur equally
    often, the smallest one. *)
Theorem getMostFrequentStatus_most_frequent (s : State) :
  (status_history_ s = [] -> getMostFrequentStatus s = -1)
  /\ (status_history_ s <> [] ->
      getMostFrequentStatus s ∈ status_history_ s
      /\ forall x,
           (count_occ Z.eq_dec (status_history_ s) x
            <= count_occ Z.eq_dec (status_history_ s) (getMostFrequentStatus s))%nat
           /\ (count_occ Z.eq_dec (status_history_ s) x
               = count_occ Z.eq_dec (status_history_ s) (getMostFrequentStatus s) ->
               getMostFrequentStatus s <= x)).
Proof.
  unfold getMostFrequentStatus. split; [intros ->; reflexivity|].
  intros Hnonempty. pose proof (most_frequent_entry (status_history_ s) Hnonempty) as Hentry.
  destruct (status_history_ s) as [|h0 hrest]; [congruence|].
  destruct (sorted_entries (count_statuses (h0 :: hrest))) as [|e rest]; [contradiction|].
  exact Hentry.
Qed.

Lemma getMostFrequentStatus_most_frequent_witness :
  getMostFrequentStatus (mkState "" [1; 0; 1; 0; 2] 0 (0, 0) 0 0 0 2) ∈ [1; 0; 1; 0; 2]
  /\ getMostFrequentStatus (mkState "" [1; 0; 1; 0; 2] 0 (0, 0) 0 0 0 2) <= 1.
Proof.
  destruct (getMostFrequentStatus_most_frequent (mkState "" [1; 0; 1; 0; 2] 0 (0, 0) 0 0 0 2))
    as [_ Hmost].
  destruct Hmost as [Hin Hall]; [discriminate|].
  split; [exact Hin|].
  destruct (Hall 0) as [Hle _]. destruct (Hall 1) as [Hle1 Htie].
  cbn [status_history_] in *. apply Htie.
  change (count_occ Z.eq_dec [1; 0; 1; 0; 2] 1) with 2%nat in *.
  change (count_occ Z.eq_dec [1; 0; 1; 0; 2] 0) with 2%nat in *.
  apply elem_of_cons in Hin as [->|Hin]; [reflexivity|].
  apply elem_of_cons in Hin as [->|Hin]; [reflexivity|].
  apply elem_of_cons in Hin as [->|Hin]; [reflexivity|].
  apply elem_of_cons in Hin as [->|Hin]; [reflexivity|].
  apply list_elem_of_singleton in Hin. rewrite Hin in Hle1. cbn in Hle1. lia.
Defined.

(** With a tie between 0 and 1 the smaller status wins. *)
Example getMostFrequentStatus_tie :
  getMostFrequentStatus (mkState "" [1; 0; 1; 0; 2] 0 (0, 0) 0 0 0 2) = 0.
Proof. vm_compute. reflexivity. Qed.

End MostFrequent.

(** ** Alarm levels and alarm state *)

Section AlarmProperties.

Import Alarm.

Lemma alarm_level_from_first (score : double) (alarm_lines : list double) :
  forall i : nat,
    alarm_level_from score alarm_lines i = S (Decision.first_not_exceeded score alarm_lines i).
Proof.
  induction alarm_lines as [|line rest IH]; intros i; cbn; [lia|].
  destruct (Double.leb score line); [lia|apply IH].
Qed.

(** X18.  The alarm level is the score bucket, counted from 1.  For an
    empty list of alarm lines the level is 0; otherwise it is one more than
    the sub-status that [calculateFeatureStatus] gives for the same value
    and list, hence between 1 and [len(lines) + 1]. *)
Theorem calculateAlarmLevel_bucket (score : double) (alarm_lines : list double) :
  calculateAlarmLevel score [] = 0
  /\ (alarm_lines <> [] ->
      calculateAlarmLevel score alarm_lines
      = Decision.calculateFeatureStatus score alarm_lines + 1
      /\ 1 <= calculateAlarmLevel score alarm_lines <= Z.of_nat (List.length alarm_lines) + 1).
Proof.
  split; [reflexivity|]. intros Hlines.
  assert (calculateAlarmLevel score alarm_lines
          = Decision.calculateFeatureStatus score alarm_lines + 1) as Heq.
  { unfold calculateAlarmLevel, Decision.calculateFeatureStatus.
    destruct alarm_lines as [|line rest]; [congruence|].
    rewrite alarm_level_from_first. lia. }
  split; [exact Heq|]. rewrite Heq. unfold Decision.calculateFeatureStatus.
  destruct (first_not_exceeded_spec score alarm_lines 0) as [Hrange _]. lia.
Qed.

Lemma calculateAlarmLevel_bucket_witness :
  calculateAlarmLevel (Double.of_Z 70) [Double.of_Z 60; Double.of_Z 80] = 2.
Proof.
  destruct (calculateAlarmLevel_bucket (Double.of_Z 70) [Double.of_Z 60; Double.of_Z 80])
    as [_ Hlevel].
  destruct Hlevel as [Heq _]; [discriminate|]. rewrite Heq. reflexivity.
Defined.




End AlarmProperties.

Section StatusAlarmProperties.

Import StatusAlarm.

Lemma fire_all_count (status : Z) (times : list Z) :
  forall s : State,
    default 0 (alarm_count_ (fire_all s status times) !! status)
    = default 0 (alarm_count_ s !! status) + Z.of_nat (List.length times).
Proof.
  unfold fire_all.
  induction times as [|t times IH]; intros s; cbn [fold_left List.length]; [lia|].
  rewrite IH. unfold updateStatusAlarmState; cbn. rewrite lookup_insert_eq.
  destruct (alarm_count_ s !! status); cbn; lia.
Qed.

(** X20.  Status alarms have a lifetime cap.  Once a status has fired as
    often as its maximum allows (10 when no maximum is configured), the
    alarm test is [false] at every later time; a disabled plugin never
    fires. *)
Theorem shouldTriggerStatusAlarm_cap (cfg : Config) (s : State) (status : Z)
    (times : list Z) (now : Z) :
  (alarm_enabled_ cfg = false -> shouldTriggerStatusAlarm cfg s status now = false)
  /\ (default 10 (max_alarm_num_ cfg !! status)
      <= default 0 (alarm_count_ s !! status) + Z.of_nat (List.length times) ->
      shouldTriggerStatusAlarm cfg (fire_all s status times) status now = false).
Proof.
  split.
  - intros Hoff. unfold shouldTriggerStatusAlarm. rewrite Hoff. reflexivity.
  - intros Hcap. unfold shouldTriggerStatusAlarm. rewrite fire_all_count.
    destruct (negb (alarm_enabled_ cfg)); [reflexivity|].
    replace (default 10 (max_alarm_num_ cfg !! status)
             <=? default 0 (alarm_count_ s !! status) + Z.of_nat (List.length times))
      with true by (symmetry; apply Z.leb_le; exact Hcap).
    reflexivity.
Qed.

Lemma shouldTriggerStatusAlarm_cap_witness :
  shouldTriggerStatusAlarm default_config
    (fire_all initial_state 0 [0; 1; 2; 3; 4; 5; 6; 7; 8; 9]) 0 1000000000000000000 = false.
Proof.
  apply (shouldTriggerStatusAlarm_cap default_config initial_state 0
           [0; 1; 2; 3; 4; 5; 6; 7; 8; 9]).
  vm_compute. discriminate.
Defined.

(** X21.  Status alarms are debounced.  After a firing of a status at
    [fired], the alarm test is [false] at every time less than the recovery
    time (3600 seconds when none is configured) later; and whenever the test
    is [true] for a status that has fired, at least the recovery time has
    passed since. *)
Theorem shouldTriggerStatusAlarm_recovery (cfg : Config) (s : State) (status fired now : Z) :
  last_alarm_time_ s !! status = Some fired ->
  fired <= now ->
  0 <= default 3600 (recovery_reset_time_ cfg !! status) ->
  (now - fired < default 3600 (recovery_reset_time_ cfg !! status) * Clock.ticks_per_second ->
   shouldTriggerStatusAlarm cfg s status now = false)
  /\ (shouldTriggerStatusAlarm cfg s status now = true ->
      default 3600 (recovery_reset_time_ cfg !! status) * Clock.ticks_per_second <= now - fired).
Proof.
  intros Hfired Hle Hrec. unfold shouldTriggerStatusAlarm. rewrite Hfired. split.
  - intros Hsoon.
    destruct (negb (alarm_enabled_ cfg)); [reflexivity|].
    destruct (_ <=? _); [reflexivity|].
    replace (Clock.seconds_between fired now <? default 3600 (recovery_reset_time_ cfg !! status))
      with true; [reflexivity|].
    symmetry. apply Z.ltb_lt. now apply seconds_between_lt.
  - destruct (negb (alarm_enabled_ cfg)); [discriminate|].
    destruct (_ <=? _); [discriminate|].
    destruct (Clock.seconds_between fired now <? default 3600 (recovery_reset_time_ cfg !! status))
      eqn:Hsoon; [discriminate|]. intros _. apply Z.ltb_ge in Hsoon.
    unfold Clock.seconds_between, Clock.ticks_per_second in *.
    pose proof (Z.mul_quot_le (now - fired) 1000000000). 
    assert (1000000000 * default 3600 (recovery_reset_time_ cfg !! status)
            <= 1000000000 * ((now - fired) ÷ 1000000000)) by lia.
    lia.
Qed.

Lemma shouldTriggerStatusAlarm_recovery_witness :
  shouldTriggerStatusAlarm default_config (updateStatusAlarmState initial_state 0 0) 0
    3599000000000 = false.
Proof.
  destruct (shouldTriggerStatusAlarm_recovery default_config
              (updateStatusAlarmState initial_state 0 0) 0 0 3599000000000) as [Hquiet _].
  - reflexivity.
  - lia.
  - vm_compute. discriminate.
  - apply Hquiet. reflexivity.
Defined.

End StatusAlarmProperties.

(** ** Scores and health composition *)

Section ScoreProperties.

Import Score.

Lemma convert_from_score_from (value upper_limit : double) (thresholds : list double) :
  forall i n : nat,
    convert_from value thresholds upper_limit i n = score_from value thresholds i n.
Proof.
  induction thresholds as [|t rest IH]; intros i n; cbn.
  - unfold beyond_thresholds. destruct (_ && _); reflexivity.
  - destruct (Double.leb value t); [reflexivity|apply IH].
Qed.

Lemma score_from_bucket (value : double) (thresholds : list double) (n : nat) :
  forall i : nat,
    score_from value thresholds i n
    = if (Decision.first_not_exceeded value thresholds i <? i + List.length thresholds)%nat
      then bucket_score (Decision.first_not_exceeded value thresholds i) n
      else Double.zero.
Proof.
  induction thresholds as [|t rest IH]; intros i;
    cbn [score_from Decision.first_not_exceeded List.length].
  - rewrite Nat.add_0_r, Nat.ltb_irrefl. reflexivity.
  - destruct (Double.leb value t).
    + replace (i <? i + S (List.length rest))%nat with true; [reflexivity|].
      symmetry. apply Nat.ltb_lt. lia.
    + rewrite IH. replace (S i + List.length rest)%nat with (i + S (List.length rest))%nat by lia.
      reflexivity.
Qed.

(** X22.  The score of a value is fixed by its bucket.  [convertToScore]
    never depends on [upper_limit] and agrees with [calculateScore]: 100 for
    an empty threshold list, otherwise [100 - i * 100 / n] where [i] is the
    sub-status that [calculateFeatureStatus] gives the value among the [n]
    thresholds, and 0 when the value exceeds them all. *)
Theorem convertToScore_bucket (value upper_limit : double) (thresholds : list double) :
  convertToScore value thresholds upper_limit = calculateScore value thresholds
  /\ calculateScore value [] = Double.hundred
  /\ (thresholds <> [] ->
      calculateScore value thresholds
      = if Decision.calculateFeatureStatus value thresholds <? Z.of_nat (List.length thresholds)
        then bucket_score (Z.to_nat (Decision.calculateFeatureStatus value thresholds))
               (List.length thresholds)
        else Double.zero).
Proof.
  split; [|split; [reflexivity|]].
  - unfold convertToScore, calculateScore. destruct thresholds; [reflexivity|].
    apply convert_from_score_from.
  - intros Hne. unfold calculateScore, Decision.calculateFeatureStatus.
    destruct thresholds as [|t rest] eqn:Ht; [congruence|]. rewrite <- Ht.
    rewrite score_from_bucket, Nat2Z.id. cbn [Nat.add].
    destruct (Decision.first_not_exceeded value thresholds 0 <? List.length thresholds)%nat eqn:Hlt.
    + apply Nat.ltb_lt in Hlt.
      replace (Z.of_nat _ <? Z.of_nat _) with true; [reflexivity|].
      symmetry. apply Z.ltb_lt. lia.
    + apply Nat.ltb_ge in Hlt.
      replace (Z.of_nat _ <? Z.of_nat _) with false; [reflexivity|].
      symmetry. apply Z.ltb_ge. lia.
Qed.

Lemma convertToScore_bucket_witness :
  calculateScore Examples.d150 [Examples.d0; Examples.d100; Examples.d200] = bucket_score 2 3.
Proof.
  destruct (convertToScore_bucket Examples.d150 Double.zero
              [Examples.d0; Examples.d100; Examples.d200]) as (_ & _ & Hbucket).
  rewrite Hbucket by discriminate. reflexivity.
Defined.

(** The first bucket of three scores 100, the second about 66.7. *)
Example bucket_score_first : bucket_score 0 3 = Double.hundred.
Proof. reflexivity. Qed.

Lemma calculateOverallHealth_fold_keys (feature_scores : gmap string double) (key : string)
    (configs : list Evaluation.HealthConfig) :
  forall health_scores : gmap string double,
    is_Some (fold_left (fun health_scores config =>
                          <[Evaluation.name config
                            := Evaluation.healthScore config feature_scores]> health_scores)
                       configs health_scores !! key)
    <-> is_Some (health_scores !! key) \/ key ∈ (Evaluation.name <$> configs).
Proof.
  induction configs as [|c configs IH]; intros health_scores; cbn [fold_left fmap list_fmap].
  - split; [auto|]. intros [?|Hin]; [assumption|inversion Hin].
  - rewrite IH, elem_of_cons.
    destruct (decide (Evaluation.name c = key)) as [<-|Hne].
    + rewrite lookup_insert_eq. split; [auto|]. eauto.
    + rewrite lookup_insert_ne by exact Hne. split; [tauto|].
      intros [?|[?|?]]; [auto|congruence|auto].
Qed.

(** X23.  Every declared health output gets a score, and nothing else does:
    the result of [calculateOverallHealth] has an entry under a key exactly
    when the key is the name of one of the configurations. *)
Theorem calculateOverallHealth_keys (configs : list Evaluation.HealthConfig)
    (feature_scores : gmap string double) (key : string) :
  is_Some (Evaluation.calculateOverallHealth configs feature_scores !! key)
  <-> key ∈ (Evaluation.name <$> configs).
Proof.
  unfold Evaluation.calculateOverallHealth. rewrite calculateOverallHealth_fold_keys.
  rewrite lookup_empty. split; [intros [[? ?]|?]; [discriminate|assumption]|auto].
Qed.

End ScoreProperties.

(** ** The realtime health engine *)

Section HealthEngine.

Import RealtimeHealth.

Variable calculateFeatureHealth : FeatureStat -> list double -> gmap string double.

Lemma write_scores_slots (scores : gmap string double) (output : PluginResultImpl) :
  double_data_ (write_scores scores output) = scores ∪ double_data_ output
  /\ string_data_ (write_scores scores output) = string_data_ output
  /\ int_data_ (write_scores scores output) = int_data_ output.
Proof.
  unfold write_scores.
  apply (map_fold_weak_ind
           (fun out m => double_data_ out = m ∪ double_data_ output
                         /\ string_data_ out = string_data_ output
                         /\ int_data_ out = int_data_ output)).
  - rewrite (left_id_L ∅ (∪)). repeat split.
  - intros key value m out _ (Hd & Hs & Hi). cbn. rewrite Hd, Hs, Hi.
    split; [|split; reflexivity]. apply insert_union_l.
Qed.

Lemma offlineCheck_keeps_scores (cfg : Config) (now : Z) (s : State) :
  last_health_scores_ (offlineCheck cfg now s) = last_health_scores_ s.
Proof.
  unfold offlineCheck. destruct (prev_time_ s =? 0); [reflexivity|].
  destruct (offline_length_ cfg <? _); reflexivity.
Qed.

Lemma cache_loop_keeps_scores (features : gmap string double) (now : Z) (stats : list FeatureStat) :
  forall s : State,
    last_health_scores_ (fold_left (cache_feature features now) stats s) = last_health_scores_ s.
Proof.
  induction stats as [|stat stats IH]; intros s; cbn [fold_left]; [reflexivity|].
  rewrite IH. unfold cache_feature. destruct (features !! analysis_features stat); reflexivity.
Qed.

Lemma statusCheck_keeps_scores (cfg : Config) (input : PluginData) (now : Z) (s : State) :
  last_health_scores_ (statusCheckAndCacheData cfg input now s).2 = last_health_scores_ s.
Proof.
  unfold statusCheckAndCacheData. destruct (input_status input =? 1); cbn [snd].
  - rewrite cache_loop_keeps_scores. reflexivity.
  - destruct (close_width_ cfg <=? _); reflexivity.
Qed.

Lemma statusCheck_idle (cfg : Config) (input : PluginData) (now : Z) (s : State) :
  input_status input <> 1 ->
  let run := statusCheckAndCacheData cfg input now s in
  run.1 = false
  /\ feature_cache_ run.2 = feature_cache_ s /\ time_cache_ run.2 = time_cache_ s
  /\ run_count_ run.2 = 0.
Proof.
  intros Hidle. unfold statusCheckAndCacheData.
  replace (input_status input =? 1) with false by (symmetry; apply Z.eqb_neq; exact Hidle).
  destruct (close_width_ cfg <=? _); cbn; repeat split.
Qed.

Lemma evaluateHealth_idle (cfg : Config) (input : PluginData) (now_check now_cache : Z)
    (s : State) (output : PluginResultImpl) :
  input_status input <> 1 ->
  let run := evaluateHealth calculateFeatureHealth cfg input now_check now_cache s output in
  run.1.1 = true
  /\ last_health_scores_ run.1.2 = last_health_scores_ s
  /\ feature_cache_ run.1.2 = feature_cache_ (offlineCheck cfg now_check s)
  /\ time_cache_ run.1.2 = time_cache_ (offlineCheck cfg now_check s)
  /\ double_data_ run.2 = last_health_scores_ s ∪ double_data_ output
  /\ string_data_ run.2 = string_data_ output
  /\ int_data_ run.2 = int_data_ output
  /\ forall key value, last_health_scores_ s !! key = Some value ->
                       getDoubleData key run.2 = value.
Proof.
  intros Hidle. unfold evaluateHealth.
  pose proof (statusCheck_idle cfg input now_cache (offlineCheck cfg now_check s) Hidle) as Hcheck.
  pose proof (statusCheck_keeps_scores cfg input now_cache (offlineCheck cfg now_check s)) as Hkeep.
  destruct (statusCheckAndCacheData cfg input now_cache (offlineCheck cfg now_check s))
    as [running s2].
  cbv zeta in Hcheck. cbn [fst snd] in Hcheck, Hkeep. destruct Hcheck as (-> & Hfc & Htc & _).
  rewrite offlineCheck_keeps_scores in Hkeep.
  cbn [negb fst snd]. rewrite Hkeep.
  destruct (write_scores_slots (last_health_scores_ s) output) as (Hd & Hs & Hi).
  repeat split; try assumption.
  intros key value Hkey. unfold getDoubleData. rewrite Hd.
  now rewrite (lookup_union_Some_l _ _ _ _ Hkey).
Qed.

(** X24.  An idle reading replays the last scores.  When the status derived
    from the input is not 1 (as for every [RealTimeData] and [BatchData]
    input, whose status is 0), [evaluateHealth] returns [true], copies the
    remembered health scores into the double slot of the output (leaving the
    other slots alone), caches no sample and analyses nothing: the last
    scores are unchanged and the caches are those left by the offline
    check. *)
Theorem evaluateHealth_idle_replays (cfg : Config) (input : PluginData) (now_check now_cache : Z)
    (s : State) (output : PluginResultImpl) :
  input_status input <> 1 ->
  let run := evaluateHealth calculateFeatureHealth cfg input now_check now_cache s output in
  run.1.1 = true
  /\ last_health_scores_ run.1.2 = last_health_scores_ s
  /\ feature_cache_ run.1.2 = feature_cache_ (offlineCheck cfg now_check s)
  /\ time_cache_ run.1.2 = time_cache_ (offlineCheck cfg now_check s)
  /\ double_data_ run.2 = last_health_scores_ s ∪ double_data_ output
  /\ string_data_ run.2 = string_data_ output
  /\ int_data_ run.2 = int_data_ output
  /\ forall key value, last_health_scores_ s !! key = Some value ->
                       getDoubleData key run.2 = value.
Proof.
  exact (evaluateHealth_idle cfg input now_check now_cache s output).
Qed.

Lemma compose_health_step (stat_scores : gmap string double)
    (acc : gmap string double * PluginResultImpl) (config : Evaluation.HealthConfig) :
  compose_health stat_scores acc config
  = (<[Evaluation.name config := Evaluation.healthScore config stat_scores]> acc.1,
     setData_double (Evaluation.name config) (Evaluation.healthScore config stat_scores) acc.2).
Proof.
  unfold compose_health, Evaluation.calculateOverallHealth. cbn [fold_left].
  rewrite insert_empty, map_fold_singleton. reflexivity.
Qed.

Lemma compose_loop (stat_scores : gmap string double) (configs : list Evaluation.HealthConfig) :
  forall acc : gmap string double * PluginResultImpl,
    let acc' := fold_left (compose_health stat_scores) configs acc in
    (forall key value,
        acc.1 !! key = Some value -> double_data_ acc.2 !! key = Some value ->
        exists value', acc'.1 !! key = Some value' /\ double_data_ acc'.2 !! key = Some value')
    /\ (forall config, config ∈ configs ->
          exists value, acc'.1 !! Evaluation.name config = Some value
                        /\ double_data_ acc'.2 !! Evaluation.name config = Some value)
    /\ (forall key, is_Some (acc.1 !! key) -> is_Some (acc'.1 !! key)).
Proof.
  induction configs as [|c configs IH]; intros acc; cbn [fold_left].
  - split; [eauto|]. split; [intros config Hin; inversion Hin|auto].
  - rewrite compose_health_step.
    destruct (IH (<[Evaluation.name c := Evaluation.healthScore c stat_scores]> acc.1,
                  setData_double (Evaluation.name c) (Evaluation.healthScore c stat_scores) acc.2))
      as (Hagree & Hnames & Hmono).
    cbn [fst snd] in *. split; [|split].
    + intros key value Hl Hd. destruct (decide (Evaluation.name c = key)) as [<-|Hne].
      * apply (Hagree _ (Evaluation.healthScore c stat_scores)); cbn; apply lookup_insert_eq.
      * apply (Hagree key value); cbn; rewrite lookup_insert_ne by exact Hne; assumption.
    + intros config Hin. apply elem_of_cons in Hin as [->|Hin]; [|now apply Hnames].
      apply (Hagree _ (Evaluation.healthScore c stat_scores)); cbn; apply lookup_insert_eq.
    + intros key Hsome. apply Hmono. destruct (decide (Evaluation.name c = key)) as [<-|Hne].
      * rewrite lookup_insert_eq. eauto.
      * rewrite lookup_insert_ne by exact Hne. exact Hsome.
Qed.

Lemma evaluateHealth_running (cfg : Config) (input : PluginData) (now_check now_cache : Z)
    (s : State) (output : PluginResultImpl) :
  input_status input = 1 ->
  let run := evaluateHealth calculateFeatureHealth cfg input now_check now_cache s output in
  (forall config, config ∈ health_configs_ cfg ->
     exists value, last_health_scores_ run.1.2 !! Evaluation.name config = Some value
                   /\ double_data_ run.2 !! Evaluation.name config = Some value)
  /\ (forall key, is_Some (last_health_scores_ s !! key) ->
                  is_Some (last_health_scores_ run.1.2 !! key)).
Proof.
  intros Hrun. unfold evaluateHealth.
  pose proof (statusCheck_keeps_scores cfg input now_cache (offlineCheck cfg now_check s)) as Hkeep.
  rewrite offlineCheck_keeps_scores in Hkeep.
  assert ((statusCheckAndCacheData cfg input now_cache (offlineCheck cfg now_check s)).1 = true)
    as Hflag by (unfold statusCheckAndCacheData; rewrite Hrun; reflexivity).
  destruct (statusCheckAndCacheData cfg input now_cache (offlineCheck cfg now_check s))
    as [running s2].
  cbn [fst snd] in Hkeep, Hflag. subst running. cbn [negb].
  destruct (fold_left (score_feature calculateFeatureHealth) (feature_stats_ cfg)
              (∅, feature_cache_ s2)) as [stat_scores cache].
  pose proof (compose_loop stat_scores (health_configs_ cfg) (last_health_scores_ s2, output))
    as Hloop.
  destruct (fold_left (compose_health stat_scores) (health_configs_ cfg)
              (last_health_scores_ s2, output)) as [last output'].
  cbv zeta in Hloop. cbn [fst snd] in Hloop |- *. destruct Hloop as (_ & Hnames & Hmono).
  split; [exact Hnames|]. intros key Hsome. apply Hmono. rewrite Hkeep. exact Hsome.
Qed.

(** X25.  A running reading stores what it reports, and idle readings
    repeat it.  After a call whose input has status 1, every configured
    health name has a score in the output and the same score among the
    remembered ones; a following call whose input is idle reports that same
    score for every configured health name. *)
Theorem evaluateHealth_running_then_idle (cfg : Config) (running idle : PluginData)
    (t1 t2 t3 t4 : Z) (s : State) (output output2 : PluginResultImpl) :
  input_status running = 1 ->
  input_status idle <> 1 ->
  let first := evaluateHealth calculateFeatureHealth cfg running t1 t2 s output in
  let second := evaluateHealth calculateFeatureHealth cfg idle t3 t4 first.1.2 output2 in
  forall config, config ∈ health_configs_ cfg ->
    exists value,
      double_data_ first.2 !! Evaluation.name config = Some value
      /\ getDoubleData (Evaluation.name config) first.2 = value
      /\ getDoubleData (Evaluation.name config) second.2 = value.
Proof.
  intros Hrun Hidle first second config Hin.
  destruct (evaluateHealth_running cfg running t1 t2 s output Hrun) as [Hnames _].
  destruct (Hnames config Hin) as (value & Hlast & Hout). fold first in Hlast, Hout.
  exists value. split; [exact Hout|]. split.
  - unfold getDoubleData. now rewrite Hout.
  - destruct (evaluateHealth_idle cfg idle t3 t4 first.1.2 output2 Hidle)
      as (_ & _ & _ & _ & _ & _ & _ & Hreplay).
    apply Hreplay. exact Hlast.
Qed.

(** X26.  Remembered scores are never forgotten.  Whatever the input, a
    health name that has a remembered score before a call has one after it.
    In particular the offline reset, which empties the sample caches when
    the previous call lies more than [offline_length_] seconds back, keeps
    the remembered scores: an idle reading after such a gap leaves empty
    caches and replays the old scores. *)
Theorem evaluateHealth_scores_persist (cfg : Config) (input : PluginData) (now_check now_cache : Z)
    (s : State) (output : PluginResultImpl) :
  let run := evaluateHealth calculateFeatureHealth cfg input now_check now_cache s output in
  (forall key, is_Some (last_health_scores_ s !! key) ->
               is_Some (last_health_scores_ run.1.2 !! key))
  /\ (prev_time_ s <> 0 ->
      offline_length_ cfg < Clock.seconds_between (prev_time_ s) now_check ->
      input_status input <> 1 ->
      feature_cache_ run.1.2 = ∅ /\ time_cache_ run.1.2 = ∅
      /\ last_health_scores_ run.1.2 = last_health_scores_ s).
Proof.
  intros run. subst run. split.
  - destruct (decide (input_status input = 1)) as [Hrun|Hidle].
    + apply (evaluateHealth_running cfg input now_check now_cache s output Hrun).
    + destruct (evaluateHealth_idle cfg input now_check now_cache s output Hidle)
        as (_ & Hlast & _).
      intros key. now rewrite Hlast.
  - intros Hseen Hgap Hidle.
    destruct (evaluateHealth_idle cfg input now_check now_cache s output Hidle)
      as (_ & Hlast & Hfc & Htc & _).
    rewrite Hfc, Htc. unfold offlineCheck.
    replace (prev_time_ s =? 0) with false by (symmetry; apply Z.eqb_neq; exact Hseen).
    replace (offline_length_ cfg <? Clock.seconds_between (prev_time_ s) now_check) with true
      by (symmetry; apply Z.ltb_lt; exact Hgap).
    repeat split. exact Hlast.
Qed.

End HealthEngine.

Section HealthEngineExamples.

Import RealtimeHealth HealthScenarios.

(** The two weights are the doubles that the literals [0.4] and [0.3]
    denote. *)
Example weights_bits :
  weight_0_4 = S754_finite false 7205759403792794 (-54)
  /\ weight_0_3 = S754_finite false 5404319552844595 (-54).
Proof. split; vm_compute; reflexivity. Qed.

Lemma evaluateHealth_idle_replays_witness :
  getDoubleData "overall_health"
    (evaluateHealth warming_up comp34 idle_reading 10 10
       (mkState ∅ ∅ (<["overall_health"%string := Double.of_Z 85]> ∅) 0 0 0) Result.empty).2
  = Double.of_Z 85.
Proof.
  destruct (evaluateHealth_idle_replays warming_up comp34 idle_reading 10 10
              (mkState ∅ ∅ (<["overall_health"%string := Double.of_Z 85]> ∅) 0 0 0) Result.empty)
    as (_ & _ & _ & _ & _ & _ & _ & Hreplay).
  - discriminate.
  - apply Hreplay. reflexivity.
Defined.

Lemma evaluateHealth_running_then_idle_witness :
  exists value,
    double_data_ (evaluateHealth warming_up comp34 running_reading 10 10 initial_state
                    Result.empty).2 !! "overall_health"%string = Some value
    /\ getDoubleData "overall_health"
         (evaluateHealth warming_up comp34 idle_reading 20 20
            (evaluateHealth warming_up comp34 running_reading 10 10 initial_state
               Result.empty).1.2 Result.empty).2 = value.
Proof.
  destruct (evaluateHealth_running_then_idle warming_up comp34 running_reading idle_reading
              10 10 20 20 initial_state Result.empty Result.empty) with (config := overall_health)
    as (value & Hfirst & _ & Hsecond).
  - vm_compute. reflexivity.
  - discriminate.
  - cbn. apply list_elem_of_here.
  - exists value. split; [exact Hfirst|exact Hsecond].
Defined.

Lemma evaluateHealth_scores_persist_witness :
  last_health_scores_
    (evaluateHealth warming_up comp34 idle_reading 2000000000000000 2000000000000000
       (mkState (<["mean_hf"%string := [Double.of_Z 150]]> ∅) ∅
          (<["overall_health"%string := Double.of_Z 85]> ∅) 0 1 1000000000)
       Result.empty).1.2
  = <["overall_health"%string := Double.of_Z 85]> ∅
  /\ feature_cache_
       (evaluateHealth warming_up comp34 idle_reading 2000000000000000 2000000000000000
          (mkState (<["mean_hf"%string := [Double.of_Z 150]]> ∅) ∅
             (<["overall_health"%string := Double.of_Z 85]> ∅) 0 1 1000000000)
          Result.empty).1.2 = ∅.
Proof.
  destruct (evaluateHealth_scores_persist warming_up comp34 idle_reading
              2000000000000000 2000000000000000
              (mkState (<["mean_hf"%string := [Double.of_Z 150]]> ∅) ∅
                 (<["overall_health"%string := Double.of_Z 85]> ∅) 0 1 1000000000)
              Result.empty) as [_ Hoffline].
  destruct Hoffline as (Hfc & _ & Hlast); [discriminate|reflexivity|discriminate|].
  split; [exact Hlast|exact Hfc].
Defined.

(** The running reading of the scenario reports the neutral score while the
    only resolved dependency is warming up. *)
Example evaluateHealth_warming_up :
  getDoubleData "overall_health"
    (evaluateHealth warming_up comp34 running_reading 10 10 initial_state Result.empty).2
  = Double.hundred.
Proof. vm_compute. reflexivity. Qed.

End HealthEngineExamples.

(** ** Parameter sets and array views *)

Section ParameterProperties.

Import Parameters.

(** X27.  Parameter lookups never fail and keep types apart.  On an empty
    parameter set every getter returns the caller's default (the array
    getters the empty array).  After a value is set under a key, the getter
    of its type returns it whatever default is passed, while lookups of
    other keys and lookups of the same key at another type are unchanged. *)
Theorem parameter_set_get (p : PluginParameterImpl) (key : string) (v d : value) :
  get key d empty = fallback d
  /\ (kind d = kind v -> get key d (set key v p) = v)
  /\ (kind d <> kind v -> get key d (set key v p) = get key d p)
  /\ (forall other, other <> key -> get other d (set key v p) = get other d p).
Proof.
  split; [destruct d; reflexivity|]. split; [|split].
  - intros Hkind.
    destruct v, d; try discriminate; cbn;
      unfold getString, getDouble, getInt, getBool, getDoubleArray, getIntArray; cbn;
      now rewrite lookup_insert_eq.
  - intros Hkind. destruct v, d; try reflexivity; cbn in Hkind; congruence.
  - intros other Hother.
    destruct v, d; try reflexivity; cbn;
      unfold getString, getDouble, getInt, getBool, getDoubleArray, getIntArray; cbn;
      now rewrite lookup_insert_ne by congruence.
Qed.

Lemma parameter_set_get_witness :
  getInt "offline_length" 3600 (setInt "offline_length" 60 empty) = 60
  /\ getInt "transition_status" 2 (setInt "offline_length" 60 empty) = 2.
Proof.
  destruct (parameter_set_get empty "offline_length" (PInt 60) (PInt 3600)) as (_ & Hsame & _).
  destruct (parameter_set_get empty "offline_length" (PInt 60) (PInt 2))
    as (Hempty & _ & _ & Hother).
  split.
  - exact (f_equal (fun v => match v with PInt i => i | _ => 0 end) (Hsame eq_refl)).
  - specialize (Hother "transition_status"%string). 
    assert (get "transition_status" (PInt 2) (set "offline_length" (PInt 60) empty) = PInt 2)
      as Hget by (rewrite Hother; [reflexivity|discriminate]).
    exact (f_equal (fun v => match v with PInt i => i | _ => 0 end) Hget).
Defined.

End ParameterProperties.

Section ResultArrayProperties.

Import ResultArrays.

(** X28.  The array views of a result record hold at most one element and
    drop the neutral value.  A key that stores the integer 0, a double equal
    to 0.0 or the empty string reads back as an empty array, exactly like an
    absent key, although [hasData] reports the key; any other stored value
    reads back as the one-element array. *)
Theorem result_array_views (r : PluginResultImpl) (key : string) :
  getIntArray key (setData_int key 0 r) = []
  /\ getDoubleArray key (setData_double key Double.zero r) = []
  /\ getStringArray key (setData_string key "" r) = []
  /\ hasData key (setData_int key 0 r) = true
  /\ getIntArray key Result.empty = []
  /\ (forall i, i <> 0 -> getIntArray key (setData_int key i r) = [i])
  /\ (forall d, Double.eqb d Double.zero = false ->
                getDoubleArray key (setData_double key d r) = [d])
  /\ (forall s, s <> ""%string -> getStringArray key (setData_string key s r) = [s]).
Proof.
  unfold getIntArray, getDoubleArray, getStringArray, getIntData, getDoubleData, getStringData,
    hasData; cbn. rewrite !lookup_insert_eq, !lookup_empty. cbn.
  split; [reflexivity|]. split; [reflexivity|]. split; [reflexivity|].
  split; [apply orb_true_r|]. split; [reflexivity|]. split; [|split].
  - intros i Hi. rewrite lookup_insert_eq. apply Z.eqb_neq in Hi. now rewrite Hi.
  - intros d Hd. rewrite lookup_insert_eq. now rewrite Hd.
  - intros s Hs. rewrite lookup_insert_eq. now rewrite bool_decide_eq_false_2.
Qed.

Lemma result_array_views_witness :
  getIntArray "status" (setData_int "status" 1 Result.empty) = [1]
  /\ getIntArray "status" (setData_int "status" 0 Result.empty) = [].
Proof.
  destruct (result_array_views Result.empty "status") as (Hzero & _ & _ & _ & _ & Hint & _).
  split; [apply Hint; discriminate|exact Hzero].
Defined.

End ResultArrayProperties.

(** ** The life cycle of an [AlgorithmWork] plugin *)

Section WorkLifecycle.

Import AlgorithmWork AlgorithmWorkMore.

Context {Param D : Type}.

(** X29.  [process] works only between a successful [initialize] and
    [cleanup].  On a fresh object, after an [initialize] whose parameters
    were rejected, and after [cleanup], [process] returns [false] and leaves
    the output untouched.  After an [initialize] whose parameters were
    accepted, [process] on a non-null input returns what [algorithm]
    returns, with the output as [algorithm] left it and the error text that
    [algorithm] set, if any; an exception of [algorithm] becomes the result
    [false] with the message kept as the error text; and on a null input
    [process] fails without touching the output. *)
Theorem process_lifecycle (w : AlgorithmWork Param D) (params : Param) (input : option D)
    (d : D) (output : PluginResultImpl) :
  (forall (validate : Param -> bool) (algo : D -> PluginResultImpl -> outcome),
      (process (construct validate algo) input output).1.1 = false
      /\ (process (construct validate algo) input output).2 = output)
  /\ ((process (cleanup w) input output).1.1 = false
      /\ (process (cleanup w) input output).2 = output)
  /\ (validateParameters w params = false ->
      (initialize w params).1 = false
      /\ (process (initialize w params).2 input output).1.1 = false
      /\ (process (initialize w params).2 input output).2 = output)
  /\ (validateParameters w params = true ->
      (initialize w params).1 = true
      /\ (forall ok output' error,
            algorithm w d output = Returns ok output' error ->
            (process (initialize w params).2 (Some d) output).1.1 = ok
            /\ (process (initialize w params).2 (Some d) output).2 = output'
            /\ last_error_ (process (initialize w params).2 (Some d) output).1.2
               = default (last_error_ w) error)
      /\ (forall what output',
            algorithm w d output = Throws what output' ->
            (process (initialize w params).2 (Some d) output).1.1 = false
            /\ (process (initialize w params).2 (Some d) output).2 = output'
            /\ last_error_ (process (initialize w params).2 (Some d) output).1.2
               = ("算法执行异常: " ++ what)%string)
      /\ (process (initialize w params).2 None output).1.1 = false
      /\ (process (initialize w params).2 None output).2 = output).
Proof.
  split; [intros validate algo; split; reflexivity|].
  split; [split; reflexivity|]. split.
  - intros Hbad. unfold initialize. rewrite Hbad. repeat split.
  - intros Hok. unfold initialize. rewrite Hok. unfold process; cbn.
    split; [reflexivity|]. split; [|split; [|split; reflexivity]].
    + intros ok output' error ->. destruct error; repeat split.
    + intros what output' ->. repeat split.
Qed.

End WorkLifecycle.

Section WorkLifecycleExamples.

Import AlgorithmWork.

Lemma process_lifecycle_witness :
  (process (initialize Examples.extractor ["mean_hf"%string]).2 (Some tt) Result.empty).1.1 = true
  /\ (process (initialize Examples.extractor []).2 (Some tt) Result.empty).1.1 = false.
Proof.
  destruct (process_lifecycle Examples.extractor ["mean_hf"%string] (Some tt) tt Result.empty)
    as (_ & _ & _ & Hgood).
  destruct (process_lifecycle Examples.extractor [] (Some tt) tt Result.empty)
    as (_ & _ & Hbad & _).
  destruct Hgood as (_ & Hreturns & _); [reflexivity|].
  destruct Hbad as (_ & Hfail & _); [reflexivity|].
  split; [|exact Hfail].
  now apply (Hreturns true (setData_double "mean_hf" Examples.d150 Result.empty) None).
Defined.

End WorkLifecycleExamples.

(** ** Execution metrics *)

Section MonitorProperties.

Import Monitor.

Lemma wrap_add_l (a n : Z) : wrap (wrap a + n) = wrap (a + n).
Proof. unfold wrap. apply Zplus_mod_idemp_l. Qed.

Lemma wrap_wrap (a : Z) : wrap (wrap a) = wrap a.
Proof. unfold wrap. apply Zmod_mod. Qed.

Lemma recordExecution_monitored (name : string) (success : bool) (t : double) (msg : string)
    (now : Z) (s : State) :
  monitoring_enabled_ s = true -> name ∈ monitored_plugins_ s ->
  recordExecution name success t msg now s
  = mkState (<[name := record success t msg now
                         (default (fresh_metrics name) (plugin_metrics_ s !! name))]>
               (plugin_metrics_ s))
            (monitored_plugins_ s) (monitoring_enabled_ s).
Proof.
  intros Hon Hin. unfold recordExecution. rewrite Hon, (bool_decide_eq_true_2 _ Hin). reflexivity.
Qed.

Lemma record_all_counts (name : string) (executions : list execution) :
  forall s : State,
    monitoring_enabled_ s = true -> name ∈ monitored_plugins_ s ->
    let before := default (fresh_metrics name) (plugin_metrics_ s !! name) in
    let after := default (fresh_metrics name) (plugin_metrics_ (record_all name executions s) !! name) in
    wrap (execution_count after)
    = wrap (execution_count before + Z.of_nat (List.length executions))
    /\ wrap (success_count after) = wrap (success_count before + Z.of_nat (successes executions))
    /\ wrap (error_count after) = wrap (error_count before + Z.of_nat (failures executions)).
Proof.
  unfold record_all, successes, failures.
  induction executions as [|[[[success t] msg] now] executions IH]; intros s Hon Hin; cbn zeta.
  - cbn. rewrite !Z.add_0_r.
    split; [reflexivity|]. split; reflexivity.
  - cbn [fold_left fst snd]. rewrite recordExecution_monitored by assumption.
    set (s1 := mkState _ _ _).
    destruct (IH s1 Hon Hin) as (Hexec & Hsucc & Herr). clear IH.
    cbv zeta in Hexec, Hsucc, Herr.
    assert (plugin_metrics_ s1 !! name
            = Some (record success t msg now
                      (default (fresh_metrics name) (plugin_metrics_ s !! name)))) as Hs1
      by (subst s1; cbn; apply lookup_insert_eq).
    rewrite Hs1 in Hexec, Hsucc, Herr. cbn [default from_option id] in Hexec, Hsucc, Herr.
    cbn [record execution_count success_count error_count] in Hexec, Hsucc, Herr.
    rewrite Hexec, Hsucc, Herr. rewrite !filter_cons. cbn [fst snd List.length].
    split; [|split].
    + rewrite wrap_add_l. f_equal. lia.
    + destruct success.
      * rewrite decide_True by reflexivity. cbn [List.length].
        rewrite wrap_add_l. f_equal. lia.
      * rewrite decide_False by discriminate. reflexivity.
    + destruct success.
      * rewrite decide_False by discriminate. reflexivity.
      * rewrite decide_True by reflexivity. cbn [List.length].
        rewrite wrap_add_l. f_equal. lia.
Qed.

(** X30.  The counters of a monitored plugin count its executions.  While
    monitoring is enabled and the plugin is monitored, after any sequence of
    reported executions the execution count has grown by their number, the
    success count by the number of successes and the error count by the
    number of failures (all modulo [2^64]); a report for a plugin that is
    not monitored, or while monitoring is disabled, changes nothing, and
    [stopMonitoring] keeps the metrics gathered so far. *)
Theorem recordExecution_counts (name : string) (executions : list execution) (s : State) :
  (monitoring_enabled_ s = true -> name ∈ monitored_plugins_ s ->
   let before := default (fresh_metrics name) (plugin_metrics_ s !! name) in
   let after :=
     default (fresh_metrics name) (plugin_metrics_ (record_all name executions s) !! name) in
   wrap (execution_count after)
   = wrap (execution_count before + Z.of_nat (List.length executions))
   /\ wrap (success_count after) = wrap (success_count before + Z.of_nat (successes executions))
   /\ wrap (error_count after) = wrap (error_count before + Z.of_nat (failures executions)))
  /\ (monitoring_enabled_ s = false \/ name ∉ monitored_plugins_ s ->
      record_all name executions s = s)
  /\ (forall success t msg now,
        recordExecution name success t msg now (stopMonitoring name s) = stopMonitoring name s
        /\ getPluginMetrics name (stopMonitoring name s) = getPluginMetrics name s).
Proof.
  split; [|split].
  - intros Hon Hin. apply (record_all_counts name executions s Hon Hin).
  - intros Hoff. unfold record_all.
    induction executions as [|e executions IH]; [reflexivity|]. cbn [fold_left].
    assert (recordExecution name e.1.1.1 e.1.1.2 e.1.2 e.2 s = s) as ->; [|exact IH].
    unfold recordExecution. destruct Hoff as [->|Hout]; [reflexivity|].
    rewrite (bool_decide_eq_false_2 _ Hout). now rewrite orb_true_r.
  - intros success t msg now. split; [|reflexivity].
    unfold recordExecution, stopMonitoring; cbn.
    rewrite bool_decide_eq_false_2
      by (apply not_elem_of_difference; right; now apply elem_of_singleton).
    now rewrite orb_true_r.
Qed.

Lemma recordExecution_counts_witness :
  getExecutionCount "motor97"
    (record_all "motor97"
       [(true, Double.of_Z 3, ""%string, 10); (false, Double.of_Z 5, "缺少特征"%string, 20);
        (true, Double.of_Z 4, ""%string, 30)]
       (startMonitoring "motor97" initial_state)) = 3.
Proof.
  destruct (recordExecution_counts "motor97"
              [(true, Double.of_Z 3, ""%string, 10); (false, Double.of_Z 5, "缺少特征"%string, 20);
               (true, Double.of_Z 4, ""%string, 30)]
              (startMonitoring "motor97" initial_state)) as [Hcounts _].
  destruct Hcounts as (Hexec & _); [reflexivity|vm_compute; reflexivity|].
  vm_compute. reflexivity.
Defined.

End MonitorProperties.
